(** * Classifier controller: reconciliation, index maintenance and
      label registration, embedded from the Go sources

    The development follows the controller package function by function.
    Go structs become records (one module per struct, so that field names
    stay those of the source), Go maps become [gmap]/[gset], slices become
    lists, [(T, error)] results become sums or pairs with an optional
    error, and the collaborators the controller only talks to through an
    interface (the asynchronous deployer, the label key manager, the
    Kubernetes client) are interfaces here as well. *)

From Stdlib Require Import Ascii.
From stdpp Require Import gmap strings list fin_maps sets pretty.

Local Open Scope string_scope.
Local Open Scope list_scope.

(** ** Go values *)

(** A Go [error]; [apierrors.IsNotFound] tells the two kinds apart. *)
Inductive error : Type :=
  | NotFoundError (msg : string)
  | OtherError (msg : string).

#[global] Instance error_eq_dec : EqDecision error.
Proof. solve_decision. Defined.

Definition IsNotFound (e : error) : bool :=
  match e with NotFoundError _ => true | OtherError _ => false end.

(** [errors.New] and [fmt.Errorf] build plain errors. *)
Definition errorsNew (msg : string) : error := OtherError msg.

(** A call returning [(T, error)] with exactly one of them meaningful. *)
Inductive GoResult (A : Type) : Type :=
  | Ok (a : A)
  | Err (e : error).
Arguments Ok {A} a.
Arguments Err {A} e.

(** [[]byte]: [None] is the nil slice, which [reflect.DeepEqual] tells
    apart from an empty one. *)
Definition bytes : Type := option (list Byte.byte).

#[global] Instance byte_eq_dec : EqDecision Byte.byte := Byte.byte_eq_dec.

Definition DeepEqual (a b : bytes) : bool := bool_decide (a = b).

(** ** API types *)

(** [corev1.ObjectReference]; the controller only ever fills these four
    fields. *)
Module ObjectReference.
Record t : Type := mk {
    Kind : string;
    Namespace : string;
    Name : string;
    APIVersion : string
  }.
Definition zero : t := mk "" "" "" "".
Definition to_tuple (r : t) : string * string * string * string :=
    (Kind r, Namespace r, Name r, APIVersion r).
Definition of_tuple (p : string * string * string * string) : t :=
    let '(k, ns, n, v) := p in mk k ns n v.
#[global] Instance eq_dec : EqDecision t.
Proof. solve_decision. Defined.
#[global] Instance countable : Countable t.
Proof. apply (inj_countable' to_tuple of_tuple). by intros []. Defined.
End ObjectReference.

(** [libsveltosv1alpha1.PolicyRef], the key and element type of the
    in-memory index. *)
Module PolicyRef.
Record t : Type := mk {
    Kind : string;
    Namespace : string;
    Name : string
  }.
Definition to_tuple (r : t) : string * string * string :=
    (Kind r, Namespace r, Name r).
Definition of_tuple (p : string * string * string) : t :=
    let '(k, ns, n) := p in mk k ns n.
#[global] Instance eq_dec : EqDecision t.
Proof. solve_decision. Defined.
#[global] Instance countable : Countable t.
Proof. apply (inj_countable' to_tuple of_tuple). by intros []. Defined.
End PolicyRef.

Definition ClassifierKind : string := "Classifier".
Definition ClassifierFinalizer : string := "classifierfinalizer.projectsveltos.io".
Definition ClassifierLabelName : string := "projectsveltos.io/classifier-name".

(** [libsveltosv1alpha1.ClassifierFeatureStatus]; the zero value of the
    Go string type is [ClassifierStatusUnset]. *)
Inductive ClassifierFeatureStatus : Type :=
  | ClassifierStatusUnset
  | ClassifierStatusProvisioning
  | ClassifierStatusProvisioned
  | ClassifierStatusFailed
  | ClassifierStatusRemoving
  | ClassifierStatusRemoved.

#[global] Instance ClassifierFeatureStatus_eq_dec : EqDecision ClassifierFeatureStatus.
Proof. solve_decision. Defined.

Module ClusterInfo.
Record t : Type := mk {
    Cluster : ObjectReference.t;
    Hash : bytes;
    Status : ClassifierFeatureStatus;
    FailureMessage : option string
  }.
#[global] Instance eq_dec : EqDecision t.
Proof. solve_decision. Defined.
End ClusterInfo.

Module UnManagedLabel.
Record t : Type := mk {
    Key : string;
    FailureMessage : option string
  }.
#[global] Instance eq_dec : EqDecision t.
Proof. solve_decision. Defined.
End UnManagedLabel.

(** Slices of labels: [None] is the nil slice of a zero-valued struct,
    [Some []] the empty slice [make(..., 0)] returns. *)
Module MachingClusterStatus.
Record t : Type := mk {
    ClusterRef : ObjectReference.t;
    ManagedLabels : option (list string);
    UnManagedLabels : option (list UnManagedLabel.t)
  }.
Definition zero : t := mk ObjectReference.zero None None.
#[global] Instance eq_dec : EqDecision t.
Proof. solve_decision. Defined.
End MachingClusterStatus.

Module ClassifierLabel.
Record t : Type := mk {
    Key : string;
    Value : string
  }.
End ClassifierLabel.

Module ClassifierStatus.
Record t : Type := mk {
    ClusterInfo : list ClusterInfo.t;
    MachingClusterStatuses : list MachingClusterStatus.t
  }.
End ClassifierStatus.

(** [libsveltosv1alpha1.Classifier]: of the specification only the label
    assignments are read by the controller; everything else reaches the
    hash function as a whole. *)
Module Classifier.
Record t : Type := mk {
    Name : string;
    Annotations : gmap string string;
    Finalizers : list string;
    DeletionTimestamp : option Z;
    ClassifierLabels : list ClassifierLabel.t;
    Status : ClassifierStatus.t
  }.
End Classifier.

(** [clusterv1.Cluster] as far as the controller looks at it. *)
Module Cluster.
Record t : Type := mk {
    Namespace : string;
    Name : string;
    DeletionTimestamp : option Z
  }.
End Cluster.

(** [classifierScope.SetClusterInfo] and
    [classifierScope.SetMachingClusterStatuses] overwrite one status
    field of the Classifier the scope points to. *)
Definition SetClusterInfo (c : Classifier.t) (clusterInfo : list ClusterInfo.t)
  : Classifier.t :=
  Classifier.mk (Classifier.Name c) (Classifier.Annotations c)
    (Classifier.Finalizers c) (Classifier.DeletionTimestamp c)
    (Classifier.ClassifierLabels c)
    (ClassifierStatus.mk clusterInfo
       (ClassifierStatus.MachingClusterStatuses (Classifier.Status c))).

Definition SetMachingClusterStatuses (c : Classifier.t)
  (statuses : list MachingClusterStatus.t) : Classifier.t :=
  Classifier.mk (Classifier.Name c) (Classifier.Annotations c)
    (Classifier.Finalizers c) (Classifier.DeletionTimestamp c)
    (Classifier.ClassifierLabels c)
    (ClassifierStatus.mk
       (ClassifierStatus.ClusterInfo (Classifier.Status c)) statuses).

Definition statusClusterInfo (c : Classifier.t) : list ClusterInfo.t :=
  ClassifierStatus.ClusterInfo (Classifier.Status c).

Definition statusMachingClusterStatuses (c : Classifier.t)
  : list MachingClusterStatus.t :=
  ClassifierStatus.MachingClusterStatuses (Classifier.Status c).

(** [DeletionTimestamp.IsZero()] *)
Definition IsZero (t : option Z) : bool :=
  match t with None => true | Some _ => false end.

(** ** Fan-out: the list of target clusters *)

(** [getListOfClusters]: every listed cluster that is not being deleted,
    as a reference carrying namespace and name only. [listed] is what
    [r.List] returned. *)
Definition getListOfClusters (listed : GoResult (list Cluster.t))
  : GoResult (list ObjectReference.t) :=
  match listed with
  | Err e => Err e
  | Ok items =>
      Ok (foldl
            (fun matching cluster =>
               if negb (IsZero (Cluster.DeletionTimestamp cluster))
               then matching
               else matching ++
                    [ObjectReference.mk "" (Cluster.Namespace cluster)
                       (Cluster.Name cluster) ""])
            [] items)
  end.

(** The closure [getClusterID] of [updateClusterInfo]:
    [fmt.Sprintf("%s/%s", cluster.Namespace, cluster.Name)]. *)
Definition getClusterID (cluster : ObjectReference.t) : string :=
  ObjectReference.Namespace cluster +:+ "/" +:+ ObjectReference.Name cluster.

Definition newEntry (c : ObjectReference.t) : ClusterInfo.t :=
  ClusterInfo.mk c None ClassifierStatusUnset None.

(** [updateClusterInfo] *)
Definition updateClusterInfo (listed : GoResult (list Cluster.t))
  (classifier : Classifier.t) : Classifier.t * option error :=
  match getListOfClusters listed with
  | Err e => (classifier, Some e)
  | Ok matchingCluster =>
      let clusterMap : gmap string bool :=
        foldl (fun m c => <[getClusterID (ClusterInfo.Cluster c) := true]> m)
          ∅ (statusClusterInfo classifier) in
      let newClusterInfo :=
        foldl (fun acc c =>
                 match clusterMap !! getClusterID c with
                 | Some _ => acc
                 | None => acc ++ [newEntry c]
                 end)
          [] matchingCluster in
      let finalClusterInfo := statusClusterInfo classifier ++ newClusterInfo in
      (SetClusterInfo classifier finalClusterInfo, None)
  end.

(** Kubernetes namespaces are DNS labels: they never contain a slash. *)
Fixpoint hasSlash (s : string) : bool :=
  match s with
  | EmptyString => false
  | String a rest => if decide (a = "/"%char) then true else hasSlash rest
  end.

Definition noSlash (s : string) : Prop := hasSlash s = false.

(** The identity of a cluster: its namespace and name. *)
Definition refKey (r : ObjectReference.t) : string * string :=
  (ObjectReference.Namespace r, ObjectReference.Name r).

Definition clusterRef (cl : Cluster.t) : ObjectReference.t :=
  ObjectReference.mk "" (Cluster.Namespace cl) (Cluster.Name cl) "".

Definition entryKey (e : ClusterInfo.t) : string * string :=
  refKey (ClusterInfo.Cluster e).

(** ** The in-memory index *)

Inductive ReportMode : Type :=
  | CollectFromManagementCluster
  | AgentSendReportsNoGateway.

#[global] Instance ReportMode_eq_dec : EqDecision ReportMode.
Proof. solve_decision. Defined.

(** [ClassifierReconciler]: the configuration and the maps guarded by
    [Mux]. The maps hold pointers to sets in the source; a set that is
    modified in place is stored back under its key here. *)
Module ClassifierReconciler.
Record t : Type := mk {
    ClassifierReportMode : ReportMode;
    ControlPlaneEndpoint : string;
    ClusterMap : gmap PolicyRef.t (gset PolicyRef.t);
    ClassifierMap : gmap PolicyRef.t (gset PolicyRef.t);
    ClassifierSet : gset PolicyRef.t;
    AllClassifierSet : gset PolicyRef.t
  }.
Definition withClusterMap (r : t) (m : gmap PolicyRef.t (gset PolicyRef.t)) : t :=
    mk (ClassifierReportMode r) (ControlPlaneEndpoint r) m (ClassifierMap r)
      (ClassifierSet r) (AllClassifierSet r).
Definition withClassifierMap (r : t) (m : gmap PolicyRef.t (gset PolicyRef.t)) : t :=
    mk (ClassifierReportMode r) (ControlPlaneEndpoint r) (ClusterMap r) m
      (ClassifierSet r) (AllClassifierSet r).
Definition withSets (r : t) (cs all : gset PolicyRef.t) : t :=
    mk (ClassifierReportMode r) (ControlPlaneEndpoint r) (ClusterMap r)
      (ClassifierMap r) cs all.
  (** The reconciler as the manager starts it: empty maps and sets. *)
Definition new (mode : ReportMode) (endpoint : string) : t :=
    mk mode endpoint ∅ ∅ ∅ ∅.
End ClassifierReconciler.

(** [libsveltosset.Set]: [Insert], [Erase] and [Difference] (the items of
    the receiver that are not in the argument, as a slice). *)
Definition Insert (s : gset PolicyRef.t) (e : PolicyRef.t) : gset PolicyRef.t :=
  {[e]} ∪ s.
Definition Erase (s : gset PolicyRef.t) (e : PolicyRef.t) : gset PolicyRef.t :=
  s ∖ {[e]}.
Definition Difference (s other : gset PolicyRef.t) : list PolicyRef.t :=
  elements (s ∖ other).

(** [getClusterMapForEntry]: the set stored for [entry], created empty
    when there is none. *)
Definition getClusterMapForEntry (r : ClassifierReconciler.t) (entry : PolicyRef.t)
  : gset PolicyRef.t * ClassifierReconciler.t :=
  match ClassifierReconciler.ClusterMap r !! entry with
  | Some s => (s, r)
  | None =>
      (∅, ClassifierReconciler.withClusterMap r
            (<[entry := ∅]> (ClassifierReconciler.ClusterMap r)))
  end.

(** [r.getClusterMapForEntry(entry).Insert(x)] and [...Erase(x)]: the
    set behind the pointer changes, so the map entry does. *)
Definition modifyClusterMapEntry (op : gset PolicyRef.t -> PolicyRef.t -> gset PolicyRef.t)
  (r : ClassifierReconciler.t) (entry x : PolicyRef.t) : ClassifierReconciler.t :=
  let '(s, r) := getClusterMapForEntry r entry in
  ClassifierReconciler.withClusterMap r
    (<[entry := op s x]> (ClassifierReconciler.ClusterMap r)).

Definition clusterPolicyRef (cluster : ObjectReference.t) : PolicyRef.t :=
  PolicyRef.mk "Cluster" (ObjectReference.Namespace cluster)
    (ObjectReference.Name cluster).

Definition classifierPolicyRef (name : string) : PolicyRef.t :=
  PolicyRef.mk ClassifierKind "" name.

(** [updateMaps] *)
Definition updateMaps (r : ClassifierReconciler.t) (classifier : Classifier.t)
  : ClassifierReconciler.t :=
  let currentClusters :=
    foldl (fun s ci => Insert s (clusterPolicyRef (ClusterInfo.Cluster ci)))
      ∅ (statusClusterInfo classifier) in
  let classifierInfo := classifierPolicyRef (Classifier.Name classifier) in
  let toBeRemoved :=
    match ClassifierReconciler.ClassifierMap r !! classifierInfo with
    | Some v => Difference v currentClusters
    | None => []
    end in
  let r :=
    foldl (fun r ci =>
             modifyClusterMapEntry Insert r
               (clusterPolicyRef (ClusterInfo.Cluster ci)) classifierInfo)
      r (statusClusterInfo classifier) in
  let r :=
    foldl (fun r clusterName =>
             modifyClusterMapEntry Erase r clusterName classifierInfo)
      r toBeRemoved in
  ClassifierReconciler.withClassifierMap r
    (<[classifierInfo := currentClusters]> (ClassifierReconciler.ClassifierMap r)).

(** Reading the index: an absent key is an empty set. *)
Definition clustersOf (r : ClassifierReconciler.t) (P : PolicyRef.t) : gset PolicyRef.t :=
  default ∅ (ClassifierReconciler.ClassifierMap r !! P).
Definition classifiersOf (r : ClassifierReconciler.t) (C : PolicyRef.t) : gset PolicyRef.t :=
  default ∅ (ClassifierReconciler.ClusterMap r !! C).

(** [updateClassifierSet] *)
Definition updateClassifierSet (r : ClassifierReconciler.t)
  (classifierName : string) (hasUnManaged : bool) : ClassifierReconciler.t :=
  let classifierInfo := classifierPolicyRef classifierName in
  ClassifierReconciler.withSets r
    (if hasUnManaged
     then Insert (ClassifierReconciler.ClassifierSet r) classifierInfo
     else Erase (ClassifierReconciler.ClassifierSet r) classifierInfo)
    (Insert (ClassifierReconciler.AllClassifierSet r) classifierInfo).

(** The mirror invariant of the index. *)
Definition mirror (r : ClassifierReconciler.t) : Prop :=
  forall P C, P ∈ classifiersOf r C ↔ C ∈ clustersOf r P.

(** ** Label registrations through the key manager *)

Module ClassifierReportSpec.
Record t : Type := mk {
    ClusterNamespace : string;
    ClusterName : string;
    ClassifierName : string;
    Match : bool
  }.
End ClassifierReportSpec.

(** [Labels] is [None] for a nil map. *)
Module ClassifierReport.
Record t : Type := mk {
    Namespace : string;
    Name : string;
    Labels : option (gmap string string);
    Spec : ClassifierReportSpec.t
  }.
End ClassifierReport.

(** The methods of the key manager the controller calls. The manager is
    a singleton behind a pointer; its state is threaded explicitly. *)
Class KeyManager (K : Type) : Type := {
  RemoveStaleRegistrations : K -> Classifier.t -> string -> string -> K;
  RegisterClassifierForLabels : K -> Classifier.t -> string -> string -> K;
  RemoveAllRegistrations : K -> Classifier.t -> string -> string -> K;
  CanManageLabel : K -> Classifier.t -> string -> string -> string -> bool;
  GetManagerForKey : K -> string -> string -> string -> GoResult string
}.

(** The state-changing calls made on the manager, in program order:
    Classifier name, cluster namespace, cluster name. *)
Inductive KeyManagerCall : Type :=
  | CallRemoveStaleRegistrations (classifier clusterNamespace clusterName : string)
  | CallRegisterClassifierForLabels (classifier clusterNamespace clusterName : string)
  | CallRemoveAllRegistrations (classifier clusterNamespace clusterName : string).

#[global] Instance KeyManagerCall_eq_dec : EqDecision KeyManagerCall.
Proof. solve_decision. Defined.

(** What the controller sees of the key manager: whether
    [keymanager.GetKeyManagerInstance] fails, the manager it returns
    otherwise, and the calls made so far. *)
Module Registry.
Record t (K : Type) : Type := mk {
    instanceError : option error;
    manager : K;
    calls : list KeyManagerCall
  }.
Arguments mk {K} _ _ _.
Arguments instanceError {K} _.
Arguments manager {K} _.
Arguments calls {K} _.
End Registry.

(** The three loops ranging over a Go map; Go fixes no iteration order
    and may pick a different one at every [range] statement. *)
Inductive RangeSite : Type :=
  | RangeRegister
  | RangeUnregister
  | RangeClassify.

Section Registrations.
Context {K : Type} `{KeyManager K}.

  (** The order in which a [range] statement visits the keys. *)
Variable rangeOrder : RangeSite -> gset ObjectReference.t -> list ObjectReference.t.

Definition GetKeyManagerInstance (w : Registry.t K) : option error :=
    Registry.instanceError w.

Definition callRemoveStaleRegistrations (w : Registry.t K)
    (classifier : Classifier.t) (ns name : string) : Registry.t K :=
    Registry.mk (Registry.instanceError w)
      (RemoveStaleRegistrations (Registry.manager w) classifier ns name)
      (Registry.calls w ++
         [CallRemoveStaleRegistrations (Classifier.Name classifier) ns name]).

Definition callRegisterClassifierForLabels (w : Registry.t K)
    (classifier : Classifier.t) (ns name : string) : Registry.t K :=
    Registry.mk (Registry.instanceError w)
      (RegisterClassifierForLabels (Registry.manager w) classifier ns name)
      (Registry.calls w ++
         [CallRegisterClassifierForLabels (Classifier.Name classifier) ns name]).

Definition callRemoveAllRegistrations (w : Registry.t K)
    (classifier : Classifier.t) (ns name : string) : Registry.t K :=
    Registry.mk (Registry.instanceError w)
      (RemoveAllRegistrations (Registry.manager w) classifier ns name)
      (Registry.calls w ++
         [CallRemoveAllRegistrations (Classifier.Name classifier) ns name]).

  (** [handleLabelRegistrations]; the slice [matchingClusterRefs] it
      fills is never read and is left out. *)
Definition handleLabelRegistrations (w : Registry.t K) (classifier : Classifier.t)
    (currentMatchingClusters oldMatchingClusters : gset ObjectReference.t)
    : Registry.t K * option error :=
    match GetKeyManagerInstance w with
    | Some e => (w, Some e)
    | None =>
        let w :=
          foldl (fun w c =>
                   let w := callRemoveStaleRegistrations w classifier
                              (ObjectReference.Namespace c) (ObjectReference.Name c) in
                   callRegisterClassifierForLabels w classifier
                     (ObjectReference.Namespace c) (ObjectReference.Name c))
            w (rangeOrder RangeRegister currentMatchingClusters) in
        let w :=
          foldl (fun w c =>
                   if decide (c ∈ currentMatchingClusters) then w
                   else callRemoveAllRegistrations w classifier
                          (ObjectReference.Namespace c) (ObjectReference.Name c))
            w (rangeOrder RangeUnregister oldMatchingClusters) in
        (w, None)
    end.

  (** [classifyLabels] *)
Definition classifyLabels (w : Registry.t K) (classifier : Classifier.t)
    (cluster : ObjectReference.t)
    : GoResult (list string * list UnManagedLabel.t) :=
    match GetKeyManagerInstance w with
    | Some e => Err e
    | None =>
        Ok (foldl
              (fun '(managed, unManaged) label =>
                 if CanManageLabel (Registry.manager w) classifier
                      (ObjectReference.Namespace cluster)
                      (ObjectReference.Name cluster) (ClassifierLabel.Key label)
                 then (managed ++ [ClassifierLabel.Key label], unManaged)
                 else
                   let failureMessage :=
                     match GetManagerForKey (Registry.manager w)
                             (ObjectReference.Namespace cluster)
                             (ObjectReference.Name cluster)
                             (ClassifierLabel.Key label) with
                     | Ok currentManager =>
                         Some ("classifier " +:+ currentManager +:+
                               " currently manage this")
                     | Err _ => None
                     end in
                   (managed,
                    unManaged ++
                      [UnManagedLabel.mk (ClassifierLabel.Key label) failureMessage]))
              ([], []) (Classifier.ClassifierLabels classifier))
    end.

  (** The loop of [updateMatchingClustersAndRegistrations] that fills
      [matchingClusterStatus]. The index [i] is declared before the loop
      and the body never changes it. *)
Fixpoint classifyClusters (w : Registry.t K) (classifier : Classifier.t)
    (clusters : list ObjectReference.t) (i unManaged : nat)
    (matchingClusterStatus : list MachingClusterStatus.t)
    : GoResult (nat * list MachingClusterStatus.t) :=
    match clusters with
    | [] => Ok (unManaged, matchingClusterStatus)
    | c :: clusters =>
        match classifyLabels w classifier c with
        | Err e => Err e
        | Ok (tmpManaged, tmpUnmanaged) =>
            classifyClusters w classifier clusters i
              (unManaged + length tmpUnmanaged)
              (<[i := MachingClusterStatus.mk c (Some tmpManaged) (Some tmpUnmanaged)]>
                 matchingClusterStatus)
        end
    end.

  (** The two maps [updateMatchingClustersAndRegistrations] builds. *)
Definition currentMatching (items : list ClassifierReport.t) : gset ObjectReference.t :=
    foldl (fun (m : gset ObjectReference.t) report =>
             if ClassifierReportSpec.Match (ClassifierReport.Spec report)
             then {[ObjectReference.mk ""
                      (ClassifierReportSpec.ClusterNamespace (ClassifierReport.Spec report))
                      (ClassifierReportSpec.ClusterName (ClassifierReport.Spec report))
                      ""]} ∪ m
             else m)
      ∅ items.

Definition oldMatching (classifier : Classifier.t) : gset ObjectReference.t :=
    foldl (fun (m : gset ObjectReference.t) ref =>
             {[MachingClusterStatus.ClusterRef ref]} ∪ m)
      ∅ (statusMachingClusterStatuses classifier).

  (** [updateMatchingClustersAndRegistrations]; [listed] is the answer of
      [r.List] for the ClassifierReports labelled with this Classifier. *)
Definition updateMatchingClustersAndRegistrations
    (r : ClassifierReconciler.t) (w : Registry.t K) (classifier : Classifier.t)
    (listed : GoResult (list ClassifierReport.t))
    : ClassifierReconciler.t * Registry.t K * Classifier.t * option error :=
    match listed with
    | Err e => (r, w, classifier, Some e)
    | Ok items =>
        let currentMatchingClusters := currentMatching items in
        let oldMatchingClusters := oldMatching classifier in
        match handleLabelRegistrations w classifier
                currentMatchingClusters oldMatchingClusters with
        | (w, Some e) => (r, w, classifier, Some e)
        | (w, None) =>
            let matchingClusterStatus :=
              replicate (size currentMatchingClusters) MachingClusterStatus.zero in
            match classifyClusters w classifier
                    (rangeOrder RangeClassify currentMatchingClusters)
                    0 0 matchingClusterStatus with
            | Err e => (r, w, classifier, Some e)
            | Ok (unManaged, matchingClusterStatus) =>
                let r := updateClassifierSet r (Classifier.Name classifier)
                           (negb (Nat.eqb unManaged 0)) in
                (r, w, SetMachingClusterStatuses classifier matchingClusterStatus, None)
            end
        end
    end.

  (** [removeAllRegistrations] of the reconciler, used on deletion. *)
Definition removeAllRegistrations (w : Registry.t K) (classifier : Classifier.t)
    : Registry.t K * option error :=
    match GetKeyManagerInstance w with
    | Some e => (w, Some e)
    | None =>
        (foldl (fun w status =>
                  callRemoveAllRegistrations w classifier
                    (ObjectReference.Namespace (MachingClusterStatus.ClusterRef status))
                    (ObjectReference.Name (MachingClusterStatus.ClusterRef status)))
           w (statusMachingClusterStatuses classifier),
         None)
    end.
End Registrations.

(** The calls one iteration of the registration loop makes for cluster
    [c], and the call one iteration of the clean-up loop makes. *)
Definition registerCalls (classifier : Classifier.t) (c : ObjectReference.t)
  : list KeyManagerCall :=
  [CallRemoveStaleRegistrations (Classifier.Name classifier)
     (ObjectReference.Namespace c) (ObjectReference.Name c);
   CallRegisterClassifierForLabels (Classifier.Name classifier)
     (ObjectReference.Namespace c) (ObjectReference.Name c)].

Definition unregisterCall (classifier : Classifier.t) (c : ObjectReference.t)
  : KeyManagerCall :=
  CallRemoveAllRegistrations (Classifier.Name classifier)
    (ObjectReference.Namespace c) (ObjectReference.Name c).

(** ** The asynchronous deployer and the cluster API *)

Inductive ClusterType : Type :=
  | ClusterTypeCapi
  | ClusterTypeSveltos.

#[global] Instance ClusterType_eq_dec : EqDecision ClusterType.
Proof. solve_decision. Defined.

(** [deployer.ResultStatus] *)
Inductive ResultStatus : Type :=
  | Deployed
  | InProgress
  | Failed
  | Removed
  | Unavailable.

#[global] Instance ResultStatus_eq_dec : EqDecision ResultStatus.
Proof. solve_decision. Defined.

(** [deployer.Result] *)
Module Result.
Record t : Type := mk {
  Status : ResultStatus;
  Err : option error
}.
#[global] Instance eq_dec : EqDecision t.
Proof. solve_decision. Defined.
End Result.

(** The request handlers the controller hands to the deployer; the
    controller never runs them itself. *)
Inductive RequestHandler : Type :=
  | deployClassifierInCluster
  | deployClassifierWithKubeconfigInCluster
  | undeployClassifierFromCluster.

#[global] Instance RequestHandler_eq_dec : EqDecision RequestHandler.
Proof. solve_decision. Defined.

(** [deployer.Options]; [HandlerOptions] is [None] for a nil map. *)
Module Options.
Record t : Type := mk {
  HandlerOptions : option (gmap string string)
}.
#[global] Instance eq_dec : EqDecision t.
Proof. solve_decision. Defined.
End Options.

Definition controlplaneendpoint : string := "controlplaneendpoint-key".

(** [deployer.DeployerInterface], as far as the controller uses it. The
    arguments are cluster namespace, cluster name, applicant, feature
    id, cluster type and the cleanup flag; [Deploy] also takes the
    handler, the time budget and the options. *)
Class DeployerInterface (D : Type) : Type := {
  IsInProgress :
    D -> string -> string -> string -> string -> ClusterType -> bool -> bool;
  GetResult :
    D -> string -> string -> string -> string -> ClusterType -> bool -> Result.t * D;
  Deploy :
    D -> string -> string -> string -> string -> ClusterType -> bool ->
    RequestHandler -> Z -> Options.t -> option error * D
}.

(** Every call made on the deployer, with its answer, in program order. *)
Inductive DeployerCall : Type :=
  | CallIsInProgress (clusterNamespace clusterName applicant featureID : string)
      (clusterType : ClusterType) (cleanup : bool) (answer : bool)
  | CallGetResult (clusterNamespace clusterName applicant featureID : string)
      (clusterType : ClusterType) (cleanup : bool) (answer : Result.t)
  | CallDeploy (clusterNamespace clusterName applicant featureID : string)
      (clusterType : ClusterType) (cleanup : bool)
      (handler : RequestHandler) (options : Options.t) (answer : option error).

#[global] Instance DeployerCall_eq_dec : EqDecision DeployerCall.
Proof. solve_decision. Defined.

(** A call that dispatches work for the cluster [ns]/[name]. *)
Definition isDispatch (call : DeployerCall) : bool :=
  match call with
  | CallDeploy _ _ _ _ _ _ _ _ _ => true
  | _ => false
  end.

Definition callCluster (call : DeployerCall) : string * string :=
  match call with
  | CallIsInProgress ns n _ _ _ _ _ => (ns, n)
  | CallGetResult ns n _ _ _ _ _ => (ns, n)
  | CallDeploy ns n _ _ _ _ _ _ _ => (ns, n)
  end.

(** The deployer behind [r.Deployer] together with the calls made on it. *)
Module Queue.
Record t (D : Type) : Type := mk {
  deployer : D;
  calls : list DeployerCall
}.
Arguments mk {D} _ _.
Arguments deployer {D} _.
Arguments calls {D} _.
End Queue.

(** [feature] *)
Module feature.
Record t : Type := mk {
  id : string;
  currentHash : Classifier.t -> bytes;
  deploy : RequestHandler;
  undeploy : RequestHandler
}.
End feature.

(** What the deployment code reads from outside the controller: helper
    functions of the package that are not part of these sources
    ([getClusterType], [isClusterPaused], [getCluster],
    [removeAccessRequest], the constant [programDuration], the feature
    table behind [getHandlersForFeature]), the library calls
    [clusterproxy.IsClusterReadyToBeConfigured] and [sha256], and the
    outcome of the client calls made by [getKubeconfigFromAccessRequest]
    and [removeClassifierReports]. *)
Module Environment.
Record t : Type := mk {
  sha256 : list Byte.byte -> list Byte.byte;
  programDuration : Z;
  getHandlersForFeature : feature.t;
  getClusterType : ObjectReference.t -> ClusterType;
  isClusterPaused : string -> string -> ClusterType -> GoResult bool;
  IsClusterReadyToBeConfigured : ObjectReference.t -> GoResult bool;
  getCluster : string -> string -> ClusterType -> option error;
  getKubeconfigFromAccessRequest : string -> string -> ClusterType -> GoResult bytes;
  removeClassifierReports : Classifier.t -> option error;
  removeAccessRequest : option error
}.
End Environment.

(** [clusterv1.PausedAnnotation] and [annotations.HasPaused] *)
Definition PausedAnnotation : string := "cluster.x-k8s.io/paused".

Definition HasPaused (classifier : Classifier.t) : bool :=
  bool_decide (is_Some (Classifier.Annotations classifier !! PausedAnnotation)).

(** [err.Error()] *)
Definition Error (e : error) : string :=
  match e with NotFoundError msg => msg | OtherError msg => msg end.

(** [convertResultStatus] *)
Definition convertResultStatus (result : Result.t) : option ClassifierFeatureStatus :=
  match Result.Status result with
  | Deployed => Some ClassifierStatusProvisioned
  | Failed => Some ClassifierStatusFailed
  | InProgress => Some ClassifierStatusProvisioning
  | Removed => Some ClassifierStatusRemoved
  | Unavailable => None
  end.

(** [getClassifierInClusterHashAndStatus] *)
Fixpoint hashAndStatus (info : list ClusterInfo.t) (cluster : ObjectReference.t)
  : bytes * option ClassifierFeatureStatus :=
  match info with
  | [] => (None, None)
  | cInfo :: info =>
      if bool_decide
           (ObjectReference.Namespace (ClusterInfo.Cluster cInfo)
              = ObjectReference.Namespace cluster ∧
            ObjectReference.Name (ClusterInfo.Cluster cInfo)
              = ObjectReference.Name cluster ∧
            ObjectReference.APIVersion (ClusterInfo.Cluster cInfo)
              = ObjectReference.APIVersion cluster ∧
            ObjectReference.Kind (ClusterInfo.Cluster cInfo)
              = ObjectReference.Kind cluster)
      then (ClusterInfo.Hash cInfo, Some (ClusterInfo.Status cInfo))
      else hashAndStatus info cluster
  end.

Definition getClassifierInClusterHashAndStatus (classifier : Classifier.t)
  (cluster : ObjectReference.t) : bytes * option ClassifierFeatureStatus :=
  hashAndStatus (statusClusterInfo classifier) cluster.

(** [string(b)] for a byte slice: a nil slice converts to the empty
    string. *)
Definition bytesOf (b : bytes) : list Byte.byte := default [] b.

(** [ctrl.Result]; [RequeueAfter] in seconds. *)
Module ctrlResult.
Record t : Type := mk {
  Requeue : bool;
  RequeueAfter : Z
}.
Definition zero : t := mk false 0.
End ctrlResult.

Definition deleteRequeueAfter : Z := 20.
Definition normalRequeueAfter : Z := 20.

(** ** The per-cluster deployment state machine *)

Section Deployment.
Context {D : Type} `{DeployerInterface D}.
Variable env : Environment.t.

(** The three deployer methods as seen from the reconciler: the answer
    is returned and the call is recorded. *)
Definition callIsInProgress (q : Queue.t D) (ns name applicant featureID : string)
  (clusterType : ClusterType) (cleanup : bool) : bool * Queue.t D :=
  let answer :=
    IsInProgress (Queue.deployer q) ns name applicant featureID clusterType cleanup in
  (answer,
   Queue.mk (Queue.deployer q)
     (Queue.calls q ++
        [CallIsInProgress ns name applicant featureID clusterType cleanup answer])).

Definition callGetResult (q : Queue.t D) (ns name applicant featureID : string)
  (clusterType : ClusterType) (cleanup : bool) : Result.t * Queue.t D :=
  let '(answer, d) :=
    GetResult (Queue.deployer q) ns name applicant featureID clusterType cleanup in
  (answer,
   Queue.mk d
     (Queue.calls q ++
        [CallGetResult ns name applicant featureID clusterType cleanup answer])).

Definition callDeploy (q : Queue.t D) (ns name applicant featureID : string)
  (clusterType : ClusterType) (cleanup : bool) (handler : RequestHandler)
  (options : Options.t) : option error * Queue.t D :=
  let '(answer, d) :=
    Deploy (Queue.deployer q) ns name applicant featureID clusterType cleanup
      handler (Environment.programDuration env) options in
  (answer,
   Queue.mk d
     (Queue.calls q ++
        [CallDeploy ns name applicant featureID clusterType cleanup
           handler options answer])).

(** [isPaused] *)
Definition isPaused (cluster : ObjectReference.t) (classifier : Classifier.t)
  : GoResult bool :=
  match Environment.isClusterPaused env
          (ObjectReference.Namespace cluster) (ObjectReference.Name cluster)
          (Environment.getClusterType env cluster) with
  | Err e => if IsNotFound e then Ok false else Err e
  | Ok true => Ok true
  | Ok false => Ok (HasPaused classifier)
  end.

(** [canProceed] *)
Definition canProceed (classifier : Classifier.t) (cluster : ObjectReference.t)
  : GoResult bool :=
  match isPaused cluster classifier with
  | Err e => Err e
  | Ok true => Ok false
  | Ok false =>
      match Environment.IsClusterReadyToBeConfigured env cluster with
      | Err e => Err e
      | Ok false => Ok false
      | Ok true => Ok true
      end
  end.

(** [classifierHash]: the SHA-256 sum of the rendered specification.
    [AsCode] is [render.AsCode] on the specification, which is its label
    assignments here. [h.Sum(nil)] appends the digest to a nil slice: the
    hash is never a nil slice. *)
Definition classifierHash (AsCode : list ClassifierLabel.t -> string)
  (classifier : Classifier.t) : bytes :=
  let config := "" +:+ AsCode (Classifier.ClassifierLabels classifier) in
  Some (Environment.sha256 env (String.list_byte_of_string config)).

(** [getCurrentHash] *)
Definition getCurrentHash (r : ClassifierReconciler.t) (classifier : Classifier.t)
  (cpEndpoint : string) (cluster : ObjectReference.t) (f : feature.t)
  : GoResult bytes :=
  let currentHash := feature.currentHash f classifier in
  if decide (ClassifierReconciler.ClassifierReportMode r = AgentSendReportsNoGateway)
  then
    match Environment.getKubeconfigFromAccessRequest env
            (ObjectReference.Namespace cluster) (ObjectReference.Name cluster)
            (Environment.getClusterType env cluster) with
    | Err e => if IsNotFound e then Ok currentHash else Err e
    | Ok None => Ok currentHash
    | Ok (Some kubeconfig) =>
        Ok (Some (Environment.sha256 env
                    (bytesOf currentHash ++ kubeconfig ++
                     String.list_byte_of_string cpEndpoint)))
    end
  else Ok currentHash.

(** [processClassifier]: the ClusterInfo and the error it returns, and
    the deployer afterwards. *)
Definition processClassifier (r : ClassifierReconciler.t) (classifier : Classifier.t)
  (cpEndpoint : string) (cluster : ObjectReference.t) (f : feature.t)
  (q : Queue.t D) : option ClusterInfo.t * option error * Queue.t D :=
  match getCurrentHash r classifier cpEndpoint cluster f with
  | Err e => (None, Some e, q)
  | Ok currentHash =>
      match canProceed classifier cluster with
      | Err e => (None, Some e, q)
      | Ok false => (None, None, q)
      | Ok true =>
          let ns := ObjectReference.Namespace cluster in
          let name := ObjectReference.Name cluster in
          let clusterType := Environment.getClusterType env cluster in
          let '(inProgress, q) :=
            callIsInProgress q ns name (Classifier.Name classifier) (feature.id f)
              clusterType true in
          if inProgress
          then (None,
                Some (errorsNew ("cleanup of " +:+ feature.id f +:+
                        " in cluster still in progress. Wait before redeploying")),
                q)
          else
            let '(hash, currentStatus) :=
              getClassifierInClusterHashAndStatus classifier cluster in
            let isConfigSame := DeepEqual hash currentHash in
            let '(status, result, q) :=
              if isConfigSame
              then
                let '(result, q) :=
                  callGetResult q ns name (Classifier.Name classifier) (feature.id f)
                    clusterType false in
                (convertResultStatus result, result, q)
              else (None, Result.mk Deployed None, q) in
            match status with
            | Some status =>
                let errorMessage :=
                  match Result.Err result with
                  | Some e => Error e
                  | None => ""
                  end in
                let clusterInfo :=
                  ClusterInfo.mk cluster currentHash status (Some errorMessage) in
                if decide (status = ClassifierStatusProvisioned)
                then (Some clusterInfo, None, q)
                else if decide (status = ClassifierStatusProvisioning)
                then (Some clusterInfo,
                      Some (errorsNew "classifier is still being provisioned"), q)
                else (Some (ClusterInfo.mk cluster currentHash status None), None, q)
            | None =>
                if isConfigSame &&
                   bool_decide (currentStatus = Some ClassifierStatusProvisioned)
                then (Some (ClusterInfo.mk cluster currentHash
                              ClassifierStatusProvisioned None), None, q)
                else
                  let '(handler, options) :=
                    if decide (ClassifierReconciler.ClassifierReportMode r
                               = AgentSendReportsNoGateway)
                    then (deployClassifierWithKubeconfigInCluster,
                          Options.mk
                            (Some {[controlplaneendpoint :=
                                      ClassifierReconciler.ControlPlaneEndpoint r]}))
                    else (deployClassifierInCluster, Options.mk None) in
                  let '(err, q) :=
                    callDeploy q ns name (Classifier.Name classifier) (feature.id f)
                      clusterType false handler options in
                  match err with
                  | Some e => (None, Some e, q)
                  | None =>
                      (Some (ClusterInfo.mk cluster currentHash
                               ClassifierStatusProvisioning None), None, q)
                  end
            end
      end
  end.

(** One iteration of the loop of [deployClassifier]; the accumulator is
    [errorSeen], [allDeployed], [clusterInfo] and the deployer. *)
Definition deployStep (r : ClassifierReconciler.t) (classifier : Classifier.t)
  (f : feature.t)
  (acc : option error * bool * list ClusterInfo.t * Queue.t D) (c : ClusterInfo.t)
  : option error * bool * list ClusterInfo.t * Queue.t D :=
  let '(errorSeen, allDeployed, clusterInfo, q) := acc in
  let '(cInfo, err, q) :=
    processClassifier r classifier (ClassifierReconciler.ControlPlaneEndpoint r)
      (ClusterInfo.Cluster c) f q in
  let errorSeen := match err with Some e => Some e | None => errorSeen end in
  match cInfo with
  | Some cInfo =>
      (errorSeen,
       if decide (ClusterInfo.Status cInfo = ClassifierStatusProvisioned)
       then allDeployed else false,
       clusterInfo ++ [cInfo], q)
  | None => (errorSeen, allDeployed, clusterInfo, q)
  end.

(** [deployClassifier] *)
Definition deployClassifier (r : ClassifierReconciler.t) (classifier : Classifier.t)
  (f : feature.t) (q : Queue.t D) : Classifier.t * option error * Queue.t D :=
  let '(errorSeen, allDeployed, clusterInfo, q) :=
    foldl (deployStep r classifier f) (None, true, [], q)
      (statusClusterInfo classifier) in
  let classifier := SetClusterInfo classifier clusterInfo in
  match errorSeen with
  | Some e => (classifier, Some e, q)
  | None =>
      if allDeployed then (classifier, None, q)
      else (classifier,
            Some (errorsNew
                    "request to deploy Classifier is still queued in one ore more clusters"),
            q)
  end.

(** [removeClassifier] *)
Definition removeClassifier (classifier : Classifier.t) (cluster : ObjectReference.t)
  (f : feature.t) (q : Queue.t D) : option error * Queue.t D :=
  match isPaused cluster classifier with
  | Err e => (Some e, q)
  | Ok true => (None, q)
  | Ok false =>
      let ns := ObjectReference.Namespace cluster in
      let name := ObjectReference.Name cluster in
      let clusterType := Environment.getClusterType env cluster in
      let '(inProgress, q) :=
        callIsInProgress q ns name (Classifier.Name classifier) (feature.id f)
          clusterType false in
      if inProgress
      then (Some (errorsNew ("deploy of " +:+ feature.id f +:+
                    " in cluster still in progress. Wait before redeploying")), q)
      else
        let '(result, q) :=
          callGetResult q ns name (Classifier.Name classifier) (feature.id f)
            clusterType true in
        match convertResultStatus result with
        | Some ClassifierStatusProvisioning =>
            (Some (errorsNew "feature is still being removed"), q)
        | Some ClassifierStatusRemoved => (None, q)
        | _ =>
            let '(err, q) :=
              callDeploy q ns name (Classifier.Name classifier) (feature.id f)
                clusterType true undeployClassifierFromCluster (Options.mk None) in
            match err with
            | Some e => (Some e, q)
            | None => (Some (errorsNew "cleanup request is queued"), q)
            end
        end
  end.

(** First loop of [undeployClassifier]: the clusters that still exist. *)
Fixpoint clustersToClean (info : list ClusterInfo.t) (clusters : list ObjectReference.t)
  : GoResult (list ObjectReference.t) :=
  match info with
  | [] => Ok clusters
  | cInfo :: info =>
      let c := ClusterInfo.Cluster cInfo in
      match Environment.getCluster env (ObjectReference.Namespace c)
              (ObjectReference.Name c) (Environment.getClusterType env c) with
      | Some e =>
          if IsNotFound e then clustersToClean info clusters else Err e
      | None => clustersToClean info (clusters ++ [c])
      end
  end.

(** One iteration of the second loop of [undeployClassifier]. *)
Definition undeployStep (classifier : Classifier.t) (f : feature.t)
  (acc : list ClusterInfo.t * Queue.t D) (c : ObjectReference.t)
  : list ClusterInfo.t * Queue.t D :=
  let '(clusterInfo, q) := acc in
  let '(err, q) := removeClassifier classifier c f q in
  match err with
  | Some e =>
      (clusterInfo ++
         [ClusterInfo.mk c None ClassifierStatusRemoving (Some (Error e))], q)
  | None => (clusterInfo, q)
  end.

(** [undeployClassifier] *)
Definition undeployClassifier (classifier : Classifier.t) (f : feature.t)
  (q : Queue.t D) : Classifier.t * option error * Queue.t D :=
  match clustersToClean (statusClusterInfo classifier) [] with
  | Err e => (classifier, Some e, q)
  | Ok clusters =>
      let '(clusterInfo, q) := foldl (undeployStep classifier f) ([], q) clusters in
      if negb (Nat.eqb (length clusterInfo) 0)
      then
        let matchingClusterStatuses :=
          (fun ci => MachingClusterStatus.mk (ClusterInfo.Cluster ci) None None)
            <$> clusterInfo in
        (SetMachingClusterStatuses classifier matchingClusterStatuses,
         Some (errorsNew ("still in the process of removing Classifier from " +:+
                          pretty (length clusterInfo) +:+ " clusters")),
         q)
      else (SetClusterInfo classifier clusterInfo, None, q)
  end.
End Deployment.

(** ** Deleting a Classifier *)

(** [controllerutil.ContainsFinalizer] and [controllerutil.RemoveFinalizer] *)
Definition ContainsFinalizer (c : Classifier.t) (finalizer : string) : bool :=
  bool_decide (finalizer ∈ Classifier.Finalizers c).

Definition RemoveFinalizer (c : Classifier.t) (finalizer : string) : Classifier.t :=
  Classifier.mk (Classifier.Name c) (Classifier.Annotations c)
    (filter (fun f => f ≠ finalizer) (Classifier.Finalizers c))
    (Classifier.DeletionTimestamp c) (Classifier.ClassifierLabels c)
    (Classifier.Status c).

(** Everything a reconciliation of one Classifier reads and writes. *)
Module Pass.
Record t (K D : Type) : Type := mk {
  reconciler : ClassifierReconciler.t;
  registry : Registry.t K;
  queue : Queue.t D;
  classifier : Classifier.t
}.
Arguments mk {K D} _ _ _ _.
Arguments reconciler {K D} _.
Arguments registry {K D} _.
Arguments queue {K D} _.
Arguments classifier {K D} _.
End Pass.

Section Delete.
Context {K : Type} `{KeyManager K} {D : Type} `{DeployerInterface D}.
Variable env : Environment.t.

(** [reconcileDelete] *)
Definition reconcileDelete (s : Pass.t K D)
  : ctrlResult.t * option error * Pass.t K D :=
  let r := Pass.reconciler s in
  let classifier := Pass.classifier s in
  match removeAllRegistrations (Pass.registry s) classifier with
  | (reg, Some e) =>
      (ctrlResult.zero, Some e, Pass.mk r reg (Pass.queue s) classifier)
  | (reg, None) =>
      let classifierInfo := classifierPolicyRef (Classifier.Name classifier) in
      let r :=
        ClassifierReconciler.withSets r
          (Erase (ClassifierReconciler.ClassifierSet r) classifierInfo)
          (Erase (ClassifierReconciler.AllClassifierSet r) classifierInfo) in
      let f := Environment.getHandlersForFeature env in
      match undeployClassifier env classifier f (Pass.queue s) with
      | (classifier, Some _, q) =>
          (ctrlResult.mk true deleteRequeueAfter, None, Pass.mk r reg q classifier)
      | (classifier, None, q) =>
          match Environment.removeClassifierReports env classifier with
          | Some _ =>
              (ctrlResult.mk true deleteRequeueAfter, None,
               Pass.mk r reg q classifier)
          | None =>
              match
                (if decide (ClassifierReconciler.ClassifierReportMode r
                            = CollectFromManagementCluster)
                 then Environment.removeAccessRequest env
                 else None)
              with
              | Some _ =>
                  (ctrlResult.mk true deleteRequeueAfter, None,
                   Pass.mk r reg q classifier)
              | None =>
                  let classifier :=
                    if ContainsFinalizer classifier ClassifierFinalizer
                    then RemoveFinalizer classifier ClassifierFinalizer
                    else classifier in
                  (ctrlResult.zero, None, Pass.mk r reg q classifier)
              end
          end
      end
  end.
End Delete.

(** ** Collecting ClassifierReports from a managed cluster *)

(** The part of [client.Client] that [updateClassifierReport] uses on
    the management cluster. *)
Class ReportClient (C : Type) : Type := {
  Get : C -> string -> string -> GoResult ClassifierReport.t;
  Create : C -> ClassifierReport.t -> option error * C;
  Update : C -> ClassifierReport.t -> option error * C
}.

Inductive ClientCall : Type :=
  | CallGet (namespace name : string)
  | CallCreate (report : ClassifierReport.t)
  | CallUpdate (report : ClassifierReport.t).

(** The management cluster behind the client and the calls made on it. *)
Module Management.
Record t (C : Type) : Type := mk {
  client : C;
  calls : list ClientCall
}.
Arguments mk {C} _ _.
Arguments client {C} _.
Arguments calls {C} _.
End Management.

Definition classifierReportClusterLabel : string := "projectsveltos.io/cluster".

(** [getClassifierReportName] and [getClusterInfo] *)
Definition getClassifierReportName (classifierName clusterName : string) : string :=
  classifierName +:+ "--" +:+ clusterName.

Definition getClusterInfo (clusterNamespace clusterName : string) : string :=
  clusterNamespace +:+ "--" +:+ clusterName.

Definition withCluster (spec : ClassifierReportSpec.t) (cluster : Cluster.t)
  : ClassifierReportSpec.t :=
  ClassifierReportSpec.mk (Cluster.Namespace cluster) (Cluster.Name cluster)
    (ClassifierReportSpec.ClassifierName spec) (ClassifierReportSpec.Match spec).

Section ReportCollection.
Context {C : Type} `{ReportClient C}.

(** [updateClassifierReport] *)
Definition updateClassifierReport (m : Management.t C) (cluster : Cluster.t)
  (classiferReport : ClassifierReport.t) : option error * Management.t C :=
  match ClassifierReport.Labels classiferReport with
  | None => (Some (errorsNew "classifierReport is malformed. Labels is empty"), m)
  | Some labels =>
      match labels !! ClassifierLabelName with
      | None => (Some (errorsNew "classifierReport is malformed. Label missing"), m)
      | Some classifierName =>
          let classifierReportName :=
            getClassifierReportName classifierName (Cluster.Name cluster) in
          let clusterLabel :=
            getClusterInfo (Cluster.Namespace cluster) (Cluster.Name cluster) in
          let calls :=
            Management.calls m ++
              [CallGet (Cluster.Namespace cluster) classifierReportName] in
          match Get (Management.client m) (Cluster.Namespace cluster)
                  classifierReportName with
          | Err e =>
              if IsNotFound e
              then
                let created :=
                  ClassifierReport.mk (Cluster.Namespace cluster) classifierReportName
                    (Some (<[classifierReportClusterLabel := clusterLabel]> labels))
                    (withCluster (ClassifierReport.Spec classiferReport) cluster) in
                let '(err, c) := Create (Management.client m) created in
                (err, Management.mk c (calls ++ [CallCreate created]))
              else (Some e, Management.mk (Management.client m) calls)
          | Ok currentClassifierReport =>
              let updated :=
                ClassifierReport.mk
                  (ClassifierReport.Namespace currentClassifierReport)
                  (ClassifierReport.Name currentClassifierReport)
                  (Some (<[classifierReportClusterLabel := clusterLabel]>
                           (default ∅ (ClassifierReport.Labels currentClassifierReport))))
                  (withCluster (ClassifierReport.Spec classiferReport) cluster) in
              let '(err, c) := Update (Management.client m) updated in
              (err, Management.mk c (calls ++ [CallUpdate updated]))
          end
      end
  end.
End ReportCollection.

(** ** Vocabulary of the properties *)

(** Between [calls] and [calls'] no work was dispatched to the deployer. *)
Definition noDispatch (calls calls' : list DeployerCall) : Prop :=
  exists new, calls' = calls ++ new ∧ Forall (fun c => isDispatch c = false) new.

(** ** Proof automation for the state machine *)

Ltac frameDone :=
  cbn [fst snd Queue.calls Queue.deployer]; rewrite <- ?app_assoc; cbn [app];
  (eexists; split; [first [reflexivity | symmetry; apply app_nil_r]|]);
  (split; [by repeat constructor|]);
  let info := fresh "info" in let Hinfo := fresh "Hinfo" in
  intros info Hinfo; by simplify_eq.

Ltac dispatchCases r :=
  destruct (decide (ClassifierReconciler.ClassifierReportMode r
                    = AgentSendReportsNoGateway));
  unfold callDeploy; cbn [Queue.deployer Queue.calls];
  match goal with
  | |- context [Deploy ?d ?a ?b ?c ?i ?t ?cu ?h ?p ?o] =>
      destruct (Deploy d a b c i t cu h p o) as [[?|] ?]
  end.

(** What the calls of a pass tell about the teardown of cluster [c]:
    the queue confirmed the removal, or the removal is still under way
    (a deploy blocks it, the queue reports it in progress, or it has just
    been dispatched). *)
Definition teardownConfirmed (env : Environment.t) (classifier : Classifier.t)
  (f : feature.t) (c : ObjectReference.t) (new : list DeployerCall) : Prop :=
  exists result,
    Result.Status result = Removed ∧
    CallGetResult (ObjectReference.Namespace c) (ObjectReference.Name c)
      (Classifier.Name classifier) (feature.id f)
      (Environment.getClusterType env c) true result ∈ new.

Definition teardownPending (env : Environment.t) (classifier : Classifier.t)
  (f : feature.t) (c : ObjectReference.t) (new : list DeployerCall) : Prop :=
  CallIsInProgress (ObjectReference.Namespace c) (ObjectReference.Name c)
    (Classifier.Name classifier) (feature.id f)
    (Environment.getClusterType env c) false true ∈ new ∨
  (exists result,
     Result.Status result = InProgress ∧
     CallGetResult (ObjectReference.Namespace c) (ObjectReference.Name c)
       (Classifier.Name classifier) (feature.id f)
       (Environment.getClusterType env c) true result ∈ new) ∨
  (exists answer,
     CallDeploy (ObjectReference.Namespace c) (ObjectReference.Name c)
       (Classifier.Name classifier) (feature.id f)
       (Environment.getClusterType env c) true
       undeployClassifierFromCluster (Options.mk None) answer ∈ new).

(** A call that neither dispatches nor finds anything under way. *)
Definition isQuiet (call : DeployerCall) : bool :=
  match call with
  | CallIsInProgress _ _ _ _ _ _ answer => negb answer
  | CallGetResult _ _ _ _ _ _ answer =>
      bool_decide (Result.Status answer = Removed)
  | CallDeploy _ _ _ _ _ _ _ _ _ => false
  end.

(** The cluster of a ClusterInfo entry no longer exists. *)
Definition clusterGone (env : Environment.t) (e : ClusterInfo.t) : Prop :=
  exists err,
    Environment.getCluster env
      (ObjectReference.Namespace (ClusterInfo.Cluster e))
      (ObjectReference.Name (ClusterInfo.Cluster e))
      (Environment.getClusterType env (ClusterInfo.Cluster e)) = Some err ∧
    IsNotFound err = true.

(** ** Collaborators and data for the examples *)

(** A deployer in the manner of the fake deployer of the tests: the
    requests in progress and the stored results; a stored result is
    handed out once. *)
Module FakeDeployer.
Definition key : Type := string * string * string * string * ClusterType * bool.
Record t : Type := mk {
  inProgress : list key;
  results : list (key * option error)
}.
Fixpoint lookupResult (k : key) (l : list (key * option error))
  : option (option error) :=
  match l with
  | [] => None
  | (k', v) :: l => if decide (k = k') then Some v else lookupResult k l
  end.
Definition isInProgress (d : t) (k : key) : bool := bool_decide (k ∈ inProgress d).
Definition getResult (d : t) (k : key) : Result.t * t :=
  match lookupResult k (results d) with
  | Some (Some e) =>
      (Result.mk Failed (Some e),
       mk (inProgress d) (filter (fun p => p.1 ≠ k) (results d)))
  | Some None =>
      (Result.mk (if k.2 then Removed else Deployed) None,
       mk (inProgress d) (filter (fun p => p.1 ≠ k) (results d)))
  | None =>
      (Result.mk (if isInProgress d k then InProgress else Unavailable) None, d)
  end.
Definition deploy (d : t) (k : key) : option error * t :=
  (None, mk (inProgress d ++ [k]) (filter (fun p => p.1 ≠ k) (results d))).
End FakeDeployer.

#[global] Instance FakeDeployer_interface : DeployerInterface FakeDeployer.t := {
  IsInProgress d ns n applicant featureID clusterType cleanup :=
    FakeDeployer.isInProgress d (ns, n, applicant, featureID, clusterType, cleanup);
  GetResult d ns n applicant featureID clusterType cleanup :=
    FakeDeployer.getResult d (ns, n, applicant, featureID, clusterType, cleanup);
  Deploy d ns n applicant featureID clusterType cleanup _ _ _ :=
    FakeDeployer.deploy d (ns, n, applicant, featureID, clusterType, cleanup)
}.

(** Modelled from the spec: the key manager (package [keymanager], not
    part of these sources) as the label claims of the specification, a
    table from (cluster, label key) to the owning Classifier; a label is
    claimed when it is free, and released only by the owner. *)
Module LabelClaims.
Definition claim : Type := (string * string * string) * string.
Definition t : Type := list claim.
Fixpoint owner (k : string * string * string) (m : t) : option string :=
  match m with
  | [] => None
  | (k', o) :: m => if decide (k = k') then Some o else owner k m
  end.
Definition wants (classifier : Classifier.t) (key : string) : Prop :=
  key ∈ ClassifierLabel.Key <$> Classifier.ClassifierLabels classifier.
#[global] Instance wants_dec classifier key : Decision (wants classifier key).
Proof. unfold wants. apply _. Defined.
Definition register (m : t) (classifier : Classifier.t) (ns n : string) : t :=
  foldl (fun m label =>
           match owner (ns, n, ClassifierLabel.Key label) m with
           | Some _ => m
           | None => m ++ [((ns, n, ClassifierLabel.Key label), Classifier.Name classifier)]
           end)
    m (Classifier.ClassifierLabels classifier).
Definition removeStale (m : t) (classifier : Classifier.t) (ns n : string) : t :=
  filter (fun p : claim =>
            ¬ (p.1.1.1 = ns ∧ p.1.1.2 = n ∧ p.2 = Classifier.Name classifier ∧
               ¬ wants classifier p.1.2))
    m.
Definition removeAll (m : t) (classifier : Classifier.t) (ns n : string) : t :=
  filter (fun p : claim =>
            ¬ (p.1.1.1 = ns ∧ p.1.1.2 = n ∧ p.2 = Classifier.Name classifier))
    m.
End LabelClaims.

#[global] Instance LabelClaims_manager : KeyManager LabelClaims.t := {
  RemoveStaleRegistrations := LabelClaims.removeStale;
  RegisterClassifierForLabels := LabelClaims.register;
  RemoveAllRegistrations := LabelClaims.removeAll;
  CanManageLabel m classifier ns n key :=
    bool_decide (LabelClaims.owner (ns, n, key) m = Some (Classifier.Name classifier));
  GetManagerForKey m ns n key :=
    match LabelClaims.owner (ns, n, key) m with
    | Some o => Ok o
    | None => Err (OtherError "label is not managed")
    end
}.

(** A client over a table of ClassifierReports, in the manner of the
    fake client of the tests. *)
Module FakeClient.
Definition t : Type := list ClassifierReport.t.
Definition named (ns name : string) (report : ClassifierReport.t) : Prop :=
  ClassifierReport.Namespace report = ns ∧ ClassifierReport.Name report = name.
#[global] Instance named_dec ns name report : Decision (named ns name report).
Proof. unfold named. apply _. Defined.
Definition get (c : t) (ns name : string) : GoResult ClassifierReport.t :=
  match filter (named ns name) c with
  | report :: _ => Ok report
  | [] => Err (NotFoundError "classifierreport not found")
  end.
Definition create (c : t) (report : ClassifierReport.t) : option error * t :=
  match get c (ClassifierReport.Namespace report) (ClassifierReport.Name report) with
  | Ok _ => (Some (OtherError "classifierreport already exists"), c)
  | Err _ => (None, c ++ [report])
  end.
Definition update (c : t) (report : ClassifierReport.t) : option error * t :=
  match get c (ClassifierReport.Namespace report) (ClassifierReport.Name report) with
  | Ok _ =>
      (None,
       filter (fun r => ¬ named (ClassifierReport.Namespace report)
                           (ClassifierReport.Name report) r) c ++ [report])
  | Err e => (Some e, c)
  end.
End FakeClient.

#[global] Instance FakeClient_client : ReportClient FakeClient.t := {
  Get := FakeClient.get;
  Create := FakeClient.create;
  Update := FakeClient.update
}.

(** Two clusters and a Classifier that assigns one label. *)
Definition clusterA : ObjectReference.t := ObjectReference.mk "" "default" "cluster-a" "".
Definition clusterB : ObjectReference.t := ObjectReference.mk "" "default" "cluster-b" "".

Definition acme (info : list ClusterInfo.t) (matching : list MachingClusterStatus.t)
  : Classifier.t :=
  Classifier.mk "acme-x" ∅ [ClassifierFinalizer] None
    [ClassifierLabel.mk "issuer" "acme-x"] (ClassifierStatus.mk info matching).

(** A stand-in for [classifierHash]: the bytes of the label assignments. *)
Definition labelBytes (classifier : Classifier.t) : bytes :=
  Some (foldr (fun label acc =>
                 String.list_byte_of_string (ClassifierLabel.Key label) ++
                 String.list_byte_of_string (ClassifierLabel.Value label) ++ acc)
          [] (Classifier.ClassifierLabels classifier)).

(** A rendering of the specification: keys and values one after the
    other. *)
Definition exampleAsCode (labels : list ClassifierLabel.t) : string :=
  foldr (fun label acc =>
           ClassifierLabel.Key label +:+ ClassifierLabel.Value label +:+ acc)
    "" labels.

Definition featureClassifier : feature.t :=
  feature.mk "Classifier" labelBytes deployClassifierInCluster
    undeployClassifierFromCluster.

(** An environment in which the clusters of [paused] are paused, those
    of [notReady] are not ready, those of [gone] do not exist, and no
    call fails otherwise. *)
Definition exampleEnv (paused notReady gone : list (string * string)) : Environment.t :=
  Environment.mk
    (fun b => b) 600 featureClassifier
    (fun c => if decide (ObjectReference.Kind c = "SveltosCluster")
              then ClusterTypeSveltos else ClusterTypeCapi)
    (fun ns n _ =>
       if bool_decide ((ns, n) ∈ gone)
       then Err (NotFoundError "cluster not found")
       else Ok (bool_decide ((ns, n) ∈ paused)))
    (fun c => Ok (negb (bool_decide (refKey c ∈ notReady))))
    (fun ns n _ =>
       if bool_decide ((ns, n) ∈ gone)
       then Some (NotFoundError "cluster not found")
       else None)
    (fun _ _ _ => Ok None)
    (fun _ => None)
    None.

Definition exampleReconciler : ClassifierReconciler.t :=
  ClassifierReconciler.new CollectFromManagementCluster "".

Definition keyA (cleanup : bool) : FakeDeployer.key :=
  ("default", "cluster-a", "acme-x", "Classifier", ClusterTypeCapi, cleanup).

Definition idleQueue : Queue.t FakeDeployer.t :=
  Queue.mk (FakeDeployer.mk [] []) [].

Definition reportFor (cluster : ObjectReference.t) (matched : bool) : ClassifierReport.t :=
  ClassifierReport.mk "" ("acme-x" +:+ "--" +:+ ObjectReference.Name cluster)
    (Some {[ClassifierLabelName := "acme-x"]})
    (ClassifierReportSpec.mk (ObjectReference.Namespace cluster)
       (ObjectReference.Name cluster) "acme-x" matched).

Definition emptyRegistry : Registry.t LabelClaims.t := Registry.mk None [] [].

Definition elementsOrder (site : RangeSite) (s : gset ObjectReference.t)
  : list ObjectReference.t := elements s.

(** The recorded entry of cluster A with a given status, carrying the
    current hash of [acme]. *)
Definition entryA (status : ClassifierFeatureStatus) : ClusterInfo.t :=
  ClusterInfo.mk clusterA (labelBytes (acme [] [])) status None.

Definition pausedA : Environment.t := exampleEnv [("default", "cluster-a")] [] [].
Definition healthy : Environment.t := exampleEnv [] [] [].

(** A fleet of three clusters, one of them being deleted. *)
Definition fleet : list Cluster.t :=
  [Cluster.mk "default" "cluster-a" None;
   Cluster.mk "default" "cluster-b" (Some 1700000000%Z);
   Cluster.mk "prod" "cluster-c" None].

(** A queue in which both a deploy and an undeploy of [acme] on cluster
    A are in progress, and queues holding one stored result. *)
Definition busyQueue : Queue.t FakeDeployer.t :=
  Queue.mk (FakeDeployer.mk [keyA true; keyA false] []) [].

Definition queueWith (cleanup : bool) (outcome : option error) : Queue.t FakeDeployer.t :=
  Queue.mk (FakeDeployer.mk [] [(keyA cleanup, outcome)]) [].

Definition deletePass (env : Environment.t) (q : Queue.t FakeDeployer.t)
  : Pass.t LabelClaims.t FakeDeployer.t :=
  Pass.mk exampleReconciler emptyRegistry q (acme [entryA ClassifierStatusProvisioned] []).

Definition entryB (status : ClassifierFeatureStatus) : ClusterInfo.t :=
  ClusterInfo.mk clusterB (labelBytes (acme [] [])) status None.

(** A report pulled from a managed cluster without any label. *)
Definition unlabelledReport : ClassifierReport.t :=
  ClassifierReport.mk "projectsveltos" "acme-x" None
    (ClassifierReportSpec.mk "" "" "acme-x" true).

Definition emptyManagement : Management.t FakeClient.t := Management.mk [] [].

(** ** Vocabulary of the further properties *)

#[global] Instance GoResult_eq_dec {A : Type} `{EqDecision A} : EqDecision (GoResult A).
Proof. solve_decision. Defined.

(** The first queue call [processClassifier] makes for a cluster that
    passed the gate: is a cleanup of the feature still in progress? *)
Definition cleanupProbe (env : Environment.t) (classifier : Classifier.t)
  (f : feature.t) (c : ObjectReference.t) (answer : bool) : DeployerCall :=
  CallIsInProgress (ObjectReference.Namespace c) (ObjectReference.Name c)
    (Classifier.Name classifier) (feature.id f)
    (Environment.getClusterType env c) true answer.

(** ** Reconciling a Classifier that is not being deleted *)

(** [clusterv1.Cluster] as [r.Get] hands it to
    [updateLabelsOnMatchingClusters]: what the listing shows of it, and
    its labels ([None] is the nil map). *)
Module ClusterObject.
Record t : Type := mk {
  Meta : Cluster.t;
  Labels : option (gmap string string)
}.
End ClusterObject.

(** What [Reconcile] and [reconcileNormal] ask of the management
    cluster: [r.Get] for the Classifier and for a Cluster, [r.List] for
    the ClassifierReports labelled with a Classifier and for all
    Clusters, [r.Update] of a Cluster, and the three calls of package
    [scope], which is not part of these sources:
    [scope.NewClassifierScope], [classifierScope.PatchObject] and
    [classifierScope.Close]. *)
Class ManagementClient (M : Type) : Type := {
  GetClassifier : M -> string -> string -> GoResult Classifier.t;
  NewClassifierScope : M -> Classifier.t -> option error;
  PatchObject : M -> Classifier.t -> option error * M;
  Close : M -> Classifier.t -> option error * M;
  ListClassifierReports : M -> string -> GoResult (list ClassifierReport.t);
  ListClusters : M -> GoResult (list Cluster.t);
  GetCluster : M -> string -> string -> GoResult ClusterObject.t;
  UpdateCluster : M -> ClusterObject.t -> option error * M
}.

(** The calls made on the management cluster, in program order. *)
Inductive ManagementCall : Type :=
  | CallGetClassifier (namespace name : string)
  | CallPatchObject (classifier : Classifier.t)
  | CallClose (classifier : Classifier.t)
  | CallListClassifierReports (classifierName : string)
  | CallListClusters
  | CallGetCluster (namespace name : string)
  | CallUpdateCluster (cluster : ClusterObject.t).

Module Hub.
Record t (M : Type) : Type := mk {
  client : M;
  calls : list ManagementCall
}.
Arguments mk {M} _ _.
Arguments client {M} _.
Arguments calls {M} _.
End Hub.

(** [controllerutil.AddFinalizer] *)
Definition AddFinalizer (c : Classifier.t) (finalizer : string) : Classifier.t :=
  if bool_decide (finalizer ∈ Classifier.Finalizers c) then c
  else
    Classifier.mk (Classifier.Name c) (Classifier.Annotations c)
      (Classifier.Finalizers c ++ [finalizer])
      (Classifier.DeletionTimestamp c) (Classifier.ClassifierLabels c)
      (Classifier.Status c).

(** [errors.Wrapf]: the message is put in front of the cause, which
    [apierrors.IsNotFound] still recognises. *)
Definition Wrapf (e : error) (msg : string) : error :=
  match e with
  | NotFoundError cause => NotFoundError (msg +:+ ": " +:+ cause)
  | OtherError cause => OtherError (msg +:+ ": " +:+ cause)
  end.

(** [cluster.Labels[key] = value], after [make] for a nil map. *)
Definition setLabel (cluster : ClusterObject.t) (key value : string) : ClusterObject.t :=
  ClusterObject.mk (ClusterObject.Meta cluster)
    (Some (<[key := value]> (default ∅ (ClusterObject.Labels cluster)))).

Section Normal.
Context {K : Type} `{KeyManager K} {D : Type} `{DeployerInterface D}
        {M : Type} `{ManagementClient M}.
Variable rangeOrder : RangeSite -> gset ObjectReference.t -> list ObjectReference.t.
Variable env : Environment.t.

(** [addFinalizer]: the Classifier in memory, the error and the
    management cluster afterwards. *)
Definition addFinalizer (h : Hub.t M) (classifier : Classifier.t)
  : Classifier.t * option error * Hub.t M :=
  let classifier := AddFinalizer classifier ClassifierFinalizer in
  let '(err, m) := PatchObject (Hub.client h) classifier in
  let h := Hub.mk m (Hub.calls h ++ [CallPatchObject classifier]) in
  match err with
  | Some e =>
      (classifier,
       Some (Wrapf e ("Failed to add finalizer for " +:+ Classifier.Name classifier)),
       h)
  | None => (classifier, None, h)
  end.

(** [updateLabelsOnCluster] *)
Definition updateLabelsOnCluster (w : Registry.t K) (classifier : Classifier.t)
  (cluster : ClusterObject.t) (h : Hub.t M) : option error * Hub.t M :=
  match GetKeyManagerInstance w with
  | Some e => (Some e, h)
  | None =>
      let cluster :=
        foldl (fun cluster label =>
                 if CanManageLabel (Registry.manager w) classifier
                      (Cluster.Namespace (ClusterObject.Meta cluster))
                      (Cluster.Name (ClusterObject.Meta cluster))
                      (ClassifierLabel.Key label)
                 then setLabel cluster (ClassifierLabel.Key label)
                        (ClassifierLabel.Value label)
                 else cluster)
          cluster (Classifier.ClassifierLabels classifier) in
      let '(err, m) := UpdateCluster (Hub.client h) cluster in
      (err, Hub.mk m (Hub.calls h ++ [CallUpdateCluster cluster]))
  end.

(** The loop of [updateLabelsOnMatchingClusters] over the entries of
    [Status.MachingClusterStatuses] still to visit. *)
Fixpoint updateLabelsLoop (w : Registry.t K) (classifier : Classifier.t)
  (statuses : list MachingClusterStatus.t) (h : Hub.t M) : option error * Hub.t M :=
  match statuses with
  | [] => (None, h)
  | status :: statuses =>
      let ref := MachingClusterStatus.ClusterRef status in
      let got :=
        GetCluster (Hub.client h) (ObjectReference.Namespace ref)
          (ObjectReference.Name ref) in
      let h :=
        Hub.mk (Hub.client h)
          (Hub.calls h ++
             [CallGetCluster (ObjectReference.Namespace ref)
                (ObjectReference.Name ref)]) in
      match got with
      | Err e => (Some e, h)
      | Ok cluster =>
          match updateLabelsOnCluster w classifier cluster h with
          | (Some e, h) => (Some e, h)
          | (None, h) => updateLabelsLoop w classifier statuses h
          end
      end
  end.

(** [updateLabelsOnMatchingClusters] *)
Definition updateLabelsOnMatchingClusters (w : Registry.t K)
  (classifier : Classifier.t) (h : Hub.t M) : option error * Hub.t M :=
  updateLabelsLoop w classifier (statusMachingClusterStatuses classifier) h.

(** [reconcileNormal] *)
Definition reconcileNormal (s : Pass.t K D) (h : Hub.t M)
  : ctrlResult.t * option error * Pass.t K D * Hub.t M :=
  let r := Pass.reconciler s in
  let w := Pass.registry s in
  let q := Pass.queue s in
  let classifier := Pass.classifier s in
  let '(classifier, err, h) :=
    if negb (ContainsFinalizer classifier ClassifierFinalizer)
    then addFinalizer h classifier
    else (classifier, None, h) in
  match err with
  | Some e => (ctrlResult.zero, Some e, Pass.mk r w q classifier, h)
  | None =>
      let listed :=
        ListClassifierReports (Hub.client h) (Classifier.Name classifier) in
      let h :=
        Hub.mk (Hub.client h)
          (Hub.calls h ++ [CallListClassifierReports (Classifier.Name classifier)]) in
      match updateMatchingClustersAndRegistrations rangeOrder r w classifier listed with
      | (r, w, classifier, Some e) =>
          (ctrlResult.zero, Some e, Pass.mk r w q classifier, h)
      | (r, w, classifier, None) =>
          match updateLabelsOnMatchingClusters w classifier h with
          | (Some e, h) => (ctrlResult.zero, Some e, Pass.mk r w q classifier, h)
          | (None, h) =>
              let listedClusters := ListClusters (Hub.client h) in
              let h := Hub.mk (Hub.client h) (Hub.calls h ++ [CallListClusters]) in
              match updateClusterInfo listedClusters classifier with
              | (classifier, Some e) =>
                  (ctrlResult.zero, Some e, Pass.mk r w q classifier, h)
              | (classifier, None) =>
                  let r := updateMaps r classifier in
                  let f := Environment.getHandlersForFeature env in
                  match deployClassifier env r classifier f q with
                  | (classifier, Some _, q) =>
                      (ctrlResult.mk true normalRequeueAfter, None,
                       Pass.mk r w q classifier, h)
                  | (classifier, None, q) =>
                      (ctrlResult.zero, None, Pass.mk r w q classifier, h)
                  end
              end
          end
      end
  end.

(** [Reconcile] for the request [namespace]/[name]. The deferred
    [classifierScope.Close] runs after either branch and its error
    replaces the one being returned. The Classifier the pass ends with is
    the one handed to [Close]. [reconcileDelete] reaches the management
    cluster through the environment only. *)
Definition Reconcile (namespace name : string)
  (r : ClassifierReconciler.t) (w : Registry.t K) (q : Queue.t D) (h : Hub.t M)
  : ctrlResult.t * option error *
    (ClassifierReconciler.t * Registry.t K * Queue.t D) * Hub.t M :=
  let got := GetClassifier (Hub.client h) namespace name in
  let h := Hub.mk (Hub.client h) (Hub.calls h ++ [CallGetClassifier namespace name]) in
  match got with
  | Err e =>
      if IsNotFound e then (ctrlResult.zero, None, (r, w, q), h)
      else
        (ctrlResult.zero,
         Some (Wrapf e ("Failed to fetch Classifier " +:+ namespace +:+ "/" +:+ name)),
         (r, w, q), h)
  | Ok classifier =>
      match NewClassifierScope (Hub.client h) classifier with
      | Some e =>
          (ctrlResult.zero,
           Some (Wrapf e ("unable to create classifier scope for " +:+
                          namespace +:+ "/" +:+ name)),
           (r, w, q), h)
      | None =>
          let '(result, reterr, s, h) :=
            if negb (IsZero (Classifier.DeletionTimestamp classifier))
            then
              let '(result, reterr, s) := reconcileDelete env (Pass.mk r w q classifier) in
              (result, reterr, s, h)
            else reconcileNormal (Pass.mk r w q classifier) h in
          let '(err, m) := Close (Hub.client h) (Pass.classifier s) in
          let h := Hub.mk m (Hub.calls h ++ [CallClose (Pass.classifier s)]) in
          (result,
           match err with Some e => Some e | None => reterr end,
           (Pass.reconciler s, Pass.registry s, Pass.queue s), h)
      end
  end.
End Normal.

(** The clusters asked for by the [r.Get] calls of a trace, and the
    [r.Update] calls on clusters. *)
Definition clusterGets (calls : list ManagementCall) : list (string * string) :=
  omap (fun call =>
          match call with
          | CallGetCluster ns n => Some (ns, n)
          | _ => None
          end) calls.

Definition isClusterUpdate (call : ManagementCall) : bool :=
  match call with
  | CallUpdateCluster _ => true
  | _ => false
  end.

Definition isClusterCall (call : ManagementCall) : bool :=
  match call with
  | CallGetCluster _ _ | CallUpdateCluster _ => true
  | _ => false
  end.

(** Two states of the same Classifier object that differ in the status
    only. *)
Definition sameObject (c c' : Classifier.t) : Prop :=
  Classifier.Name c' = Classifier.Name c ∧
  Classifier.Annotations c' = Classifier.Annotations c ∧
  Classifier.Finalizers c' = Classifier.Finalizers c ∧
  Classifier.DeletionTimestamp c' = Classifier.DeletionTimestamp c ∧
  Classifier.ClassifierLabels c' = Classifier.ClassifierLabels c.

(** A dispatch of one of the two deploy handlers, and a dispatch of the
    undeploy handler. *)
Definition isDeployRequest (call : DeployerCall) : bool :=
  match call with
  | CallDeploy _ _ _ _ _ cleanup handler _ _ =>
      negb cleanup &&
      bool_decide (handler = deployClassifierInCluster ∨
                   handler = deployClassifierWithKubeconfigInCluster)
  | _ => false
  end.

Definition isUndeployRequest (call : DeployerCall) : bool :=
  match call with
  | CallDeploy _ _ _ _ _ cleanup handler _ _ =>
      cleanup && bool_decide (handler = undeployClassifierFromCluster)
  | _ => false
  end.

(** ** Pulling and removing ClassifierReports *)

(** What [collectClassifierReportsFromCluster] needs to reach a managed
    cluster: [InitScheme], [clusterproxy.GetKubernetesClient] (its error,
    by cluster) and the answer of [remoteClient.List] for the
    ClassifierReports of that cluster. *)
Module RemoteAccess.
Record t : Type := mk {
  InitScheme : option error;
  GetKubernetesClient : string -> string -> option error;
  ListClassifierReports : string -> string -> GoResult (list ClassifierReport.t)
}.
End RemoteAccess.

Section ReportPull.
Context {C : Type} `{ReportClient C}.
Variable env : Environment.t.
Variable remote : RemoteAccess.t.

(** [collectClassifierReportsFromCluster]; an error of
    [updateClassifierReport] is logged and the loop goes on. *)
Definition collectClassifierReportsFromCluster (m : Management.t C) (cluster : Cluster.t)
  : option error * Management.t C :=
  let clusterRef :=
    ObjectReference.mk "" (Cluster.Namespace cluster) (Cluster.Name cluster) "" in
  match Environment.IsClusterReadyToBeConfigured env clusterRef with
  | Err e => (Some e, m)
  | Ok false => (None, m)
  | Ok true =>
      match RemoteAccess.InitScheme remote with
      | Some e => (Some e, m)
      | None =>
          match RemoteAccess.GetKubernetesClient remote
                  (Cluster.Namespace cluster) (Cluster.Name cluster) with
          | Some e => (Some e, m)
          | None =>
              match RemoteAccess.ListClassifierReports remote
                      (Cluster.Namespace cluster) (Cluster.Name cluster) with
              | Err e => (Some e, m)
              | Ok items =>
                  (None,
                   foldl (fun m cr => (updateClassifierReport m cluster cr).2) m items)
              end
          end
      end
  end.
End ReportPull.

(** The part of [client.Client] that [removeClassifierReports] and
    [removeClusterClassifierReports] use: [c.List] of the
    ClassifierReports carrying a label, and [c.Delete]. *)
Class ReportRemover (C : Type) : Type := {
  ListReports : C -> string -> string -> GoResult (list ClassifierReport.t);
  DeleteReport : C -> ClassifierReport.t -> option error * C
}.

Inductive RemoverCall : Type :=
  | CallListReports (label value : string)
  | CallDeleteReport (report : ClassifierReport.t).

Module Sweep.
Record t (C : Type) : Type := mk {
  client : C;
  calls : list RemoverCall
}.
Arguments mk {C} _ _.
Arguments client {C} _.
Arguments calls {C} _.
End Sweep.

Section ReportRemoval.
Context {C : Type} `{ReportRemover C}.

(** The loop shared by the two functions: delete the listed reports one
    by one and return at the first error. *)
Fixpoint deleteReports (s : Sweep.t C) (items : list ClassifierReport.t)
  : option error * Sweep.t C :=
  match items with
  | [] => (None, s)
  | cr :: items =>
      let '(err, c) := DeleteReport (Sweep.client s) cr in
      let s := Sweep.mk c (Sweep.calls s ++ [CallDeleteReport cr]) in
      match err with
      | Some e => (Some e, s)
      | None => deleteReports s items
      end
  end.

(** [removeClassifierReports] *)
Definition removeClassifierReports (s : Sweep.t C) (classifier : Classifier.t)
  : option error * Sweep.t C :=
  let listed :=
    ListReports (Sweep.client s) ClassifierLabelName (Classifier.Name classifier) in
  let s :=
    Sweep.mk (Sweep.client s)
      (Sweep.calls s ++
         [CallListReports ClassifierLabelName (Classifier.Name classifier)]) in
  match listed with
  | Err e => (Some e, s)
  | Ok items => deleteReports s items
  end.

(** [removeClusterClassifierReports] *)
Definition removeClusterClassifierReports (s : Sweep.t C)
  (clusterNamespace clusterName : string) : option error * Sweep.t C :=
  let listed :=
    ListReports (Sweep.client s) classifierReportClusterLabel
      (getClusterInfo clusterNamespace clusterName) in
  let s :=
    Sweep.mk (Sweep.client s)
      (Sweep.calls s ++
         [CallListReports classifierReportClusterLabel
            (getClusterInfo clusterNamespace clusterName)]) in
  match listed with
  | Err e => (Some e, s)
  | Ok items => deleteReports s items
  end.
End ReportRemoval.

(** The [r.Get] calls of a trace of the report client, and its writes. *)
Definition reportGets (calls : list ClientCall) : list (string * string) :=
  omap (fun call =>
          match call with
          | CallGet ns n => Some (ns, n)
          | _ => None
          end) calls.

Definition reportWrites (calls : list ClientCall) : list ClassifierReport.t :=
  omap (fun call =>
          match call with
          | CallCreate report | CallUpdate report => Some report
          | CallGet _ _ => None
          end) calls.

Definition reportDeletes (calls : list RemoverCall) : list ClassifierReport.t :=
  omap (fun call =>
          match call with
          | CallDeleteReport report => Some report
          | CallListReports _ _ => None
          end) calls.

(** A report carries the label [label] with the value [value]. *)
Definition hasLabel (label value : string) (report : ClassifierReport.t) : Prop :=
  exists labels, ClassifierReport.Labels report = Some labels ∧
                 labels !! label = Some value.

(** ** The helpers of the request handlers *)

(** A Go call that may panic instead of returning. *)
Inductive Outcome (A : Type) : Type :=
  | Returns (a : A)
  | Panics (reason : string).
Arguments Returns {A} a.
Arguments Panics {A} reason.

(** [clusterv1.APIEndpoint]; [Port] is an int32. *)
Module APIEndpoint.
Record t : Type := mk {
  Host : string;
  Port : Z
}.
End APIEndpoint.

Module AccessRequestSpec.
Record t : Type := mk {
  Namespace : string;
  Name : string;
  Type_ : string;
  ControlPlaneEndpoint : APIEndpoint.t
}.
End AccessRequestSpec.

(** [libsveltosv1alpha1.AccessRequest]; [SecretRef] is
    [Status.SecretRef], [None] for nil. *)
Module AccessRequest.
Record t : Type := mk {
  Namespace : string;
  Name : string;
  Labels : option (gmap string string);
  Spec : AccessRequestSpec.t;
  SecretRef : option ObjectReference.t
}.
End AccessRequest.

(** [corev1.Secret]; [Data] is [None] for the nil map. *)
Module Secret.
Record t : Type := mk {
  Namespace : string;
  Name : string;
  Data : option (gmap string bytes)
}.
End Secret.

(** [strings.Split(s, ":")]: the pieces between the colons, one more
    than there are colons. *)
Fixpoint splitColon (s : string) : list string :=
  match s with
  | EmptyString => [""]
  | String c rest =>
      if decide (c = ":"%char) then "" :: splitColon rest
      else
        match splitColon rest with
        | piece :: pieces => String c piece :: pieces
        | [] => [String c ""]
        end
  end.

(** The value of a decimal digit. *)
Definition digitValue (c : ascii) : option Z :=
  let n := Z.of_N (N_of_ascii c) in
  if decide (48 <= n <= 57)%Z then Some (n - 48)%Z else None.

(** The digits of [s] read from the left, starting from [acc]; [None]
    when a character is not a digit. *)
Fixpoint digitsValue (acc : Z) (s : string) : option Z :=
  match s with
  | EmptyString => Some acc
  | String c rest =>
      match digitValue c with
      | Some d => digitsValue (10 * acc + d)%Z rest
      | None => None
      end
  end.

(** [strconv.ParseInt(s, 10, 32)] with its error dropped: an optional
    sign and decimal digits; 0 on a syntax error, the nearest int32 when
    the number is out of range. *)
Definition ParseInt32 (s : string) : Z :=
  let '(neg, digits) :=
    match s with
    | String c rest =>
        if decide (c = "-"%char) then (true, rest)
        else if decide (c = "+"%char) then (false, rest)
        else (false, s)
    | EmptyString => (false, s)
    end in
  match digits with
  | EmptyString => 0%Z
  | _ =>
      match digitsValue 0 digits with
      | None => 0%Z
      | Some un =>
          if neg then (- Z.min un 2147483648)%Z else Z.min un 2147483647%Z
      end
  end.

(** What the helpers ask of the management cluster. *)
Class AccessClient (A : Type) : Type := {
  GetAccessRequest : A -> string -> string -> GoResult AccessRequest.t;
  CreateAccessRequest : A -> AccessRequest.t -> option error * A;
  GetSecret : A -> string -> string -> GoResult Secret.t
}.

Inductive AccessCall : Type :=
  | CallGetAccessRequest (namespace name : string)
  | CallCreateAccessRequest (request : AccessRequest.t)
  | CallGetSecret (namespace name : string).

Module Desk.
Record t (A : Type) : Type := mk {
  client : A;
  calls : list AccessCall
}.
Arguments mk {A} _ _.
Arguments client {A} _.
Arguments calls {A} _.
End Desk.

(** What [updateSecretWithAccessManagementKubeconfig] asks of the
    managed cluster. *)
Class SecretClient (R : Type) : Type := {
  GetNamespace : R -> string -> option error;
  CreateNamespace : R -> string -> option error * R;
  GetRemoteSecret : R -> string -> string -> GoResult Secret.t;
  CreateSecret : R -> Secret.t -> option error * R;
  UpdateSecret : R -> Secret.t -> option error * R
}.

Inductive SecretCall : Type :=
  | CallGetNamespace (name : string)
  | CallCreateNamespace (name : string)
  | CallGetRemoteSecret (namespace name : string)
  | CallCreateSecret (secret : Secret.t)
  | CallUpdateSecret (secret : Secret.t).

Module Remote.
Record t (R : Type) : Type := mk {
  client : R;
  calls : list SecretCall
}.
Arguments mk {R} _ _.
Arguments client {R} _.
Arguments calls {R} _.
End Remote.

(** What [getClassifierAndClusterClient] reads: the Classifier behind
    [c.Get], the deletion timestamp of the cluster [getCluster] finds,
    [InitScheme], and the client [getKubernetesClient] builds. *)
Module ClusterAccess.
Record t (R : Type) : Type := mk {
  getClassifier : string -> GoResult Classifier.t;
  getCluster : string -> string -> ClusterType -> GoResult (option Z);
  InitScheme : option error;
  getKubernetesClient : string -> string -> ClusterType -> GoResult R
}.
Arguments mk {R} _ _ _ _.
Arguments getClassifier {R} _.
Arguments getCluster {R} _.
Arguments InitScheme {R} _.
Arguments getKubernetesClient {R} _.
End ClusterAccess.

Section HandlerHelpers.
Context {A : Type} `{AccessClient A} {R : Type} `{SecretClient R}.

(** Constants and conversions defined outside these sources:
    [accessRequestClassifierLabel], [ClassifierAgentRequest],
    [ClassifierSecretNamespace], [ClassifierSecretName], and
    [strings.ToLower(string(clusterType))]. *)
Variable accessRequestClassifierLabel : string.
Variable ClassifierAgentRequest : string.
Variable ClassifierSecretNamespace : string.
Variable ClassifierSecretName : string.
Variable lowerClusterType : ClusterType -> string.

(** The first entry a [range] over the data of a Secret visits; Go
    fixes no order. *)
Variable rangeFirst : gmap string bytes -> option (string * bytes).

(** [getAccessRequestName] *)
Definition getAccessRequestName (clusterName : string) (clusterType : ClusterType)
  : string :=
  lowerClusterType clusterType +:+ "-" +:+ clusterName.

(** [createAccessRequest] *)
Definition createAccessRequest (d : Desk.t A) (clusterNamespace clusterName : string)
  (clusterType : ClusterType) (options : Options.t)
  : Outcome (option error) * Desk.t A :=
  let missingControlPlaneMessage := "controlplane endpoint is missing" in
  match Options.HandlerOptions options with
  | None => (Returns (Some (errorsNew missingControlPlaneMessage)), d)
  | Some handlerOptions =>
      match handlerOptions !! controlplaneendpoint with
      | None => (Returns (Some (errorsNew missingControlPlaneMessage)), d)
      | Some cpEndpoint =>
          let info := splitColon cpEndpoint in
          match info !! 2 with
          | None => (Panics "index out of range", d)
          | Some info2 =>
              let port := ParseInt32 info2 in
              let name := getAccessRequestName clusterName clusterType in
              let got := GetAccessRequest (Desk.client d) clusterNamespace name in
              let d :=
                Desk.mk (Desk.client d)
                  (Desk.calls d ++ [CallGetAccessRequest clusterNamespace name]) in
              match got with
              | Err e =>
                  if IsNotFound e
                  then
                    let accessRequest :=
                      AccessRequest.mk clusterNamespace name
                        (Some {[accessRequestClassifierLabel := "ok"]})
                        (AccessRequestSpec.mk clusterNamespace clusterName
                           ClassifierAgentRequest
                           (APIEndpoint.mk
                              (default "" (info !! 0) +:+ ":" +:+
                               default "" (info !! 1))
                              port))
                        None in
                    let '(err, c) := CreateAccessRequest (Desk.client d) accessRequest in
                    (Returns err,
                     Desk.mk c (Desk.calls d ++ [CallCreateAccessRequest accessRequest]))
                  else (Returns (Some e), d)
              | Ok _ => (Returns None, d)
              end
          end
      end
  end.

(** [getKubeconfigFromAccessRequest] *)
Definition getKubeconfigFromAccessRequest (d : Desk.t A)
  (clusterNamespace clusterName : string) (clusterType : ClusterType)
  : GoResult bytes * Desk.t A :=
  let name := getAccessRequestName clusterName clusterType in
  let got := GetAccessRequest (Desk.client d) clusterNamespace name in
  let d :=
    Desk.mk (Desk.client d)
      (Desk.calls d ++ [CallGetAccessRequest clusterNamespace name]) in
  match got with
  | Err e => (Err e, d)
  | Ok accessRequest =>
      match AccessRequest.SecretRef accessRequest with
      | None => (Ok None, d)
      | Some ref =>
          let gotSecret :=
            GetSecret (Desk.client d) (ObjectReference.Namespace ref)
              (ObjectReference.Name ref) in
          let d :=
            Desk.mk (Desk.client d)
              (Desk.calls d ++
                 [CallGetSecret (ObjectReference.Namespace ref)
                    (ObjectReference.Name ref)]) in
          match gotSecret with
          | Err e => (Err e, d)
          | Ok secret =>
              match rangeFirst (default ∅ (Secret.Data secret)) with
              | Some (_, contents) => (Ok contents, d)
              | None => (Ok None, d)
              end
          end
      end
  end.

(** [getClassifierAndClusterClient] *)
Definition getClassifierAndClusterClient (access : ClusterAccess.t R)
  (clusterNamespace clusterName classifierName : string) (clusterType : ClusterType)
  : GoResult (Classifier.t * R) :=
  match ClusterAccess.getClassifier access classifierName with
  | Err e => Err e
  | Ok classifier =>
      if negb (IsZero (Classifier.DeletionTimestamp classifier))
      then Err (errorsNew "classifier is marked for deletion")
      else
        match ClusterAccess.getCluster access clusterNamespace clusterName
                clusterType with
        | Err e => Err e
        | Ok deletionTimestamp =>
            if negb (IsZero deletionTimestamp)
            then Err (errorsNew "cluster is marked for deletion")
            else
              match ClusterAccess.InitScheme access with
              | Some e => Err e
              | None =>
                  match ClusterAccess.getKubernetesClient access clusterNamespace
                          clusterName clusterType with
                  | Err e => Err e
                  | Ok clusterClient => Ok (classifier, clusterClient)
                  end
              end
        end
  end.

(** [createSecretNamespace] *)
Definition createSecretNamespace (r : Remote.t R) : option error * Remote.t R :=
  let got := GetNamespace (Remote.client r) ClassifierSecretNamespace in
  let r :=
    Remote.mk (Remote.client r)
      (Remote.calls r ++ [CallGetNamespace ClassifierSecretNamespace]) in
  match got with
  | Some e =>
      if IsNotFound e
      then
        let '(err, c) := CreateNamespace (Remote.client r) ClassifierSecretNamespace in
        (err,
         Remote.mk c (Remote.calls r ++ [CallCreateNamespace ClassifierSecretNamespace]))
      else (Some e, r)
  | None => (None, r)
  end.

(** [updateSecretWithAccessManagementKubeconfig]; the calls made on the
    managed cluster are returned with the outcome, [[]] when the cluster
    was not reached. *)
Definition updateSecretWithAccessManagementKubeconfig (access : ClusterAccess.t R)
  (clusterNamespace clusterName applicant : string) (clusterType : ClusterType)
  (kubeconfig : bytes) : Outcome (option error) * list SecretCall :=
  match getClassifierAndClusterClient access clusterNamespace clusterName applicant
          clusterType with
  | Err e => (Returns (Some e), [])
  | Ok (_, remoteClient) =>
      match createSecretNamespace (Remote.mk remoteClient []) with
      | (Some e, r) => (Returns (Some e), Remote.calls r)
      | (None, r) =>
          let dataKey := "kubeconfig" in
          let got :=
            GetRemoteSecret (Remote.client r) ClassifierSecretNamespace
              ClassifierSecretName in
          let r :=
            Remote.mk (Remote.client r)
              (Remote.calls r ++
                 [CallGetRemoteSecret ClassifierSecretNamespace ClassifierSecretName]) in
          match got with
          | Err _ =>
              let secret :=
                Secret.mk ClassifierSecretNamespace ClassifierSecretName
                  (Some {[dataKey := kubeconfig]}) in
              let '(err, _) := CreateSecret (Remote.client r) secret in
              (Returns err, Remote.calls r ++ [CallCreateSecret secret])
          | Ok secret =>
              match default ∅ (Secret.Data secret) !! dataKey with
              | Some currentKubeconfig =>
                  if DeepEqual currentKubeconfig kubeconfig
                  then (Returns None, Remote.calls r)
                  else
                    match Secret.Data secret with
                    | None => (Panics "assignment to entry in nil map", Remote.calls r)
                    | Some data =>
                        let secret :=
                          Secret.mk (Secret.Namespace secret) (Secret.Name secret)
                            (Some (<[dataKey := kubeconfig]> data)) in
                        let '(err, _) := UpdateSecret (Remote.client r) secret in
                        (Returns err, Remote.calls r ++ [CallUpdateSecret secret])
                    end
              | None =>
                  match Secret.Data secret with
                  | None => (Panics "assignment to entry in nil map", Remote.calls r)
                  | Some data =>
                      let secret :=
                        Secret.mk (Secret.Namespace secret) (Secret.Name secret)
                          (Some (<[dataKey := kubeconfig]> data)) in
                      let '(err, _) := UpdateSecret (Remote.client r) secret in
                      (Returns err, Remote.calls r ++ [CallUpdateSecret secret])
                  end
              end
          end
      end
  end.
End HandlerHelpers.

(** The number of colons in a string, and the writes of a trace on the
    managed cluster. *)
Fixpoint countColons (s : string) : nat :=
  match s with
  | EmptyString => 0
  | String c rest =>
      if decide (c = ":"%char) then S (countColons rest) else countColons rest
  end.

Definition secretWrites (calls : list SecretCall) : list Secret.t :=
  omap (fun call =>
          match call with
          | CallCreateSecret secret | CallUpdateSecret secret => Some secret
          | _ => None
          end) calls.

(** ** Further collaborators and data for the examples *)

(** A management cluster holding Classifiers, Clusters and
    ClassifierReports; like an API server it refuses to look up an
    object without a name. *)
Module FakeHub.
Record t : Type := mk {
  classifiers : list Classifier.t;
  clusters : list ClusterObject.t;
  reports : list ClassifierReport.t
}.
Definition getClassifier (m : t) (ns name : string) : GoResult Classifier.t :=
  match filter (fun c => Classifier.Name c = name) (classifiers m) with
  | c :: _ => Ok c
  | [] => Err (NotFoundError "classifier not found")
  end.
Definition store (m : t) (c : Classifier.t) : option error * t :=
  (None,
   mk (filter (fun c' => Classifier.Name c' ≠ Classifier.Name c) (classifiers m) ++ [c])
     (clusters m) (reports m)).
Definition labelled (name : string) (report : ClassifierReport.t) : Prop :=
  default ∅ (ClassifierReport.Labels report) !! ClassifierLabelName = Some name.
#[global] Instance labelled_dec name report : Decision (labelled name report).
Proof. unfold labelled. apply _. Defined.
Definition listReports (m : t) (name : string) : GoResult (list ClassifierReport.t) :=
  Ok (filter (labelled name) (reports m)).
Definition isCluster (ns name : string) (c : ClusterObject.t) : Prop :=
  Cluster.Namespace (ClusterObject.Meta c) = ns ∧
  Cluster.Name (ClusterObject.Meta c) = name.
#[global] Instance isCluster_dec ns name c : Decision (isCluster ns name c).
Proof. unfold isCluster. apply _. Defined.
Definition getCluster (m : t) (ns name : string) : GoResult ClusterObject.t :=
  if decide (name = "") then Err (OtherError "resource name may not be empty")
  else
    match filter (isCluster ns name) (clusters m) with
    | c :: _ => Ok c
    | [] => Err (NotFoundError "cluster not found")
    end.
Definition updateCluster (m : t) (c : ClusterObject.t) : option error * t :=
  (None,
   mk (classifiers m)
     (filter (fun c' => ¬ isCluster (Cluster.Namespace (ClusterObject.Meta c))
                           (Cluster.Name (ClusterObject.Meta c)) c')
        (clusters m) ++ [c])
     (reports m)).
End FakeHub.

#[global] Instance FakeHub_client : ManagementClient FakeHub.t := {
  GetClassifier := FakeHub.getClassifier;
  NewClassifierScope _ _ := None;
  PatchObject := FakeHub.store;
  Close := FakeHub.store;
  ListClassifierReports := FakeHub.listReports;
  ListClusters m := Ok (ClusterObject.Meta <$> FakeHub.clusters m);
  GetCluster := FakeHub.getCluster;
  UpdateCluster := FakeHub.updateCluster
}.

(** A management cluster holding AccessRequests and Secrets. *)
Module FakeDesk.
Record t : Type := mk {
  requests : list AccessRequest.t;
  secrets : list Secret.t
}.
Definition isRequest (ns name : string) (r : AccessRequest.t) : Prop :=
  AccessRequest.Namespace r = ns ∧ AccessRequest.Name r = name.
#[global] Instance isRequest_dec ns name r : Decision (isRequest ns name r).
Proof. unfold isRequest. apply _. Defined.
Definition isSecret (ns name : string) (s : Secret.t) : Prop :=
  Secret.Namespace s = ns ∧ Secret.Name s = name.
#[global] Instance isSecret_dec ns name s : Decision (isSecret ns name s).
Proof. unfold isSecret. apply _. Defined.
Definition getRequest (d : t) (ns name : string) : GoResult AccessRequest.t :=
  match filter (isRequest ns name) (requests d) with
  | r :: _ => Ok r
  | [] => Err (NotFoundError "accessrequest not found")
  end.
Definition createRequest (d : t) (r : AccessRequest.t) : option error * t :=
  (None, mk (requests d ++ [r]) (secrets d)).
Definition getSecret (d : t) (ns name : string) : GoResult Secret.t :=
  match filter (isSecret ns name) (secrets d) with
  | s :: _ => Ok s
  | [] => Err (NotFoundError "secret not found")
  end.
End FakeDesk.

#[global] Instance FakeDesk_client : AccessClient FakeDesk.t := {
  GetAccessRequest := FakeDesk.getRequest;
  CreateAccessRequest := FakeDesk.createRequest;
  GetSecret := FakeDesk.getSecret
}.

Definition exampleLowerClusterType (clusterType : ClusterType) : string :=
  match clusterType with
  | ClusterTypeCapi => "capi"
  | ClusterTypeSveltos => "sveltos"
  end.

(** An iteration that visits the entries in the order of the keys. *)
Definition firstEntry (m : gmap string bytes) : option (string * bytes) :=
  head (map_to_list m).

Definition pausedB : Environment.t := exampleEnv [("default", "cluster-b")] [] [].

(** A management cluster on which the reports of both clusters match
    [acme]. *)
Definition twoMatches : Hub.t FakeHub.t :=
  Hub.mk
    (FakeHub.mk [acme [] []]
       [ClusterObject.mk (Cluster.mk "default" "cluster-a" None) None;
        ClusterObject.mk (Cluster.mk "default" "cluster-b" None) None]
       [reportFor clusterA true; reportFor clusterB true])
    [].

(** A management cluster with both clusters and no report yet. *)
Definition quietHub : Hub.t FakeHub.t :=
  Hub.mk
    (FakeHub.mk [acme [] []]
       [ClusterObject.mk (Cluster.mk "default" "cluster-a" None) None;
        ClusterObject.mk (Cluster.mk "default" "cluster-b" None) None]
       [])
    [].

Definition livePass : Pass.t LabelClaims.t FakeDeployer.t :=
  Pass.mk exampleReconciler emptyRegistry idleQueue (acme [] []).

Definition emptyDesk : Desk.t FakeDesk.t := Desk.mk (FakeDesk.mk [] []) [].

(** A management cluster whose AccessRequest for cluster A names a
    Secret with one entry. *)
Definition kubeconfigBytes : bytes := Some (String.list_byte_of_string "kubeconfig-data").

Definition grantedDesk : Desk.t FakeDesk.t :=
  Desk.mk
    (FakeDesk.mk
       [AccessRequest.mk "default" "capi-cluster-a" None
          (AccessRequestSpec.mk "default" "cluster-a" "ClassifierAgent"
             (APIEndpoint.mk "https://192.168.10.1" 443))
          (Some (ObjectReference.mk "Secret" "default" "capi-cluster-a-secret" "v1"))]
       [Secret.mk "default" "capi-cluster-a-secret"
          (Some {["data" := kubeconfigBytes]})])
    [].

(** * Properties *)

(** ** updateClusterInfo *)

Lemma getListOfClusters_filter (items : list Cluster.t) :
  getListOfClusters (Ok items) =
  Ok (clusterRef <$> filter (fun cl => Cluster.DeletionTimestamp cl = None) items).
Proof.
  unfold getListOfClusters. f_equal.
  enough (Hgen : forall acc,
    foldl (fun matching cluster =>
             if negb (IsZero (Cluster.DeletionTimestamp cluster))
             then matching
             else matching ++
                  [ObjectReference.mk "" (Cluster.Namespace cluster)
                     (Cluster.Name cluster) ""]) acc items
    = acc ++ (clusterRef <$>
                filter (fun cl => Cluster.DeletionTimestamp cl = None) items))
    by apply (Hgen []).
  induction items as [|cl items IH]; intros acc; cbn [foldl].
  - by rewrite filter_nil, fmap_nil, app_nil_r.
  - rewrite IH. destruct cl as [ns n [ts|]]; cbn [Cluster.DeletionTimestamp IsZero negb].
    + rewrite filter_cons_False; [done | by simpl].
    + rewrite filter_cons_True by done. rewrite fmap_cons.
      by rewrite <- app_assoc.
Qed.

Lemma clusterMap_lookup (old : list ClusterInfo.t) (k : string) :
  foldl (fun (m : gmap string bool) c =>
           <[getClusterID (ClusterInfo.Cluster c) := true]> m) ∅ old !! k = None
  ↔ k ∉ (fun e => getClusterID (ClusterInfo.Cluster e)) <$> old.
Proof.
  assert (Hgen : forall (m : gmap string bool),
    foldl (fun (m : gmap string bool) c =>
             <[getClusterID (ClusterInfo.Cluster c) := true]> m) m old !! k = None
    ↔ m !! k = None ∧
      k ∉ (fun e => getClusterID (ClusterInfo.Cluster e)) <$> old).
  { induction old as [|e old IH]; intros m; simpl.
    - split; [intros H; split; [done | apply not_elem_of_nil] | by intros [H _]].
    - rewrite IH, not_elem_of_cons.
      destruct (decide (getClusterID (ClusterInfo.Cluster e) = k)) as [->|Hne].
      + rewrite lookup_insert_eq. naive_solver.
      + rewrite lookup_insert_ne by done. naive_solver. }
  rewrite Hgen, lookup_empty. naive_solver.
Qed.

Lemma newClusterInfo_filter (m : gmap string bool)
  (matching : list ObjectReference.t) :
  foldl (fun acc c =>
           match m !! getClusterID c with
           | Some _ => acc
           | None => acc ++ [newEntry c]
           end) [] matching
  = newEntry <$> filter (fun c => m !! getClusterID c = None) matching.
Proof.
  enough (Hgen : forall acc,
    foldl (fun acc c =>
             match m !! getClusterID c with
             | Some _ => acc
             | None => acc ++ [newEntry c]
             end) acc matching
    = acc ++ (newEntry <$> filter (fun c => m !! getClusterID c = None) matching))
    by apply (Hgen []).
  induction matching as [|c matching IH]; intros acc; cbn [foldl].
  - by rewrite filter_nil, fmap_nil, app_nil_r.
  - rewrite IH. destruct (m !! getClusterID c) as [b|] eqn:Hm.
    + rewrite filter_cons_False; [done | by rewrite Hm].
    + rewrite filter_cons_True by done. rewrite fmap_cons.
      by rewrite <- app_assoc.
Qed.

(** With slash-free namespaces the string key identifies the cluster. *)
Lemma getClusterID_inj (ns1 n1 ns2 n2 : string) :
  noSlash ns1 -> noSlash ns2 ->
  ns1 +:+ "/" +:+ n1 = ns2 +:+ "/" +:+ n2 -> ns1 = ns2 ∧ n1 = n2.
Proof.
  unfold noSlash. revert ns2.
  induction ns1 as [|a ns1 IH]; intros [|b ns2]; simpl; intros H1 H2 Heq.
  - by inversion Heq.
  - inversion Heq; subst. by rewrite decide_True in H2.
  - inversion Heq; subst. by rewrite decide_True in H1.
  - inversion Heq; subst.
    destruct (decide (b = "/"%char)); [done|].
    destruct (IH ns2 H1 H2) as [-> ->]; done.
Qed.

Lemma NoDup_fmap_filter {A B : Type} (f : A -> B) (P : A -> Prop)
  `{forall x, Decision (P x)} (l : list A) :
  NoDup (f <$> l) -> NoDup (f <$> filter P l).
Proof.
  induction l as [|x l IH]; [done|].
  rewrite fmap_cons, NoDup_cons. intros [Hx Hl].
  rewrite filter_cons. destruct (decide (P x)); [|by auto].
  rewrite fmap_cons, NoDup_cons. split; [|by auto].
  intros (y & Hy & Hin)%list_elem_of_fmap.
  apply list_elem_of_filter in Hin as [_ Hin].
  apply Hx, list_elem_of_fmap. eauto.
Qed.

Lemma present_by_key (old : list ClusterInfo.t) (ns n : string) :
  noSlash ns ->
  Forall (fun e => noSlash (ObjectReference.Namespace (ClusterInfo.Cluster e))) old ->
  ns +:+ "/" +:+ n ∈ (fun e => getClusterID (ClusterInfo.Cluster e)) <$> old
  ↔ (ns, n) ∈ entryKey <$> old.
Proof.
  intros Hns Hold. rewrite !list_elem_of_fmap. split.
  - intros (e & Heq & Hin). exists e. split; [|done].
    rewrite Forall_forall in Hold.
    destruct (getClusterID_inj _ _ _ _ Hns (Hold e Hin) Heq) as [-> ->].
    done.
  - intros (e & Heq & Hin). exists e. split; [|done].
    unfold entryKey, refKey in Heq. inversion Heq; subst. done.
Qed.

(** C9: updateClusterInfo only grows Status.ClusterInfo. When listing
    the clusters fails the status is left as it is. Otherwise the new
    list is the old one followed by one empty-status entry for every
    listed cluster that is not being deleted and whose namespace/name is
    not yet present. The status of the Classifier it returns holds
    exactly that list: existing entries are neither removed nor modified
    and keep their positions, the matching statuses are left alone, and a
    list with one entry per cluster keeps one entry per cluster. *)
Theorem updateClusterInfo_only_grows
  (items : list Cluster.t) (classifier : Classifier.t) :
  NoDup ((fun cl => (Cluster.Namespace cl, Cluster.Name cl)) <$> items) ->
  Forall (fun cl => noSlash (Cluster.Namespace cl)) items ->
  Forall (fun e => noSlash (ObjectReference.Namespace (ClusterInfo.Cluster e)))
    (statusClusterInfo classifier) ->
  (forall e, updateClusterInfo (Err e) classifier = (classifier, Some e)) ∧
  exists added,
    updateClusterInfo (Ok items) classifier
      = (SetClusterInfo classifier (statusClusterInfo classifier ++ added), None) ∧
    statusClusterInfo (updateClusterInfo (Ok items) classifier).1
      = statusClusterInfo classifier ++ added ∧
    (forall i e, statusClusterInfo classifier !! i = Some e ->
       statusClusterInfo (updateClusterInfo (Ok items) classifier).1 !! i = Some e) ∧
    statusMachingClusterStatuses (updateClusterInfo (Ok items) classifier).1
      = statusMachingClusterStatuses classifier ∧
    (forall e, e ∈ added ↔
       exists cl, cl ∈ items ∧ Cluster.DeletionTimestamp cl = None ∧
         ((Cluster.Namespace cl, Cluster.Name cl)
            ∉ entryKey <$> statusClusterInfo classifier) ∧
         e = newEntry (clusterRef cl)) ∧
    NoDup (entryKey <$> added) ∧
    (NoDup (entryKey <$> statusClusterInfo classifier) ->
     NoDup (entryKey <$> (statusClusterInfo classifier ++ added))).
Proof.
  intros Hdup Hitems Hold. split; [done|].
  set (old := statusClusterInfo classifier) in *.
  set (m := foldl (fun (m : gmap string bool) c =>
                     <[getClusterID (ClusterInfo.Cluster c) := true]> m) ∅ old).
  set (live := filter (fun cl => Cluster.DeletionTimestamp cl = None) items).
  set (fresh := filter (fun c => m !! getClusterID c = None) (clusterRef <$> live)).
  exists (newEntry <$> fresh).
  assert (Hmem : forall e, e ∈ newEntry <$> fresh ↔
    exists cl, cl ∈ items ∧ Cluster.DeletionTimestamp cl = None ∧
      ((Cluster.Namespace cl, Cluster.Name cl) ∉ entryKey <$> old) ∧
      e = newEntry (clusterRef cl)).
  { intros e. rewrite list_elem_of_fmap. split.
    - intros (c & -> & Hc). unfold fresh in Hc.
      apply list_elem_of_filter in Hc as [Hm Hc].
      apply list_elem_of_fmap in Hc as (cl & -> & Hcl).
      unfold live in Hcl. apply list_elem_of_filter in Hcl as [Hlive Hcl].
      exists cl. repeat split; try done.
      unfold m in Hm. apply clusterMap_lookup in Hm.
      intros Hin. apply Hm. unfold getClusterID, clusterRef; simpl.
      apply present_by_key; [|done|done].
      rewrite Forall_forall in Hitems. by apply Hitems.
    - intros (cl & Hcl & Hlive & Hnew & ->). exists (clusterRef cl).
      split; [done|]. unfold fresh. apply list_elem_of_filter. split.
      + unfold m. apply clusterMap_lookup. intros Hin. apply Hnew.
        unfold getClusterID, clusterRef in Hin; simpl in Hin.
        apply present_by_key in Hin; [done| |done].
        rewrite Forall_forall in Hitems. by apply Hitems.
      + apply list_elem_of_fmap. exists cl. split; [done|].
        unfold live. by apply list_elem_of_filter. }
  assert (Hnd : NoDup (entryKey <$> (newEntry <$> fresh))).
  { rewrite <- list_fmap_compose. unfold fresh.
    apply NoDup_fmap_filter. rewrite <- list_fmap_compose.
    unfold live. by apply NoDup_fmap_filter. }
  assert (Hrun : updateClusterInfo (Ok items) classifier
                 = (SetClusterInfo classifier (old ++ (newEntry <$> fresh)), None)).
  { unfold updateClusterInfo. rewrite getListOfClusters_filter.
    fold old. fold m. rewrite newClusterInfo_filter. done. }
  split; [done|]. rewrite Hrun. cbn [fst].
  split; [done|]. split; [|split; [done|]].
  { intros i e Hi. change (statusClusterInfo (SetClusterInfo classifier
                                               (old ++ (newEntry <$> fresh))))
      with (old ++ (newEntry <$> fresh)).
    by apply lookup_app_l_Some. }
  split; [done | split; [done|]].
  - intros Hndold. rewrite fmap_app. apply NoDup_app.
    split; [done | split; [|done]].
    intros k Hk (e & -> & He)%list_elem_of_fmap.
    apply Hmem in He as (cl & _ & _ & Hnew & ->).
    apply Hnew. done.
Qed.

(** ** updateMaps *)

Lemma currentClusters_elem (info : list ClusterInfo.t) (C : PolicyRef.t) :
  C ∈ foldl (fun s ci => Insert s (clusterPolicyRef (ClusterInfo.Cluster ci))) ∅ info
  ↔ exists e, e ∈ info ∧ C = clusterPolicyRef (ClusterInfo.Cluster e).
Proof.
  enough (Hgen : forall s,
    C ∈ foldl (fun s ci => Insert s (clusterPolicyRef (ClusterInfo.Cluster ci))) s info
    ↔ C ∈ s ∨ exists e, e ∈ info ∧ C = clusterPolicyRef (ClusterInfo.Cluster e)).
  { rewrite Hgen. set_solver. }
  induction info as [|e info IH]; intros s; cbn [foldl].
  - split; [by left|]. intros [H|(e & He & _)]; [done|]. by apply elem_of_nil in He.
  - rewrite IH. unfold Insert. split.
    + intros [[H| H]%elem_of_union | (e' & He' & ->)].
      * apply elem_of_singleton in H as ->. right. exists e. split; [left|done].
      * by left.
      * right. exists e'. split; [by right | done].
    + intros [H | (e' & He' & ->)].
      * left. set_solver.
      * apply elem_of_cons in He' as [->|He']; [left; set_solver|].
        right. eauto.
Qed.

Lemma modifyClusterMapEntry_classifierMap op r entry x :
  ClassifierReconciler.ClassifierMap (modifyClusterMapEntry op r entry x)
  = ClassifierReconciler.ClassifierMap r.
Proof.
  unfold modifyClusterMapEntry, getClusterMapForEntry.
  by destruct (ClassifierReconciler.ClusterMap r !! entry).
Qed.

Lemma modifyClusterMapEntry_classifiersOf op r entry x C :
  classifiersOf (modifyClusterMapEntry op r entry x) C
  = if decide (entry = C) then op (classifiersOf r entry) x else classifiersOf r C.
Proof.
  unfold classifiersOf, modifyClusterMapEntry, getClusterMapForEntry.
  destruct (ClassifierReconciler.ClusterMap r !! entry) as [s|] eqn:Hs;
    cbn [ClassifierReconciler.withClusterMap ClassifierReconciler.ClusterMap];
    destruct (decide (entry = C)) as [->|Hne];
    rewrite ?lookup_insert_eq, ?lookup_insert_ne by done; try done.
  all: by rewrite ?Hs.
Qed.

Lemma insertConsumers_classifierMap (x : PolicyRef.t) (info : list ClusterInfo.t) r :
  ClassifierReconciler.ClassifierMap
    (foldl (fun r ci =>
              modifyClusterMapEntry Insert r
                (clusterPolicyRef (ClusterInfo.Cluster ci)) x) r info)
  = ClassifierReconciler.ClassifierMap r.
Proof.
  revert r. induction info as [|e info IH]; intros r; cbn [foldl]; [done|].
  by rewrite IH, modifyClusterMapEntry_classifierMap.
Qed.

Lemma eraseConsumers_classifierMap (x : PolicyRef.t) (l : list PolicyRef.t) r :
  ClassifierReconciler.ClassifierMap
    (foldl (fun r clusterName => modifyClusterMapEntry Erase r clusterName x) r l)
  = ClassifierReconciler.ClassifierMap r.
Proof.
  revert r. induction l as [|e l IH]; intros r; cbn [foldl]; [done|].
  by rewrite IH, modifyClusterMapEntry_classifierMap.
Qed.

Lemma insertConsumers_classifiersOf (x : PolicyRef.t) (info : list ClusterInfo.t) r P C :
  P ∈ classifiersOf
        (foldl (fun r ci =>
                  modifyClusterMapEntry Insert r
                    (clusterPolicyRef (ClusterInfo.Cluster ci)) x) r info) C
  ↔ P ∈ classifiersOf r C ∨
    (P = x ∧ exists e, e ∈ info ∧ C = clusterPolicyRef (ClusterInfo.Cluster e)).
Proof.
  revert r. induction info as [|e info IH]; intros r; cbn [foldl].
  - split; [by left|]. intros [H|(_ & e & He & _)]; [done|].
    by apply elem_of_nil in He.
  - rewrite IH, modifyClusterMapEntry_classifiersOf. unfold Insert.
    destruct (decide (clusterPolicyRef (ClusterInfo.Cluster e) = C)) as [<-|Hne].
    + rewrite elem_of_union, elem_of_singleton. split.
      * intros [[->|H] | (-> & e' & He' & Heq)]; [right|by left|right].
        -- split; [done|]. exists e. split; [left|done].
        -- split; [done|]. exists e'. split; [by right|done].
      * intros [H | (-> & _)]; left; [by right | by left].
    + split.
      * intros [H | (-> & e' & He' & ->)]; [by left|].
        right. split; [done|]. exists e'. split; [by right|done].
      * intros [H | (-> & e' & He' & ->)]; [by left|].
        apply elem_of_cons in He' as [->|He']; [done|].
        right. eauto.
Qed.

Lemma eraseConsumers_classifiersOf (x : PolicyRef.t) (l : list PolicyRef.t) r P C :
  P ∈ classifiersOf
        (foldl (fun r clusterName => modifyClusterMapEntry Erase r clusterName x) r l) C
  ↔ P ∈ classifiersOf r C ∧ ¬ (P = x ∧ C ∈ l).
Proof.
  revert r. induction l as [|e l IH]; intros r; cbn [foldl].
  - split; [|by intros [H _]]. intros H. split; [done|].
    intros [_ Hin]. by apply elem_of_nil in Hin.
  - rewrite IH, modifyClusterMapEntry_classifiersOf, elem_of_cons. unfold Erase.
    destruct (decide (e = C)) as [->|Hne].
    + rewrite elem_of_difference, elem_of_singleton. naive_solver.
    + naive_solver.
Qed.

(** The erasures of [toBeRemoved] commute: the order in which
    [Difference] lists the stale clusters does not matter. *)
Lemma eraseConsumers_order (x : PolicyRef.t) (l1 l2 : list PolicyRef.t) r P C :
  l1 ≡ₚ l2 ->
  P ∈ classifiersOf
        (foldl (fun r clusterName => modifyClusterMapEntry Erase r clusterName x) r l1) C
  ↔ P ∈ classifiersOf
        (foldl (fun r clusterName => modifyClusterMapEntry Erase r clusterName x) r l2) C.
Proof.
  intros Hp. rewrite !eraseConsumers_classifiersOf.
  by setoid_rewrite Hp.
Qed.

Lemma updateMaps_clustersOf r classifier P :
  clustersOf (updateMaps r classifier) P
  = if decide (classifierPolicyRef (Classifier.Name classifier) = P)
    then foldl (fun s ci => Insert s (clusterPolicyRef (ClusterInfo.Cluster ci)))
           ∅ (statusClusterInfo classifier)
    else clustersOf r P.
Proof.
  unfold clustersOf, updateMaps.
  cbn [ClassifierReconciler.withClassifierMap ClassifierReconciler.ClassifierMap].
  rewrite eraseConsumers_classifierMap, insertConsumers_classifierMap.
  destruct (decide (classifierPolicyRef (Classifier.Name classifier) = P)) as [->|Hne].
  - by rewrite lookup_insert_eq.
  - by rewrite lookup_insert_ne.
Qed.

Lemma updateMaps_preserves_mirror r classifier :
  mirror r -> mirror (updateMaps r classifier).
Proof.
  intros Hm P C. rewrite updateMaps_clustersOf.
  unfold updateMaps.
  set (x := classifierPolicyRef (Classifier.Name classifier)).
  set (current := foldl (fun s ci => Insert s (clusterPolicyRef (ClusterInfo.Cluster ci)))
                    ∅ (statusClusterInfo classifier)).
  assert (Hcl : forall r' m C',
    classifiersOf (ClassifierReconciler.withClassifierMap r' m) C' = classifiersOf r' C')
    by done.
  rewrite Hcl, eraseConsumers_classifiersOf, insertConsumers_classifiersOf.
  rewrite <- currentClusters_elem. fold current.
  assert (Hrem : C ∈ match ClassifierReconciler.ClassifierMap r !! x with
                     | Some v => Difference v current
                     | None => []
                     end ↔ C ∈ clustersOf r x ∧ C ∉ current).
  { unfold clustersOf, Difference.
    destruct (ClassifierReconciler.ClassifierMap r !! x) as [v|]; simpl.
    - rewrite elem_of_elements. set_solver.
    - split; [by intros H%elem_of_nil | set_solver]. }
  rewrite Hrem. pose proof (Hm P C) as HPC.
  destruct (decide (x = P)) as [<-|Hne].
  - split.
    + intros [[H|[_ H]] Hn]; [|done].
      destruct (decide (C ∈ current)); [done|].
      exfalso. apply Hn. split; [done|]. split; [by apply HPC | done].
    + intros H. split; [by right|]. by intros (_ & _ & Hn).
  - split.
    + intros [[H|[-> _]] _]; [by apply HPC | done].
    + intros H. split; [left; by apply HPC|]. by intros [-> _].
Qed.

(** The entry of a Classifier after a sequence of updateMaps executions:
    the clusters of the status handed to the most recent execution for
    that Classifier, and what was there before when there was none. *)
Lemma updateMaps_history_clustersOf r (history : list Classifier.t) (name : string) :
  clustersOf (foldl updateMaps r history) (classifierPolicyRef name)
  = match last (filter (fun c => Classifier.Name c = name) history) with
    | Some c =>
        foldl (fun s ci => Insert s (clusterPolicyRef (ClusterInfo.Cluster ci)))
          ∅ (statusClusterInfo c)
    | None => clustersOf r (classifierPolicyRef name)
    end.
Proof.
  revert r. induction history as [|c history IH]; intros r; cbn [foldl]; [done|].
  rewrite IH, filter_cons, updateMaps_clustersOf.
  destruct (decide (Classifier.Name c = name)) as [Hname|Hname].
  - rewrite last_cons.
    destruct (last (filter (fun c => Classifier.Name c = name) history)); [done|].
    by rewrite decide_True by (by rewrite Hname).
  - destruct (last (filter (fun c => Classifier.Name c = name) history)); [done|].
    rewrite decide_False; [done|]. unfold classifierPolicyRef. by intros [= ?].
Qed.

Lemma mirror_history (mode : ReportMode) (endpoint : string)
  (history : list Classifier.t) :
  mirror (foldl updateMaps (ClassifierReconciler.new mode endpoint) history).
Proof.
  assert (Hinit : mirror (ClassifierReconciler.new mode endpoint)).
  { intros P C. unfold classifiersOf, clustersOf; simpl.
    rewrite !lookup_empty. simpl. set_solver. }
  revert Hinit. generalize (ClassifierReconciler.new mode endpoint) as r.
  induction history as [|c history IH]; intros r Hr; cbn [foldl]; [done|].
  apply IH. by apply updateMaps_preserves_mirror.
Qed.

(** A cluster is in the set updateMaps builds exactly when its namespace
    and name are those of an entry of the status. *)
Lemma currentClusters_by_key (info : list ClusterInfo.t) (c : ObjectReference.t) :
  clusterPolicyRef c
    ∈ foldl (fun s ci => Insert s (clusterPolicyRef (ClusterInfo.Cluster ci))) ∅ info
  ↔ refKey c ∈ entryKey <$> info.
Proof.
  rewrite currentClusters_elem, list_elem_of_fmap. unfold entryKey, refKey.
  split; intros (e & H1 & H2); exists e.
  - split; [|done]. unfold clusterPolicyRef in H2. by injection H2 as -> ->.
  - split; [done|]. unfold clusterPolicyRef. by injection H1 as -> ->.
Qed.

(** ** Label registrations *)

Section RegistrationProperties.
Context {K : Type} `{KeyManager K}.
Variable rangeOrder : RangeSite -> gset ObjectReference.t -> list ObjectReference.t.

Lemma register_loop (classifier : Classifier.t) (l : list ObjectReference.t)
    (w : Registry.t K) :
    let w' := foldl (fun w c =>
                let w := callRemoveStaleRegistrations w classifier
                           (ObjectReference.Namespace c) (ObjectReference.Name c) in
                callRegisterClassifierForLabels w classifier
                  (ObjectReference.Namespace c) (ObjectReference.Name c)) w l in
    Registry.instanceError w' = Registry.instanceError w ∧
    Registry.calls w' = Registry.calls w ++ (l ≫= registerCalls classifier).
Proof.
    revert w. induction l as [|c l IH]; intros w; cbn [foldl]; cbn zeta.
    - split; [done|]. by rewrite app_nil_r.
    - destruct (IH (callRegisterClassifierForLabels
                      (callRemoveStaleRegistrations w classifier
                         (ObjectReference.Namespace c) (ObjectReference.Name c))
                      classifier (ObjectReference.Namespace c) (ObjectReference.Name c)))
        as [IH1 IH2].
      cbn zeta in IH1, IH2. rewrite IH1, IH2. split; [done|].
      simpl. by rewrite <- !app_assoc.
Qed.

Lemma unregister_loop (classifier : Classifier.t) (current : gset ObjectReference.t)
    (l : list ObjectReference.t) (w : Registry.t K) :
    let w' := foldl (fun w c =>
                if decide (c ∈ current) then w
                else callRemoveAllRegistrations w classifier
                       (ObjectReference.Namespace c) (ObjectReference.Name c)) w l in
    Registry.instanceError w' = Registry.instanceError w ∧
    Registry.calls w' =
      Registry.calls w ++
      (unregisterCall classifier <$> filter (fun c => c ∉ current) l).
Proof.
    revert w. induction l as [|c l IH]; intros w; cbn [foldl]; cbn zeta.
    - split; [done|]. by rewrite app_nil_r.
    - destruct (decide (c ∈ current)) as [Hin|Hnin].
      + rewrite filter_cons_False by (intros Hc; by apply Hc). apply IH.
      + rewrite filter_cons_True by done.
        destruct (IH (callRemoveAllRegistrations w classifier
                        (ObjectReference.Namespace c) (ObjectReference.Name c)))
          as [IH1 IH2].
        cbn zeta in IH1, IH2. rewrite IH1, IH2. split; [done|].
        simpl. by rewrite <- !app_assoc.
Qed.

Lemma handleLabelRegistrations_calls (w : Registry.t K) (classifier : Classifier.t)
    (current old : gset ObjectReference.t) :
    Registry.instanceError w = None ->
    exists w',
      handleLabelRegistrations rangeOrder w classifier current old = (w', None) ∧
      Registry.instanceError w' = None ∧
      Registry.calls w' =
        Registry.calls w ++
        (rangeOrder RangeRegister current ≫= registerCalls classifier) ++
        (unregisterCall classifier <$>
           filter (fun c => c ∉ current) (rangeOrder RangeUnregister old)).
Proof.
    intros Hw. unfold handleLabelRegistrations, GetKeyManagerInstance. rewrite Hw.
    eexists. split; [done|].
    match goal with
    | |- context [foldl ?f (foldl ?g w ?l1) ?l2] =>
        pose proof (unregister_loop classifier current l2 (foldl g w l1)) as [U1 U2];
        pose proof (register_loop classifier l1 w) as [R1 R2]
    end.
    cbn zeta in U1, U2, R1, R2.
    rewrite U1, U2, R1, R2, Hw. split; [done|]. by rewrite <- app_assoc.
Qed.

Lemma classifyClusters_registry (w : Registry.t K) classifier clusters i n statuses :
    Registry.instanceError w = None ->
    exists res, classifyClusters w classifier clusters i n statuses = Ok res.
Proof.
    intros Hw. revert n statuses.
    induction clusters as [|c clusters IH]; intros n statuses; cbn [classifyClusters].
    - eauto.
    - unfold classifyLabels, GetKeyManagerInstance. rewrite Hw.
      destruct (foldl _ _ _) as [m u]. apply IH.
Qed.

Lemma currentMatching_elem (items : list ClassifierReport.t) (c : ObjectReference.t) :
    c ∈ currentMatching items ↔
    exists report, report ∈ items ∧
      ClassifierReportSpec.Match (ClassifierReport.Spec report) = true ∧
      c = ObjectReference.mk ""
            (ClassifierReportSpec.ClusterNamespace (ClassifierReport.Spec report))
            (ClassifierReportSpec.ClusterName (ClassifierReport.Spec report)) "".
Proof.
    unfold currentMatching.
    enough (Hgen : forall m : gset ObjectReference.t,
      c ∈ foldl (fun (m : gset ObjectReference.t) report =>
             if ClassifierReportSpec.Match (ClassifierReport.Spec report)
             then {[ObjectReference.mk ""
                      (ClassifierReportSpec.ClusterNamespace (ClassifierReport.Spec report))
                      (ClassifierReportSpec.ClusterName (ClassifierReport.Spec report))
                      ""]} ∪ m
             else m) m items
      ↔ c ∈ m ∨ exists report, report ∈ items ∧
          ClassifierReportSpec.Match (ClassifierReport.Spec report) = true ∧
          c = ObjectReference.mk ""
                (ClassifierReportSpec.ClusterNamespace (ClassifierReport.Spec report))
                (ClassifierReportSpec.ClusterName (ClassifierReport.Spec report)) "").
    { rewrite Hgen. set_solver. }
    induction items as [|rep items IH]; intros m; cbn [foldl].
    - split; [by left|]. intros [Hm|(rep & Hrep & _)]; [done|].
      by apply elem_of_nil in Hrep.
    - rewrite IH. split.
      + intros [Hm | (rep' & Hin & Hmatch & ->)].
        * destruct (ClassifierReportSpec.Match (ClassifierReport.Spec rep)) eqn:Hmatch.
          -- apply elem_of_union in Hm as [Hm%elem_of_singleton|Hm]; [|by left].
             right. exists rep. split; [left | done].
          -- by left.
        * right. exists rep'. split; [by right | done].
      + intros [Hm | (rep' & Hin & Hmatch & ->)].
        * left. destruct (ClassifierReportSpec.Match _); set_solver.
        * apply elem_of_cons in Hin as [->|Hin].
          -- left. rewrite Hmatch. set_solver.
          -- right. eauto.
Qed.



(** *** The status loop writes one slot only *)

Lemma classifyClusters_only_first (w : Registry.t K) (classifier : Classifier.t)
  (clusters : list ObjectReference.t) (u u' : nat)
  (st st' : list MachingClusterStatus.t) :
  classifyClusters w classifier clusters 0 u st = Ok (u', st') ->
  length st' = length st ∧ forall j, j ≠ 0 -> st' !! j = st !! j.
Proof.
  revert u st. induction clusters as [|c clusters IH]; intros u st; cbn [classifyClusters].
  - by intros [= -> ->].
  - destruct (classifyLabels w classifier c) as [[m um]|e]; [|done].
    intros Hrec. apply IH in Hrec as [Hlen Hother].
    rewrite length_insert in Hlen. split; [done|].
    intros j Hj. rewrite (Hother j Hj). by apply list_lookup_insert_ne.
Qed.

(** Whatever the iteration order, when the pass succeeds the status list
    has one slot per matching cluster and every slot but the first is
    still the zero value it was created with. *)
Lemma matching_statuses_only_first_filled
  (r r' : ClassifierReconciler.t) (w w' : Registry.t K)
  (classifier classifier' : Classifier.t) (items : list ClassifierReport.t) :
  updateMatchingClustersAndRegistrations rangeOrder r w classifier (Ok items)
    = (r', w', classifier', None) ->
  length (statusMachingClusterStatuses classifier') = size (currentMatching items) ∧
  forall j, 0 < j -> j < size (currentMatching items) ->
    statusMachingClusterStatuses classifier' !! j = Some MachingClusterStatus.zero.
Proof.
  unfold updateMatchingClustersAndRegistrations.
  destruct (handleLabelRegistrations rangeOrder w classifier _ _) as [w1 [e|]]; [done|].
  destruct (classifyClusters w1 classifier _ 0 0 _) as [[u st]|e] eqn:Hloop; [|done].
  intros [= <- <- <-].
  apply classifyClusters_only_first in Hloop as [Hlen Hother].
  rewrite length_replicate in Hlen.
  unfold statusMachingClusterStatuses, SetMachingClusterStatuses.
  cbn [Classifier.Status ClassifierStatus.MachingClusterStatuses].
  split; [done|]. intros j Hj Hlt. rewrite Hother by lia.
  by apply lookup_replicate_2.
Qed.
End RegistrationProperties.

(** ** Report collection *)

Section ReportCollectionProperties.
Context {C : Type} `{ReportClient C}.

(** C10: a pulled ClassifierReport whose label map is nil, or lacks the
    classifier-name label, makes updateClassifierReport return an error
    and leaves the management cluster untouched: no Get, Create or Update
    is issued. *)
Theorem updateClassifierReport_malformed
  (m : Management.t C) (cluster : Cluster.t) (report : ClassifierReport.t) :
  ClassifierReport.Labels report = None ∨
  (exists labels, ClassifierReport.Labels report = Some labels ∧
                  labels !! ClassifierLabelName = None) ->
  exists e, updateClassifierReport m cluster report = (Some e, m).
Proof.
  unfold updateClassifierReport.
  intros [-> | (labels & -> & ->)]; eauto.
Qed.
End ReportCollectionProperties.

(** ** The per-cluster deployment state machine *)

Section DeploymentProperties.
Context {D : Type} `{DeployerInterface D}.
Variable env : Environment.t.

Lemma noDispatch_refl (calls : list DeployerCall) : noDispatch calls calls.
Proof. exists []. split; [by rewrite app_nil_r | constructor]. Qed.

(** C2 (as amended): once the pause and readiness gate is passed, an
    undeploy in progress makes processClassifier return the "cleanup
    ... still in progress" error, and a deploy in progress makes
    removeClassifier return the "deploy ... still in progress" error; in
    both cases, gate passed or not, nothing is dispatched. *)
Theorem in_flight_request_refused
  (r : ClassifierReconciler.t) (classifier : Classifier.t) (cpEndpoint : string)
  (cluster : ObjectReference.t) (f : feature.t) (q : Queue.t D) :
  (IsInProgress (Queue.deployer q)
     (ObjectReference.Namespace cluster) (ObjectReference.Name cluster)
     (Classifier.Name classifier) (feature.id f)
     (Environment.getClusterType env cluster) true = true ->
   noDispatch (Queue.calls q)
     (Queue.calls (processClassifier env r classifier cpEndpoint cluster f q).2) ∧
   (forall h,
      getCurrentHash env r classifier cpEndpoint cluster f = Ok h ->
      canProceed env classifier cluster = Ok true ->
      processClassifier env r classifier cpEndpoint cluster f q
      = (None,
         Some (errorsNew ("cleanup of " +:+ feature.id f +:+
                 " in cluster still in progress. Wait before redeploying")),
         Queue.mk (Queue.deployer q)
           (Queue.calls q ++
              [CallIsInProgress
                 (ObjectReference.Namespace cluster) (ObjectReference.Name cluster)
                 (Classifier.Name classifier) (feature.id f)
                 (Environment.getClusterType env cluster) true true])))) ∧
  (IsInProgress (Queue.deployer q)
     (ObjectReference.Namespace cluster) (ObjectReference.Name cluster)
     (Classifier.Name classifier) (feature.id f)
     (Environment.getClusterType env cluster) false = true ->
   noDispatch (Queue.calls q)
     (Queue.calls (removeClassifier env classifier cluster f q).2) ∧
   (isPaused env cluster classifier = Ok false ->
    removeClassifier env classifier cluster f q
    = (Some (errorsNew ("deploy of " +:+ feature.id f +:+
               " in cluster still in progress. Wait before redeploying")),
       Queue.mk (Queue.deployer q)
         (Queue.calls q ++
            [CallIsInProgress
               (ObjectReference.Namespace cluster) (ObjectReference.Name cluster)
               (Classifier.Name classifier) (feature.id f)
               (Environment.getClusterType env cluster) false true])))).
Proof.
  split; intros Hin.
  - assert (Hgate : forall h,
      getCurrentHash env r classifier cpEndpoint cluster f = Ok h ->
      canProceed env classifier cluster = Ok true ->
      processClassifier env r classifier cpEndpoint cluster f q
      = (None,
         Some (errorsNew ("cleanup of " +:+ feature.id f +:+
                 " in cluster still in progress. Wait before redeploying")),
         Queue.mk (Queue.deployer q)
           (Queue.calls q ++
              [CallIsInProgress
                 (ObjectReference.Namespace cluster) (ObjectReference.Name cluster)
                 (Classifier.Name classifier) (feature.id f)
                 (Environment.getClusterType env cluster) true true]))).
    { intros h Hh Hp. unfold processClassifier. rewrite Hh, Hp.
      unfold callIsInProgress. by rewrite Hin. }
    split; [|done].
    destruct (getCurrentHash env r classifier cpEndpoint cluster f) as [h|e] eqn:Hh.
    + destruct (canProceed env classifier cluster) as [[|]|e] eqn:Hp.
      * rewrite (Hgate h) by done. simpl. eexists. split; [done|].
        by repeat constructor.
      * unfold processClassifier. rewrite Hh, Hp. apply noDispatch_refl.
      * unfold processClassifier. rewrite Hh, Hp. apply noDispatch_refl.
    + unfold processClassifier. rewrite Hh. apply noDispatch_refl.
  - assert (Hgate : isPaused env cluster classifier = Ok false ->
      removeClassifier env classifier cluster f q
      = (Some (errorsNew ("deploy of " +:+ feature.id f +:+
                 " in cluster still in progress. Wait before redeploying")),
         Queue.mk (Queue.deployer q)
           (Queue.calls q ++
              [CallIsInProgress
                 (ObjectReference.Namespace cluster) (ObjectReference.Name cluster)
                 (Classifier.Name classifier) (feature.id f)
                 (Environment.getClusterType env cluster) false true]))).
    { intros Hp. unfold removeClassifier. rewrite Hp.
      unfold callIsInProgress. by rewrite Hin. }
    split; [|done].
    destruct (isPaused env cluster classifier) as [[|]|e] eqn:Hp.
    + unfold removeClassifier. rewrite Hp. apply noDispatch_refl.
    + rewrite Hgate by done. simpl. eexists. split; [done|].
      by repeat constructor.
    + unfold removeClassifier. rewrite Hp. apply noDispatch_refl.
Qed.

(** C3 (as amended): when the gate is passed, no undeploy is in
    progress and the stored hash equals the current one, processClassifier
    asks the queue for the result and dispatches nothing if there is one:
    Deployed becomes Provisioned, Failed becomes Failed, InProgress becomes
    Provisioning (returned with a "still being provisioned" error). With
    no result and a recorded status Provisioned, nothing is dispatched
    either and the status stays Provisioned. *)
Theorem unchanged_hash_not_redeployed
  (r : ClassifierReconciler.t) (classifier : Classifier.t) (cpEndpoint : string)
  (cluster : ObjectReference.t) (f : feature.t) (q : Queue.t D)
  (h : bytes) (result : Result.t) (d' : D) :
  getCurrentHash env r classifier cpEndpoint cluster f = Ok h ->
  canProceed env classifier cluster = Ok true ->
  IsInProgress (Queue.deployer q)
    (ObjectReference.Namespace cluster) (ObjectReference.Name cluster)
    (Classifier.Name classifier) (feature.id f)
    (Environment.getClusterType env cluster) true = false ->
  (getClassifierInClusterHashAndStatus classifier cluster).1 = h ->
  GetResult (Queue.deployer q)
    (ObjectReference.Namespace cluster) (ObjectReference.Name cluster)
    (Classifier.Name classifier) (feature.id f)
    (Environment.getClusterType env cluster) false = (result, d') ->
  Result.Status result ≠ Unavailable ∨
  (getClassifierInClusterHashAndStatus classifier cluster).2
    = Some ClassifierStatusProvisioned ->
  exists info err,
    processClassifier env r classifier cpEndpoint cluster f q
    = (Some info, err,
       Queue.mk d'
         (Queue.calls q ++
            [CallIsInProgress
               (ObjectReference.Namespace cluster) (ObjectReference.Name cluster)
               (Classifier.Name classifier) (feature.id f)
               (Environment.getClusterType env cluster) true false;
             CallGetResult
               (ObjectReference.Namespace cluster) (ObjectReference.Name cluster)
               (Classifier.Name classifier) (feature.id f)
               (Environment.getClusterType env cluster) false result])) ∧
    ClusterInfo.Cluster info = cluster ∧
    ClusterInfo.Hash info = h ∧
    match Result.Status result with
    | Deployed => ClusterInfo.Status info = ClassifierStatusProvisioned ∧ err = None
    | Failed => ClusterInfo.Status info = ClassifierStatusFailed ∧ err = None
    | InProgress =>
        ClusterInfo.Status info = ClassifierStatusProvisioning ∧
        err = Some (errorsNew "classifier is still being provisioned")
    | Removed => ClusterInfo.Status info = ClassifierStatusRemoved ∧ err = None
    | Unavailable => ClusterInfo.Status info = ClassifierStatusProvisioned ∧ err = None
    end.
Proof.
  intros Hh Hp Hin Hstored Hres Hcase.
  unfold processClassifier. rewrite Hh, Hp.
  unfold callIsInProgress. rewrite Hin.
  destruct (getClassifierInClusterHashAndStatus classifier cluster)
    as [hash currentStatus] eqn:Hhs.
  simpl in Hstored, Hcase. subst hash.
  unfold DeepEqual. rewrite bool_decide_eq_true_2 by done.
  unfold callGetResult. cbn [Queue.deployer Queue.calls]. rewrite Hres.
  rewrite <- app_assoc. cbn [app].
  destruct result as [st e]. cbn [Result.Status] in *.
  unfold convertResultStatus. cbn [Result.Status Result.Err].
  destruct st; cbn [andb]; try (eexists _, _; split; [reflexivity|done]).
  destruct Hcase as [Hc|Hc]; [done|]. subst currentStatus.
  rewrite bool_decide_eq_true_2 by done.
  eexists _, _; split; [reflexivity|done].
Qed.

(** The stored hash of a pair without a recorded deployment is nil: the
    status has no entry for the cluster, or its entries carry no hash. *)
Lemma hashAndStatus_unrecorded (info : list ClusterInfo.t) (cluster : ObjectReference.t) :
  (forall e, e ∈ info -> ClusterInfo.Cluster e = cluster -> ClusterInfo.Hash e = None) ->
  (hashAndStatus info cluster).1 = None.
Proof.
  induction info as [|e info IH]; intros Hnone; cbn [hashAndStatus]; [done|].
  case_bool_decide as Hmatch.
  - cbn [fst]. apply Hnone; [by left|].
    destruct (ClusterInfo.Cluster e), cluster; simpl in *.
    destruct Hmatch as (-> & -> & -> & ->). done.
  - apply IH. intros e' He'. apply Hnone. by right.
Qed.

(** A hash function that never returns nil, such as [classifierHash],
    makes the current hash a non-nil slice. *)
Lemma getCurrentHash_not_nil
  (r : ClassifierReconciler.t) (classifier : Classifier.t) (cpEndpoint : string)
  (cluster : ObjectReference.t) (f : feature.t) (h : bytes) :
  is_Some (feature.currentHash f classifier) ->
  getCurrentHash env r classifier cpEndpoint cluster f = Ok h -> is_Some h.
Proof.
  intros Hsome. unfold getCurrentHash.
  destruct (decide _); [|by intros [= <-]].
  destruct (Environment.getKubeconfigFromAccessRequest env _ _ _) as [[k|]|err].
  - by intros [= <-].
  - by intros [= <-].
  - destruct (IsNotFound err); [by intros [= <-] | done].
Qed.

(** C4 (as amended): when the gate is passed, no undeploy is in
    progress, and either the stored hash differs from the current one, or
    no deployment of the pair is recorded (the status has no entry for
    the cluster, or its entries carry no hash, like the empty entry
    updateClusterInfo adds) and the hash of the feature is classifierHash,
    which is never nil, or the hashes agree but the queue has no result
    and the recorded status is not Provisioned (the previous attempt
    failed and its result was already consumed), processClassifier
    dispatches exactly one deploy request; when the dispatch is accepted
    it returns a ClusterInfo with status Provisioning carrying the current
    hash, and when it is rejected it returns the queue's error. *)
Theorem changed_or_failed_redeployed
  (AsCode : list ClassifierLabel.t -> string)
  (r : ClassifierReconciler.t) (classifier : Classifier.t) (cpEndpoint : string)
  (cluster : ObjectReference.t) (f : feature.t) (q : Queue.t D) (h : bytes) :
  getCurrentHash env r classifier cpEndpoint cluster f = Ok h ->
  canProceed env classifier cluster = Ok true ->
  IsInProgress (Queue.deployer q)
    (ObjectReference.Namespace cluster) (ObjectReference.Name cluster)
    (Classifier.Name classifier) (feature.id f)
    (Environment.getClusterType env cluster) true = false ->
  (getClassifierInClusterHashAndStatus classifier cluster).1 ≠ h ∨
  ((forall e, e ∈ statusClusterInfo classifier ->
      ClusterInfo.Cluster e = cluster -> ClusterInfo.Hash e = None) ∧
   feature.currentHash f classifier = classifierHash env AsCode classifier) ∨
  (Result.Status
     (GetResult (Queue.deployer q)
        (ObjectReference.Namespace cluster) (ObjectReference.Name cluster)
        (Classifier.Name classifier) (feature.id f)
        (Environment.getClusterType env cluster) false).1 = Unavailable ∧
   (getClassifierInClusterHashAndStatus classifier cluster).2
     ≠ Some ClassifierStatusProvisioned) ->
  exists before handler options answer d',
    let out := processClassifier env r classifier cpEndpoint cluster f q in
    out.2 = Queue.mk d'
              (Queue.calls q ++ before ++
                 [CallDeploy
                    (ObjectReference.Namespace cluster) (ObjectReference.Name cluster)
                    (Classifier.Name classifier) (feature.id f)
                    (Environment.getClusterType env cluster) false
                    handler options answer]) ∧
    Forall (fun c => isDispatch c = false) before ∧
    handler = (if decide (ClassifierReconciler.ClassifierReportMode r
                          = AgentSendReportsNoGateway)
               then deployClassifierWithKubeconfigInCluster
               else deployClassifierInCluster) ∧
    match answer with
    | None =>
        out.1 = (Some (ClusterInfo.mk cluster h ClassifierStatusProvisioning None),
                 None)
    | Some e => out.1 = (None, Some e)
    end.
Proof.
  intros Hh Hp Hin Hcase.
  assert (Hcase' :
    (getClassifierInClusterHashAndStatus classifier cluster).1 ≠ h ∨
    (Result.Status
       (GetResult (Queue.deployer q)
          (ObjectReference.Namespace cluster) (ObjectReference.Name cluster)
          (Classifier.Name classifier) (feature.id f)
          (Environment.getClusterType env cluster) false).1 = Unavailable ∧
     (getClassifierInClusterHashAndStatus classifier cluster).2
       ≠ Some ClassifierStatusProvisioned)).
  { destruct Hcase as [Hc|[[Hnone Hf]|Hc]]; [by left| |by right].
    left. unfold getClassifierInClusterHashAndStatus.
    rewrite (hashAndStatus_unrecorded _ _ Hnone). intros <-.
    assert (Hsome : is_Some (feature.currentHash f classifier))
      by (rewrite Hf; unfold classifierHash; eauto).
    by destruct (getCurrentHash_not_nil r classifier cpEndpoint cluster f None
                   Hsome Hh). }
  clear Hcase. rename Hcase' into Hcase.
  unfold processClassifier. rewrite Hh, Hp.
  unfold callIsInProgress. rewrite Hin.
  destruct (getClassifierInClusterHashAndStatus classifier cluster)
    as [hash currentStatus] eqn:Hhs.
  simpl in Hcase. unfold DeepEqual.
  destruct (decide (hash = h)) as [->|Hne].
  - destruct Hcase as [Hc|[Hun Hst]]; [done|].
    rewrite bool_decide_eq_true_2 by done.
    unfold callGetResult. cbn [Queue.deployer Queue.calls].
    destruct (GetResult _ _ _ _ _ _ _) as [result d1] eqn:Hres.
    simpl in Hun. unfold convertResultStatus. rewrite Hun.
    rewrite bool_decide_eq_false_2 by done. cbn [andb].
    destruct (decide (ClassifierReconciler.ClassifierReportMode r
                      = AgentSendReportsNoGateway)) as [Hm|Hm];
      unfold callDeploy; cbn [Queue.deployer Queue.calls];
      destruct (Deploy _ _ _ _ _ _ _ _ _ _) as [answer d2] eqn:Hdep;
      eexists [_; _], _, _, answer, d2; cbn zeta;
      (destruct answer; cbn [fst snd];
       rewrite <- !app_assoc; cbn [app];
       (split; [reflexivity|]); (split; [by repeat constructor|]); done).
  - rewrite bool_decide_eq_false_2 by done. cbn [andb].
    destruct (decide (ClassifierReconciler.ClassifierReportMode r
                      = AgentSendReportsNoGateway)) as [Hm|Hm];
      unfold callDeploy; cbn [Queue.deployer Queue.calls];
      destruct (Deploy _ _ _ _ _ _ _ _ _ _) as [answer d2] eqn:Hdep;
      eexists [_], _, _, answer, d2; cbn zeta;
      (destruct answer; cbn [fst snd];
       rewrite <- !app_assoc; cbn [app];
       (split; [reflexivity|]); (split; [by repeat constructor|]); done).
Qed.

(** *** Frame of processClassifier and deployClassifier *)

Lemma canProceed_false (classifier : Classifier.t) (cluster : ObjectReference.t) :
  canProceed env classifier cluster = Ok false ↔
  isPaused env cluster classifier = Ok true ∨
  (isPaused env cluster classifier = Ok false ∧
   Environment.IsClusterReadyToBeConfigured env cluster = Ok false).
Proof.
  unfold canProceed.
  destruct (isPaused env cluster classifier) as [[|]|e];
    destruct (Environment.IsClusterReadyToBeConfigured env cluster) as [[|]|e'];
    naive_solver.
Qed.

Lemma isPaused_true (classifier : Classifier.t) (cluster : ObjectReference.t) :
  isPaused env cluster classifier = Ok true ↔
  Environment.isClusterPaused env
    (ObjectReference.Namespace cluster) (ObjectReference.Name cluster)
    (Environment.getClusterType env cluster) = Ok true ∨
  (Environment.isClusterPaused env
     (ObjectReference.Namespace cluster) (ObjectReference.Name cluster)
     (Environment.getClusterType env cluster) = Ok false ∧
   HasPaused classifier = true).
Proof.
  unfold isPaused.
  destruct (Environment.isClusterPaused env _ _ _) as [[|]|e].
  - naive_solver.
  - destruct (HasPaused classifier); naive_solver.
  - destruct (IsNotFound e); naive_solver.
Qed.

Lemma processClassifier_blocked
  (r : ClassifierReconciler.t) (classifier : Classifier.t) (cpEndpoint : string)
  (cluster : ObjectReference.t) (f : feature.t) (q : Queue.t D) :
  canProceed env classifier cluster ≠ Ok true ->
  exists err, processClassifier env r classifier cpEndpoint cluster f q = (None, err, q).
Proof.
  intros Hp. unfold processClassifier.
  destruct (getCurrentHash env r classifier cpEndpoint cluster f) as [h|e]; [|eauto].
  destruct (canProceed env classifier cluster) as [[|]|e]; [done|eauto|eauto].
Qed.

Lemma processClassifier_frame
  (r : ClassifierReconciler.t) (classifier : Classifier.t) (cpEndpoint : string)
  (cluster : ObjectReference.t) (f : feature.t) (q : Queue.t D) :
  exists new,
    Queue.calls (processClassifier env r classifier cpEndpoint cluster f q).2
      = Queue.calls q ++ new ∧
    Forall (fun c => callCluster c = refKey cluster) new ∧
    (forall info,
       (processClassifier env r classifier cpEndpoint cluster f q).1.1 = Some info ->
       ClusterInfo.Cluster info = cluster).
Proof.
  unfold processClassifier.
  destruct (getCurrentHash env r classifier cpEndpoint cluster f) as [h|e];
    [|frameDone].
  destruct (canProceed env classifier cluster) as [[|]|e];
    [|frameDone|frameDone].
  unfold callIsInProgress.
  destruct (IsInProgress _ _ _ _ _ _ _); [frameDone|].
  destruct (getClassifierInClusterHashAndStatus classifier cluster)
    as [hash currentStatus].
  destruct (DeepEqual hash h); cbn [andb].
  - unfold callGetResult. cbn [Queue.deployer Queue.calls].
    destruct (GetResult _ _ _ _ _ _ _) as [[st e] d1].
    destruct st; cbn [convertResultStatus Result.Status Result.Err];
      try (simpl; frameDone).
    destruct (bool_decide (currentStatus = Some ClassifierStatusProvisioned));
      [frameDone|].
    dispatchCases r; frameDone.
  - dispatchCases r; frameDone.
Qed.

Lemma deployStep_frame
  (r : ClassifierReconciler.t) (classifier : Classifier.t) (f : feature.t)
  (errorSeen : option error) (allDeployed : bool) (clusterInfo : list ClusterInfo.t)
  (q : Queue.t D) (c : ClusterInfo.t) :
  exists errorSeen' allDeployed' added new q',
    deployStep env r classifier f (errorSeen, allDeployed, clusterInfo, q) c
      = (errorSeen', allDeployed', clusterInfo ++ added, q') ∧
    Queue.calls q' = Queue.calls q ++ new ∧
    (canProceed env classifier (ClusterInfo.Cluster c) ≠ Ok true ->
     added = [] ∧ new = [] ∧ allDeployed' = allDeployed) ∧
    (forall e', e' ∈ added -> ClusterInfo.Cluster e' = ClusterInfo.Cluster c) ∧
    Forall (fun call => callCluster call = entryKey c) new.
Proof.
  unfold deployStep.
  destruct (processClassifier_frame r classifier
              (ClassifierReconciler.ControlPlaneEndpoint r)
              (ClusterInfo.Cluster c) f q) as (new & Hcalls & Hnew & Hinfo).
  pose proof (processClassifier_blocked r classifier
                (ClassifierReconciler.ControlPlaneEndpoint r)
                (ClusterInfo.Cluster c) f q) as Hblocked.
  destruct (processClassifier env r classifier
              (ClassifierReconciler.ControlPlaneEndpoint r)
              (ClusterInfo.Cluster c) f q) as [[cInfo err] q1].
  cbn [fst snd] in *.
  destruct cInfo as [info|].
  - eexists _, _, [info], new, q1. split; [reflexivity|]. split; [done|].
    split; [|split; [|done]].
    + intros Hp. destruct (Hblocked Hp) as [err' Heq]. by simplify_eq.
    + intros e' ->%list_elem_of_singleton. by apply Hinfo.
  - eexists _, _, [], new, q1. rewrite app_nil_r. split; [reflexivity|].
    split; [done|]. split; [|split; [|done]].
    + intros Hp. destruct (Hblocked Hp) as [err' Heq]. simplify_eq.
      split; [done|]. split; [|done].
      apply (app_inv_head (Queue.calls q)). by rewrite app_nil_r.
    + by intros e' He'%elem_of_nil.
Qed.

Lemma deployLoop_frame
  (r : ClassifierReconciler.t) (classifier : Classifier.t) (f : feature.t)
  (l : list ClusterInfo.t)
  (errorSeen : option error) (allDeployed : bool) (clusterInfo : list ClusterInfo.t)
  (q : Queue.t D) :
  exists errorSeen' allDeployed' added new q',
    foldl (deployStep env r classifier f) (errorSeen, allDeployed, clusterInfo, q) l
      = (errorSeen', allDeployed', clusterInfo ++ added, q') ∧
    Queue.calls q' = Queue.calls q ++ new ∧
    (forall e', e' ∈ added ->
       exists e, e ∈ l ∧ ClusterInfo.Cluster e' = ClusterInfo.Cluster e ∧
                 canProceed env classifier (ClusterInfo.Cluster e) = Ok true) ∧
    (forall call, call ∈ new ->
       exists e, e ∈ l ∧ callCluster call = entryKey e ∧
                 canProceed env classifier (ClusterInfo.Cluster e) = Ok true).
Proof.
  revert errorSeen allDeployed clusterInfo q.
  induction l as [|c l IH]; intros errorSeen allDeployed clusterInfo q; cbn [foldl].
  - exists errorSeen, allDeployed, [], [], q. rewrite !app_nil_r.
    split; [done|]. split; [done|]. split; intros x Hx; by apply elem_of_nil in Hx.
  - destruct (deployStep_frame r classifier f errorSeen allDeployed clusterInfo q c)
      as (es1 & ad1 & added1 & new1 & q1 & Hstep & Hcalls1 & Hblocked & Hadded1 & Hnew1).
    rewrite Hstep.
    destruct (IH es1 ad1 (clusterInfo ++ added1) q1)
      as (es2 & ad2 & added2 & new2 & q2 & Hloop & Hcalls2 & Hadded2 & Hnew2).
    rewrite Hloop.
    exists es2, ad2, (added1 ++ added2), (new1 ++ new2), q2.
    rewrite !app_assoc. split; [done|].
    split; [by rewrite Hcalls2, Hcalls1|].
    assert (Hok : added1 ≠ [] ∨ new1 ≠ [] ->
                  canProceed env classifier (ClusterInfo.Cluster c) = Ok true).
    { intros Hne.
      destruct (canProceed env classifier (ClusterInfo.Cluster c)) as [[|]|e] eqn:Hp;
        [done| |]; destruct Hblocked as (-> & -> & _); naive_solver. }
    split.
    + intros e' [He'|He']%elem_of_app.
      * exists c. split; [left|]. split; [by apply Hadded1|].
        apply Hok. left. intros ->. by apply elem_of_nil in He'.
      * destruct (Hadded2 e' He') as (e & He & Heq & Hp).
        exists e. split; [by right|done].
    + intros call [Hc|Hc]%elem_of_app.
      * exists c. split; [left|]. rewrite Forall_forall in Hnew1.
        split; [by apply Hnew1|].
        apply Hok. right. intros ->. by apply elem_of_nil in Hc.
      * destruct (Hnew2 call Hc) as (e & He & Heq & Hp).
        exists e. split; [by right|done].
Qed.

(** C6 (as amended): for a pair whose cluster is paused or not ready,
    processClassifier calls nothing on the queue and returns no
    ClusterInfo; deployClassifier rebuilds Status.ClusterInfo from what
    processClassifier returned, so the pair's recorded entry is not in
    the new status, and every queue call of the pass belongs to a cluster
    that passed the gate. *)
Theorem paused_pair_is_skipped
  (r : ClassifierReconciler.t) (classifier : Classifier.t) (f : feature.t)
  (q : Queue.t D) (entry : ClusterInfo.t) :
  entry ∈ statusClusterInfo classifier ->
  isPaused env (ClusterInfo.Cluster entry) classifier = Ok true ∨
  (isPaused env (ClusterInfo.Cluster entry) classifier = Ok false ∧
   Environment.IsClusterReadyToBeConfigured env (ClusterInfo.Cluster entry)
     = Ok false) ->
  (exists err,
     processClassifier env r classifier (ClassifierReconciler.ControlPlaneEndpoint r)
       (ClusterInfo.Cluster entry) f q = (None, err, q)) ∧
  (forall e', e' ∈ statusClusterInfo (deployClassifier env r classifier f q).1.1 ->
     ClusterInfo.Cluster e' ≠ ClusterInfo.Cluster entry) ∧
  (exists new,
     Queue.calls (deployClassifier env r classifier f q).2 = Queue.calls q ++ new ∧
     forall call, call ∈ new ->
       exists e, e ∈ statusClusterInfo classifier ∧ callCluster call = entryKey e ∧
                 canProceed env classifier (ClusterInfo.Cluster e) = Ok true).
Proof.
  intros Hentry Hgate%canProceed_false.
  split; [apply processClassifier_blocked; by rewrite Hgate|].
  unfold deployClassifier.
  destruct (deployLoop_frame r classifier f (statusClusterInfo classifier)
              None true [] q)
    as (es & ad & added & new & q' & Hloop & Hcalls & Hadded & Hnew).
  rewrite Hloop. cbn [app].
  assert (Hout :
    statusClusterInfo
      (match es with
       | Some e => (SetClusterInfo classifier added, Some e, q')
       | None =>
           if ad then (SetClusterInfo classifier added, None, q')
           else (SetClusterInfo classifier added,
                 Some (errorsNew
                   "request to deploy Classifier is still queued in one ore more clusters"),
                 q')
       end).1.1 = added ∧
    Queue.calls
      (match es with
       | Some e => (SetClusterInfo classifier added, Some e, q')
       | None =>
           if ad then (SetClusterInfo classifier added, None, q')
           else (SetClusterInfo classifier added,
                 Some (errorsNew
                   "request to deploy Classifier is still queued in one ore more clusters"),
                 q')
       end).2 = Queue.calls q').
  { destruct es; [done|]. by destruct ad. }
  destruct Hout as [-> ->]. split.
  - intros e' He' Heq. destruct (Hadded e' He') as (e & _ & Hc & Hp).
    rewrite <- Hc, Heq, Hgate in Hp. done.
  - exists new. split; [done|]. exact Hnew.
Qed.

(** *** Frame of removeClassifier and undeployClassifier *)

Lemma teardownConfirmed_app env' classifier f c (new1 new2 : list DeployerCall) :
  teardownConfirmed env' classifier f c new1 ∨ teardownConfirmed env' classifier f c new2 ->
  teardownConfirmed env' classifier f c (new1 ++ new2).
Proof.
  intros [(res & Hst & Hin)|(res & Hst & Hin)]; exists res; (split; [done|]);
    apply elem_of_app; [by left | by right].
Qed.

Lemma teardownPending_app env' classifier f c (new1 new2 : list DeployerCall) :
  teardownPending env' classifier f c new1 ∨ teardownPending env' classifier f c new2 ->
  teardownPending env' classifier f c (new1 ++ new2).
Proof.
  unfold teardownPending. setoid_rewrite elem_of_app. naive_solver.
Qed.

Lemma removeClassifier_frame
  (classifier : Classifier.t) (c : ObjectReference.t) (f : feature.t) (q : Queue.t D) :
  exists new,
    Queue.calls (removeClassifier env classifier c f q).2 = Queue.calls q ++ new ∧
    ((removeClassifier env classifier c f q).1 = None ->
     Forall (fun call => isQuiet call = true) new ∧
     (isPaused env c classifier = Ok true ∨
      teardownConfirmed env classifier f c new)) ∧
    (isPaused env c classifier ≠ Ok false ∨
     teardownConfirmed env classifier f c new ∨
     teardownPending env classifier f c new).
Proof.
  unfold removeClassifier.
  destruct (isPaused env c classifier) as [[|]|e] eqn:Hp.
  - exists []. rewrite app_nil_r. split; [done|]. split; [|by left].
    intros _. split; [constructor | by left].
  - unfold callIsInProgress.
    destruct (IsInProgress _ _ _ _ _ _ _) eqn:Hin.
    + eexists [_]. split; [reflexivity|]. split; [done|].
      right; right. left. apply list_elem_of_singleton. done.
    + unfold callGetResult. cbn [Queue.deployer Queue.calls].
      destruct (GetResult _ _ _ _ _ _ _) as [[st e] d1].
      unfold convertResultStatus. cbn [Result.Status].
      destruct st; unfold callDeploy; cbn [Queue.deployer Queue.calls];
        try (destruct (Deploy _ _ _ _ _ _ _ _ _ _) as [[?|] ?]);
        cbn [fst snd Queue.calls]; rewrite <- ?app_assoc; cbn [app];
        (eexists; split; [reflexivity|]).
      all: try (split; [done|]; right; right; right; right; eexists;
                apply elem_of_cons; right; apply elem_of_cons; right;
                apply list_elem_of_singleton; reflexivity).
      * split; [done|]. right; right; right; left. eexists. split; [|
          apply elem_of_cons; right; apply list_elem_of_singleton; reflexivity].
        done.
      * split.
        -- intros _. split; [by repeat constructor|]. right. eexists.
           split; [|apply elem_of_cons; right; apply list_elem_of_singleton;
                    reflexivity]. done.
        -- right; left. eexists.
           split; [|apply elem_of_cons; right; apply list_elem_of_singleton;
                    reflexivity]. done.
  - exists []. rewrite app_nil_r. split; [done|]. split; [done|by left].
Qed.

Lemma undeployLoop_frame
  (classifier : Classifier.t) (f : feature.t) (clusters : list ObjectReference.t)
  (clusterInfo : list ClusterInfo.t) (q : Queue.t D) :
  exists added new q',
    foldl (undeployStep env classifier f) (clusterInfo, q) clusters
      = (clusterInfo ++ added, q') ∧
    Queue.calls q' = Queue.calls q ++ new ∧
    (added = [] ->
     Forall (fun call => isQuiet call = true) new ∧
     forall c, c ∈ clusters ->
       isPaused env c classifier = Ok true ∨
       teardownConfirmed env classifier f c new) ∧
    (forall c, c ∈ clusters ->
       isPaused env c classifier ≠ Ok false ∨
       teardownConfirmed env classifier f c new ∨
       teardownPending env classifier f c new).
Proof.
  revert clusterInfo q.
  induction clusters as [|c clusters IH]; intros clusterInfo q; cbn [foldl].
  - exists [], [], q. rewrite !app_nil_r. split; [done|]. split; [done|].
    split; [intros _; split; [constructor|]|]; intros c Hc; by apply elem_of_nil in Hc.
  - unfold undeployStep at 2.
    destruct (removeClassifier_frame classifier c f q) as (new1 & Hcalls1 & Hnone & Hdriven).
    destruct (removeClassifier env classifier c f q) as [err q1].
    cbn [fst snd] in *.
    destruct err as [e|].
    + destruct (IH (clusterInfo ++
                      [ClusterInfo.mk c None ClassifierStatusRemoving (Some (Error e))]) q1)
        as (added2 & new2 & q2 & Hloop & Hcalls2 & _ & Hdriven2).
      rewrite Hloop, <- app_assoc.
      eexists _, (new1 ++ new2), q2. split; [reflexivity|].
      split; [by rewrite Hcalls2, Hcalls1, app_assoc|].
      split; [done|].
      intros c' [->|Hc']%elem_of_cons.
      * destruct Hdriven as [Hd|[Hd|Hd]]; [by left| |].
        -- right; left. apply teardownConfirmed_app. by left.
        -- right; right. apply teardownPending_app. by left.
      * destruct (Hdriven2 c' Hc') as [Hd|[Hd|Hd]]; [by left| |].
        -- right; left. apply teardownConfirmed_app. by right.
        -- right; right. apply teardownPending_app. by right.
    + destruct (IH clusterInfo q1)
        as (added2 & new2 & q2 & Hloop & Hcalls2 & Hquiet2 & Hdriven2).
      rewrite Hloop.
      exists added2, (new1 ++ new2), q2. split; [reflexivity|].
      split; [by rewrite Hcalls2, Hcalls1, app_assoc|].
      destruct (Hnone eq_refl) as [Hq1 Hs1]. split.
      * intros Hadded. destruct (Hquiet2 Hadded) as [Hq2 Hs2].
        split; [by apply Forall_app|].
        intros c' [->|Hc']%elem_of_cons.
        -- destruct Hs1 as [Hs1|Hs1]; [by left|].
           right. apply teardownConfirmed_app. by left.
        -- destruct (Hs2 c' Hc') as [Hs|Hs]; [by left|].
           right. apply teardownConfirmed_app. by right.
      * intros c' [->|Hc']%elem_of_cons.
        -- destruct Hdriven as [Hd|[Hd|Hd]]; [by left| |].
           ++ right; left. apply teardownConfirmed_app. by left.
           ++ right; right. apply teardownPending_app. by left.
        -- destruct (Hdriven2 c' Hc') as [Hd|[Hd|Hd]]; [by left| |].
           ++ right; left. apply teardownConfirmed_app. by right.
           ++ right; right. apply teardownPending_app. by right.
Qed.

Lemma clustersToClean_spec (info : list ClusterInfo.t) (acc clusters : list ObjectReference.t) :
  clustersToClean env info acc = Ok clusters ->
  forall e, e ∈ info -> clusterGone env e ∨ ClusterInfo.Cluster e ∈ clusters.
Proof.
  assert (Hmono : forall info acc clusters,
    clustersToClean env info acc = Ok clusters -> forall c, c ∈ acc -> c ∈ clusters).
  { clear. intros info. induction info as [|e info IH]; intros acc clusters; cbn [clustersToClean].
    - by intros [= ->].
    - destruct (Environment.getCluster env _ _ _) as [err|].
      + destruct (IsNotFound err); [apply IH | done].
      + intros Heq c Hc. eapply IH; [exact Heq|]. apply elem_of_app. by left. }
  revert acc clusters.
  induction info as [|e info IH]; intros acc clusters; cbn [clustersToClean].
  - intros _ e He. by apply elem_of_nil in He.
  - destruct (Environment.getCluster env _ _ _) as [err|] eqn:Hget.
    + destruct (IsNotFound err) eqn:Hnf; [|done].
      intros Heq e' [->|He']%elem_of_cons; [|by eapply IH].
      left. exists err. done.
    + intros Heq e' [->|He']%elem_of_cons; [|by eapply IH].
      right. eapply Hmono; [exact Heq|]. apply elem_of_app. right. left.
Qed.
(** deployClassifier only keeps or drops clusters: every entry of the
    status it leaves belongs to a cluster the status listed before. *)
Lemma deployClassifier_status_clusters
  (r : ClassifierReconciler.t) (classifier : Classifier.t) (f : feature.t)
  (q : Queue.t D) (e' : ClusterInfo.t) :
  e' ∈ statusClusterInfo (deployClassifier env r classifier f q).1.1 ->
  exists e, e ∈ statusClusterInfo classifier ∧
            ClusterInfo.Cluster e' = ClusterInfo.Cluster e.
Proof.
  unfold deployClassifier.
  destruct (deployLoop_frame r classifier f (statusClusterInfo classifier)
              None true [] q)
    as (es & ad & added & new & q' & Hloop & _ & Hadded & _).
  rewrite Hloop. cbn [app].
  assert (Hout :
    statusClusterInfo
      (match es with
       | Some e => (SetClusterInfo classifier added, Some e, q')
       | None =>
           if ad then (SetClusterInfo classifier added, None, q')
           else (SetClusterInfo classifier added,
                 Some (errorsNew
                   "request to deploy Classifier is still queued in one ore more clusters"),
                 q')
       end).1.1 = added).
  { destruct es; [done|]. by destruct ad. }
  rewrite Hout. intros He'. destruct (Hadded e' He') as (e & He & Heq & _). eauto.
Qed.

(** C5 (as amended): after any sequence of updateMaps executions on a
    reconciler that started with empty maps, the two maps mirror each
    other: a Classifier is recorded under a cluster exactly when the
    cluster is recorded under the Classifier. The entry of the Classifier
    just processed holds exactly the clusters, by namespace and name,
    listed in the Status.ClusterInfo updateMaps was called with; the entry
    of any Classifier holds the clusters of the status handed to the most
    recent execution for its name, and is empty when there was none. The
    maps are not updated when deployClassifier then drops entries from the
    status: every cluster the status lists after deployClassifier is in
    the index, in both maps. *)
Theorem updateMaps_index_mirror
  (mode : ReportMode) (endpoint : string)
  (history : list Classifier.t) (classifier : Classifier.t) :
  (forall P C,
     P ∈ classifiersOf
           (updateMaps (foldl updateMaps (ClassifierReconciler.new mode endpoint) history)
              classifier) C
     ↔ C ∈ clustersOf
             (updateMaps (foldl updateMaps (ClassifierReconciler.new mode endpoint) history)
                classifier) P) ∧
  (forall C,
     C ∈ clustersOf
           (updateMaps (foldl updateMaps (ClassifierReconciler.new mode endpoint) history)
              classifier)
           (classifierPolicyRef (Classifier.Name classifier))
     ↔ exists e, e ∈ statusClusterInfo classifier ∧
                 C = clusterPolicyRef (ClusterInfo.Cluster e)) ∧
  (forall c : ObjectReference.t,
     clusterPolicyRef c
       ∈ clustersOf
           (updateMaps (foldl updateMaps (ClassifierReconciler.new mode endpoint) history)
              classifier)
           (classifierPolicyRef (Classifier.Name classifier))
     ↔ refKey c ∈ entryKey <$> statusClusterInfo classifier) ∧
  (forall (name : string) (C : PolicyRef.t),
     C ∈ clustersOf
           (updateMaps (foldl updateMaps (ClassifierReconciler.new mode endpoint) history)
              classifier)
           (classifierPolicyRef name)
     ↔ exists latest e,
         last (filter (fun c => Classifier.Name c = name) (history ++ [classifier]))
           = Some latest ∧
         e ∈ statusClusterInfo latest ∧
         C = clusterPolicyRef (ClusterInfo.Cluster e)) ∧
  (forall (f : feature.t) (q : Queue.t D) (e : ClusterInfo.t),
     e ∈ statusClusterInfo
           (deployClassifier env
              (updateMaps
                 (foldl updateMaps (ClassifierReconciler.new mode endpoint) history)
                 classifier)
              classifier f q).1.1 ->
     clusterPolicyRef (ClusterInfo.Cluster e)
       ∈ clustersOf
           (updateMaps (foldl updateMaps (ClassifierReconciler.new mode endpoint) history)
              classifier)
           (classifierPolicyRef (Classifier.Name classifier)) ∧
     classifierPolicyRef (Classifier.Name classifier)
       ∈ classifiersOf
           (updateMaps (foldl updateMaps (ClassifierReconciler.new mode endpoint) history)
              classifier)
           (clusterPolicyRef (ClusterInfo.Cluster e))).
Proof.
  pose proof (updateMaps_preserves_mirror _ classifier
                (mirror_history mode endpoint history)) as Hmirror.
  assert (Hentry : forall C,
    C ∈ clustersOf
          (updateMaps (foldl updateMaps (ClassifierReconciler.new mode endpoint) history)
             classifier)
          (classifierPolicyRef (Classifier.Name classifier))
    ↔ exists e, e ∈ statusClusterInfo classifier ∧
                C = clusterPolicyRef (ClusterInfo.Cluster e)).
  { intros C. rewrite updateMaps_clustersOf, decide_True by done.
    apply currentClusters_elem. }
  split; [exact Hmirror|]. split; [exact Hentry|]. split; [|split].
  - intros c. rewrite updateMaps_clustersOf, decide_True by done.
    apply currentClusters_by_key.
  - intros name C.
    change (updateMaps (foldl updateMaps (ClassifierReconciler.new mode endpoint) history)
              classifier)
      with (foldl updateMaps (foldl updateMaps (ClassifierReconciler.new mode endpoint)
                                history) [classifier]).
    rewrite <- foldl_app, updateMaps_history_clustersOf.
    destruct (last (filter (fun c => Classifier.Name c = name) (history ++ [classifier])))
      as [latest|].
    + rewrite currentClusters_elem. split.
      * intros (e & He & ->). eauto.
      * intros (latest' & e & [= <-] & He & ->). eauto.
    + unfold clustersOf; simpl. rewrite lookup_empty. simpl. split.
      * intros HC. by apply elem_of_empty in HC.
      * by intros (latest' & e & Hl & _).
  - intros f q e He.
    destruct (deployClassifier_status_clusters _ _ _ _ _ He) as (e0 & He0 & Heq).
    assert (Hin : clusterPolicyRef (ClusterInfo.Cluster e)
                    ∈ clustersOf
                        (updateMaps
                           (foldl updateMaps (ClassifierReconciler.new mode endpoint)
                              history) classifier)
                        (classifierPolicyRef (Classifier.Name classifier))).
    { apply Hentry. exists e0. by rewrite Heq. }
    split; [exact Hin | by apply Hmirror].
Qed.
End DeploymentProperties.

(** ** Deleting a Classifier *)

Section DeleteProperties.
Context {K : Type} `{KeyManager K} {D : Type} `{DeployerInterface D}.
Variable env : Environment.t.

Lemma teardownPending_not_quiet (classifier : Classifier.t) (f : feature.t)
  (c : ObjectReference.t) (new : list DeployerCall) :
  teardownPending env classifier f c new ->
  Forall (fun call => isQuiet call = true) new -> False.
Proof.
  rewrite Forall_forall.
  intros [Hin|[(res & Hst & Hin)|(answer & Hin)]] Hq; apply Hq in Hin; simpl in Hin.
  - done.
  - rewrite Hst in Hin. by apply bool_decide_eq_true in Hin.
  - done.
Qed.

Lemma ContainsFinalizer_RemoveFinalizer (c : Classifier.t) (finalizer : string) :
  ContainsFinalizer (RemoveFinalizer c finalizer) finalizer = false.
Proof.
  unfold ContainsFinalizer, RemoveFinalizer. cbn [Classifier.Finalizers].
  apply bool_decide_eq_false. intros [Hne _]%list_elem_of_filter. done.
Qed.

(** C7 (as amended): on deletion, every Status.ClusterInfo entry whose
    cluster still exists is taken through removeClassifier: unless the
    cluster is paused, the queue either confirms the removal, or the
    removal is still under way or is dispatched in this pass. The
    finalizer goes away only in a pass in which every entry's cluster is
    gone, or is paused, or has its removal confirmed by the queue; and in
    a pass in which the removal for some entry is still under way,
    reconcileDelete asks for a requeue after twenty seconds and keeps the
    finalizer. *)
Theorem finalizer_removed_after_teardown (s : Pass.t K D) :
  exists new,
    Queue.calls (Pass.queue (reconcileDelete env s).2)
      = Queue.calls (Pass.queue s) ++ new ∧
    (forall clusters,
       Registry.instanceError (Pass.registry s) = None ->
       clustersToClean env (statusClusterInfo (Pass.classifier s)) [] = Ok clusters ->
       forall e, e ∈ statusClusterInfo (Pass.classifier s) ->
         clusterGone env e ∨
         isPaused env (ClusterInfo.Cluster e) (Pass.classifier s) ≠ Ok false ∨
         teardownConfirmed env (Pass.classifier s)
           (Environment.getHandlersForFeature env) (ClusterInfo.Cluster e) new ∨
         teardownPending env (Pass.classifier s)
           (Environment.getHandlersForFeature env) (ClusterInfo.Cluster e) new) ∧
    (ContainsFinalizer (Pass.classifier s) ClassifierFinalizer = true ->
     ContainsFinalizer (Pass.classifier (reconcileDelete env s).2) ClassifierFinalizer
       = false ->
     forall e, e ∈ statusClusterInfo (Pass.classifier s) ->
       clusterGone env e ∨
       isPaused env (ClusterInfo.Cluster e) (Pass.classifier s) = Ok true ∨
       teardownConfirmed env (Pass.classifier s)
         (Environment.getHandlersForFeature env) (ClusterInfo.Cluster e) new) ∧
    ((exists e, e ∈ statusClusterInfo (Pass.classifier s) ∧
                teardownPending env (Pass.classifier s)
                  (Environment.getHandlersForFeature env) (ClusterInfo.Cluster e) new) ->
     (reconcileDelete env s).1 = (ctrlResult.mk true deleteRequeueAfter, None) ∧
     Classifier.Finalizers (Pass.classifier (reconcileDelete env s).2)
       = Classifier.Finalizers (Pass.classifier s)).
Proof.
  destruct s as [r reg q classifier]. cbn [Pass.queue Pass.classifier Pass.registry].
  set (f := Environment.getHandlersForFeature env).
  assert (Hnopending : forall c, ¬ teardownPending env classifier f c []).
  { intros c Hp. by apply (teardownPending_not_quiet classifier f c []). }
  unfold reconcileDelete, removeAllRegistrations, GetKeyManagerInstance.
  cbn [Pass.queue Pass.classifier Pass.registry Pass.reconciler].
  destruct (Registry.instanceError reg) as [e|] eqn:Hreg.
  { exists []. cbn [fst snd Pass.queue Pass.classifier]. rewrite app_nil_r.
    split; [done|]. split; [done|]. split; [congruence|].
    intros (e' & _ & Hp). by apply Hnopending in Hp. }
  fold f. unfold undeployClassifier.
  destruct (clustersToClean env (statusClusterInfo classifier) []) as [clusters|e]
    eqn:Hclean.
  2:{ exists []. cbn [fst snd Pass.queue Pass.classifier]. rewrite app_nil_r.
      split; [done|]. split; [done|]. split; [congruence|].
      intros (e' & _ & Hp). by apply Hnopending in Hp. }
  destruct (undeployLoop_frame env classifier f clusters [] q)
    as (added & new & q' & Hloop & Hcalls & Hquiet & Hdriven).
  rewrite Hloop. cbn [app].
  pose proof (clustersToClean_spec env _ _ _ Hclean) as Hspec.
  assert (Hi : forall e, e ∈ statusClusterInfo classifier ->
    clusterGone env e ∨
    isPaused env (ClusterInfo.Cluster e) classifier ≠ Ok false ∨
    teardownConfirmed env classifier f (ClusterInfo.Cluster e) new ∨
    teardownPending env classifier f (ClusterInfo.Cluster e) new).
  { intros e He. destruct (Hspec e He) as [Hg|Hc]; [by left|].
    right. by apply Hdriven. }
  exists new.
  destruct added as [|a added]; cbn [length Nat.eqb negb].
  - destruct (Hquiet eq_refl) as [Hq Hsettled].
    assert (Hii : forall e, e ∈ statusClusterInfo classifier ->
      clusterGone env e ∨
      isPaused env (ClusterInfo.Cluster e) classifier = Ok true ∨
      teardownConfirmed env classifier f (ClusterInfo.Cluster e) new).
    { intros e He. destruct (Hspec e He) as [Hg|Hc]; [by left|].
      right. by apply Hsettled. }
    assert (Hiii : (exists e, e ∈ statusClusterInfo classifier ∧
                      teardownPending env classifier f (ClusterInfo.Cluster e) new) ->
                   False).
    { intros (e & _ & Hp). by apply (teardownPending_not_quiet _ _ _ _ Hp). }
    destruct (Environment.removeClassifierReports env (SetClusterInfo classifier []));
      [|destruct (if decide (ClassifierReconciler.ClassifierReportMode _
                             = CollectFromManagementCluster)
                  then Environment.removeAccessRequest env else None)];
      cbn [fst snd Pass.queue Pass.classifier];
      (split; [done|]); (split; [by intros clusters' _ _|]);
      (split; [by intros _ _|]); intros Hp; by apply Hiii in Hp.
  - cbn [fst snd Pass.queue Pass.classifier].
    split; [done|]. split; [by intros clusters' _ _|]. split; [|done].
    unfold ContainsFinalizer, SetMachingClusterStatuses. cbn [Classifier.Finalizers].
    congruence.
Qed.
End DeleteProperties.

(** ** The claims at concrete inputs *)

(** C1: with matching reports for two clusters the rebuilt
    MachingClusterStatuses has two slots, but only the first one is
    written (here with the cluster visited last); the second is the
    zero value, so cluster A, whose report matches, has no entry. *)
Theorem matching_statuses_lose_second_cluster :
  clusterA ∈ currentMatching [reportFor clusterA true; reportFor clusterB true] ∧
  clusterB ∈ currentMatching [reportFor clusterA true; reportFor clusterB true] ∧
  exists r w,
    updateMatchingClustersAndRegistrations elementsOrder exampleReconciler
      emptyRegistry (acme [] [])
      (Ok [reportFor clusterA true; reportFor clusterB true])
    = (r, w,
       acme [] [MachingClusterStatus.mk clusterB (Some ["issuer"]) (Some []);
                MachingClusterStatus.zero],
       None).
Proof.
  split; [|split].
  - apply currentMatching_elem. exists (reportFor clusterA true).
    split; [left|done].
  - apply currentMatching_elem. exists (reportFor clusterB true).
    split; [right; left|done].
  - eexists _, _. vm_compute. reflexivity.
Qed.

(** C2, counterexample: the undeploy of the pair is in progress, yet on
    a paused cluster processClassifier returns no error at all. *)
Lemma cleanup_in_progress_on_paused_cluster :
  IsInProgress (Queue.deployer busyQueue) "default" "cluster-a" "acme-x" "Classifier"
    ClusterTypeCapi true = true ∧
  processClassifier pausedA exampleReconciler (acme [] []) "" clusterA
    featureClassifier busyQueue
  = (None, None, busyQueue).
Proof. split; vm_compute; reflexivity. Qed.

(** C2 at a cluster that is neither paused nor unready, with both a deploy
    and an undeploy of the pair in progress. *)
Lemma in_flight_request_refused_witness :
  IsInProgress (Queue.deployer busyQueue) "default" "cluster-a" "acme-x" "Classifier"
    ClusterTypeCapi true = true ∧
  getCurrentHash healthy exampleReconciler (acme [] []) "" clusterA featureClassifier
    = Ok (labelBytes (acme [] [])) ∧
  canProceed healthy (acme [] []) clusterA = Ok true ∧
  IsInProgress (Queue.deployer busyQueue) "default" "cluster-a" "acme-x" "Classifier"
    ClusterTypeCapi false = true ∧
  isPaused healthy clusterA (acme [] []) = Ok false ∧
  processClassifier healthy exampleReconciler (acme [] []) "" clusterA
    featureClassifier busyQueue
  = (None,
     Some (errorsNew
             "cleanup of Classifier in cluster still in progress. Wait before redeploying"),
     Queue.mk (Queue.deployer busyQueue)
       [CallIsInProgress "default" "cluster-a" "acme-x" "Classifier"
          ClusterTypeCapi true true]) ∧
  removeClassifier healthy (acme [] []) clusterA featureClassifier busyQueue
  = (Some (errorsNew
             "deploy of Classifier in cluster still in progress. Wait before redeploying"),
     Queue.mk (Queue.deployer busyQueue)
       [CallIsInProgress "default" "cluster-a" "acme-x" "Classifier"
          ClusterTypeCapi false true]).
Proof.
  destruct (in_flight_request_refused healthy exampleReconciler (acme [] []) ""
              clusterA featureClassifier busyQueue) as [Hdeploy Hundeploy].
  assert (H1 : IsInProgress (Queue.deployer busyQueue) "default" "cluster-a" "acme-x"
                 "Classifier" ClusterTypeCapi true = true) by reflexivity.
  assert (H2 : getCurrentHash healthy exampleReconciler (acme [] []) "" clusterA
                 featureClassifier = Ok (labelBytes (acme [] []))) by reflexivity.
  assert (H3 : canProceed healthy (acme [] []) clusterA = Ok true) by reflexivity.
  assert (H4 : IsInProgress (Queue.deployer busyQueue) "default" "cluster-a" "acme-x"
                 "Classifier" ClusterTypeCapi false = true) by reflexivity.
  assert (H5 : isPaused healthy clusterA (acme [] []) = Ok false) by reflexivity.
  split; [exact H1|]. split; [exact H2|]. split; [exact H3|].
  split; [exact H4|]. split; [exact H5|]. split.
  - exact (proj2 (Hdeploy H1) _ H2 H3).
  - exact (proj2 (Hundeploy H4) H5).
Defined.

(** C3, counterexample: the stored hash equals the current one, the
    queue has no result and the recorded status is Failed; a deploy is
    dispatched all the same. *)
Lemma unchanged_hash_redeployed_after_failure :
  (getClassifierInClusterHashAndStatus (acme [entryA ClassifierStatusFailed] []) clusterA).1
    = labelBytes (acme [entryA ClassifierStatusFailed] []) ∧
  processClassifier healthy exampleReconciler (acme [entryA ClassifierStatusFailed] [])
    "" clusterA featureClassifier idleQueue
  = (Some (entryA ClassifierStatusProvisioning), None,
     Queue.mk (FakeDeployer.mk [keyA false] [])
       [CallIsInProgress "default" "cluster-a" "acme-x" "Classifier"
          ClusterTypeCapi true false;
        CallGetResult "default" "cluster-a" "acme-x" "Classifier"
          ClusterTypeCapi false (Result.mk Unavailable None);
        CallDeploy "default" "cluster-a" "acme-x" "Classifier"
          ClusterTypeCapi false deployClassifierInCluster (Options.mk None) None]).
Proof. split; vm_compute; reflexivity. Qed.

(** C3 at a pair recorded as Provisioning whose deploy has completed: the
    stored result is translated into Provisioned and nothing is dispatched. *)
Lemma unchanged_hash_not_redeployed_witness :
  getCurrentHash healthy exampleReconciler (acme [entryA ClassifierStatusProvisioning] [])
    "" clusterA featureClassifier = Ok (labelBytes (acme [] [])) ∧
  canProceed healthy (acme [entryA ClassifierStatusProvisioning] []) clusterA = Ok true ∧
  IsInProgress (Queue.deployer (queueWith false None)) "default" "cluster-a" "acme-x"
    "Classifier" ClusterTypeCapi true = false ∧
  (getClassifierInClusterHashAndStatus
     (acme [entryA ClassifierStatusProvisioning] []) clusterA).1
    = labelBytes (acme [] []) ∧
  GetResult (Queue.deployer (queueWith false None)) "default" "cluster-a" "acme-x"
    "Classifier" ClusterTypeCapi false
    = (Result.mk Deployed None, FakeDeployer.mk [] []) ∧
  exists info err,
    processClassifier healthy exampleReconciler
      (acme [entryA ClassifierStatusProvisioning] []) "" clusterA featureClassifier
      (queueWith false None)
    = (Some info, err,
       Queue.mk (FakeDeployer.mk [] [])
         [CallIsInProgress "default" "cluster-a" "acme-x" "Classifier"
            ClusterTypeCapi true false;
          CallGetResult "default" "cluster-a" "acme-x" "Classifier"
            ClusterTypeCapi false (Result.mk Deployed None)]) ∧
    ClusterInfo.Status info = ClassifierStatusProvisioned ∧ err = None.
Proof.
  assert (H1 : getCurrentHash healthy exampleReconciler
                 (acme [entryA ClassifierStatusProvisioning] []) "" clusterA
                 featureClassifier = Ok (labelBytes (acme [] []))) by reflexivity.
  assert (H2 : canProceed healthy (acme [entryA ClassifierStatusProvisioning] [])
                 clusterA = Ok true) by reflexivity.
  assert (H3 : IsInProgress (Queue.deployer (queueWith false None)) "default"
                 "cluster-a" "acme-x" "Classifier" ClusterTypeCapi true = false)
    by reflexivity.
  assert (H4 : (getClassifierInClusterHashAndStatus
                  (acme [entryA ClassifierStatusProvisioning] []) clusterA).1
               = labelBytes (acme [] [])) by reflexivity.
  assert (H5 : GetResult (Queue.deployer (queueWith false None)) "default" "cluster-a"
                 "acme-x" "Classifier" ClusterTypeCapi false
               = (Result.mk Deployed None, FakeDeployer.mk [] [])) by reflexivity.
  split; [exact H1|]. split; [exact H2|]. split; [exact H3|].
  split; [exact H4|]. split; [exact H5|].
  assert (H6 : Result.Status (Result.mk Deployed None) ≠ Unavailable) by discriminate.
  pose proof (unchanged_hash_not_redeployed healthy exampleReconciler
                (acme [entryA ClassifierStatusProvisioning] []) "" clusterA
                featureClassifier (queueWith false None) (labelBytes (acme [] []))
                (Result.mk Deployed None) (FakeDeployer.mk [] [])
                H1 H2 H3 H4 H5 (or_introl H6)) as T.
  destruct T as (info & err & Hrun & _ & _ & Hst & Herr).
  exists info, err. split; [exact Hrun|]. split; [exact Hst | exact Herr].
Defined.

(** C4, counterexample: the previous attempt failed (the queue holds
    its Failed result, the hash has not changed), and no deploy is
    dispatched: the pair is recorded as Failed. *)
Lemma failed_attempt_not_redeployed :
  processClassifier healthy exampleReconciler
    (acme [entryA ClassifierStatusProvisioning] []) "" clusterA featureClassifier
    (queueWith false (Some (OtherError "apply failed")))
  = (Some (entryA ClassifierStatusFailed), None,
     Queue.mk (FakeDeployer.mk [] [])
       [CallIsInProgress "default" "cluster-a" "acme-x" "Classifier"
          ClusterTypeCapi true false;
        CallGetResult "default" "cluster-a" "acme-x" "Classifier"
          ClusterTypeCapi false
          (Result.mk Failed (Some (OtherError "apply failed")))]).
Proof. vm_compute. reflexivity. Qed.

(** C4 at a pair that was never deployed, its entry being the empty one
    updateClusterInfo adds, with classifierHash as the hash of the
    feature: one deploy request is dispatched and the pair is recorded as
    Provisioning. *)
Lemma changed_or_failed_redeployed_witness :
  getCurrentHash healthy exampleReconciler (acme [newEntry clusterA] []) "" clusterA
    featureClassifier
    = Ok (labelBytes (acme [] [])) ∧
  canProceed healthy (acme [newEntry clusterA] []) clusterA = Ok true ∧
  IsInProgress (Queue.deployer idleQueue) "default" "cluster-a" "acme-x" "Classifier"
    ClusterTypeCapi true = false ∧
  (forall e, e ∈ statusClusterInfo (acme [newEntry clusterA] []) ->
     ClusterInfo.Cluster e = clusterA -> ClusterInfo.Hash e = None) ∧
  feature.currentHash featureClassifier (acme [newEntry clusterA] [])
    = classifierHash healthy exampleAsCode (acme [newEntry clusterA] []) ∧
  exists before handler options answer d',
    (processClassifier healthy exampleReconciler (acme [newEntry clusterA] []) ""
       clusterA featureClassifier idleQueue).2
    = Queue.mk d'
        (Queue.calls idleQueue ++ before ++
           [CallDeploy "default" "cluster-a" "acme-x" "Classifier" ClusterTypeCapi
              false handler options answer]) ∧
    Forall (fun c => isDispatch c = false) before ∧
    handler = deployClassifierInCluster ∧
    match answer with
    | None =>
        (processClassifier healthy exampleReconciler (acme [newEntry clusterA] []) ""
           clusterA featureClassifier idleQueue).1
        = (Some (entryA ClassifierStatusProvisioning), None)
    | Some e =>
        (processClassifier healthy exampleReconciler (acme [newEntry clusterA] []) ""
           clusterA featureClassifier idleQueue).1 = (None, Some e)
    end.
Proof.
  assert (H1 : getCurrentHash healthy exampleReconciler (acme [newEntry clusterA] [])
                 "" clusterA featureClassifier = Ok (labelBytes (acme [] [])))
    by reflexivity.
  assert (H2 : canProceed healthy (acme [newEntry clusterA] []) clusterA = Ok true)
    by reflexivity.
  assert (H3 : IsInProgress (Queue.deployer idleQueue) "default" "cluster-a" "acme-x"
                 "Classifier" ClusterTypeCapi true = false) by reflexivity.
  assert (H4 : forall e, e ∈ statusClusterInfo (acme [newEntry clusterA] []) ->
                 ClusterInfo.Cluster e = clusterA -> ClusterInfo.Hash e = None).
  { intros e He _. apply elem_of_cons in He as [->|He]; [reflexivity|].
    exact (False_ind _ (proj1 (elem_of_nil _) He)). }
  assert (H5 : feature.currentHash featureClassifier (acme [newEntry clusterA] [])
               = classifierHash healthy exampleAsCode (acme [newEntry clusterA] []))
    by (vm_compute; reflexivity).
  split; [exact H1|]. split; [exact H2|]. split; [exact H3|]. split; [exact H4|].
  split; [exact H5|].
  pose proof (changed_or_failed_redeployed healthy exampleAsCode exampleReconciler
                (acme [newEntry clusterA] []) "" clusterA featureClassifier idleQueue
                (labelBytes (acme [] []))
                H1 H2 H3 (or_intror (or_introl (conj H4 H5)))) as T.
  exact T.
Defined.

(** C5, counterexample: a reconcile pass of a Classifier over the
    clusters A and B while cluster B is paused. updateMaps records both
    clusters, deployClassifier then drops the entry of cluster B from the
    status: when the pass ends the index still lists cluster B for the
    Classifier, in both maps, and Status.ClusterInfo lists cluster A only. *)
Lemma index_lists_cluster_dropped_from_status :
  statusClusterInfo
    (Pass.classifier (reconcileNormal elementsOrder pausedB livePass quietHub).1.2)
    = [entryA ClassifierStatusProvisioning] ∧
  clusterPolicyRef clusterB
    ∈ clustersOf
        (Pass.reconciler (reconcileNormal elementsOrder pausedB livePass quietHub).1.2)
        (classifierPolicyRef "acme-x") ∧
  classifierPolicyRef "acme-x"
    ∈ classifiersOf
        (Pass.reconciler (reconcileNormal elementsOrder pausedB livePass quietHub).1.2)
        (clusterPolicyRef clusterB).
Proof.
  split; [vm_compute; reflexivity|].
  split; refine (bool_decide_unpack _ _); vm_compute; exact I.
Qed.

(** C6, counterexample: cluster A is paused and has a recorded entry
    (Provisioned, with the current hash); after deployClassifier the
    status holds no entry for it any more. *)
Lemma paused_pair_entry_dropped :
  isPaused pausedA clusterA (acme [entryA ClassifierStatusProvisioned] []) = Ok true ∧
  deployClassifier pausedA exampleReconciler
    (acme [entryA ClassifierStatusProvisioned] []) featureClassifier idleQueue
  = (acme [] [], None, idleQueue).
Proof. split; vm_compute; reflexivity. Qed.

(** C6 at a Classifier recorded on a paused cluster A and a running
    cluster B. *)
Lemma paused_pair_is_skipped_witness :
  entryA ClassifierStatusProvisioned
    ∈ statusClusterInfo
        (acme [entryA ClassifierStatusProvisioned; entryB ClassifierStatusProvisioned] []) ∧
  isPaused pausedA clusterA
    (acme [entryA ClassifierStatusProvisioned; entryB ClassifierStatusProvisioned] [])
    = Ok true ∧
  (exists err,
     processClassifier pausedA exampleReconciler
       (acme [entryA ClassifierStatusProvisioned; entryB ClassifierStatusProvisioned] [])
       "" clusterA featureClassifier idleQueue = (None, err, idleQueue)) ∧
  (forall e',
     e' ∈ statusClusterInfo
            (deployClassifier pausedA exampleReconciler
               (acme [entryA ClassifierStatusProvisioned;
                      entryB ClassifierStatusProvisioned] [])
               featureClassifier idleQueue).1.1 ->
     ClusterInfo.Cluster e' ≠ clusterA).
Proof.
  assert (H1 : entryA ClassifierStatusProvisioned
                 ∈ statusClusterInfo
                     (acme [entryA ClassifierStatusProvisioned;
                            entryB ClassifierStatusProvisioned] []))
    by (apply elem_of_cons; left; reflexivity).
  assert (H2 : isPaused pausedA clusterA
                 (acme [entryA ClassifierStatusProvisioned;
                        entryB ClassifierStatusProvisioned] []) = Ok true)
    by reflexivity.
  split; [exact H1|]. split; [exact H2|].
  pose proof (paused_pair_is_skipped pausedA exampleReconciler
                (acme [entryA ClassifierStatusProvisioned;
                       entryB ClassifierStatusProvisioned] [])
                featureClassifier idleQueue (entryA ClassifierStatusProvisioned)
                H1 (or_introl H2)) as T.
  destruct T as (Hskip & Hdropped & _).
  split; [exact Hskip | exact Hdropped].
Defined.

(** C7, counterexample: the Classifier is being deleted while it is
    recorded as Provisioned on cluster A, which exists and is paused; no
    undeploy is dispatched, nothing is confirmed removed, and the
    finalizer is removed in this very pass. *)
Lemma finalizer_removed_while_paused :
  Environment.getCluster pausedA "default" "cluster-a" ClusterTypeCapi = None ∧
  ContainsFinalizer (Pass.classifier (deletePass pausedA idleQueue))
    ClassifierFinalizer = true ∧
  (reconcileDelete pausedA (deletePass pausedA idleQueue)).1 = (ctrlResult.zero, None) ∧
  Pass.queue (reconcileDelete pausedA (deletePass pausedA idleQueue)).2 = idleQueue ∧
  Classifier.Finalizers
    (Pass.classifier (reconcileDelete pausedA (deletePass pausedA idleQueue)).2) = [].
Proof. repeat split; vm_compute; reflexivity. Qed.

(** C7 at a delete pass in which the queue confirms the removal from
    cluster A: the finalizer goes away. *)
Lemma finalizer_removed_after_teardown_witness :
  ContainsFinalizer (Pass.classifier (deletePass healthy (queueWith true None)))
    ClassifierFinalizer = true ∧
  ContainsFinalizer
    (Pass.classifier (reconcileDelete healthy (deletePass healthy (queueWith true None))).2)
    ClassifierFinalizer = false ∧
  exists new,
    Queue.calls
      (Pass.queue (reconcileDelete healthy (deletePass healthy (queueWith true None))).2)
      = Queue.calls (Pass.queue (deletePass healthy (queueWith true None))) ++ new ∧
    forall e,
      e ∈ statusClusterInfo (Pass.classifier (deletePass healthy (queueWith true None))) ->
      clusterGone healthy e ∨
      isPaused healthy (ClusterInfo.Cluster e)
        (Pass.classifier (deletePass healthy (queueWith true None))) = Ok true ∨
      teardownConfirmed healthy
        (Pass.classifier (deletePass healthy (queueWith true None)))
        (Environment.getHandlersForFeature healthy) (ClusterInfo.Cluster e) new.
Proof.
  assert (H1 : ContainsFinalizer
                 (Pass.classifier (deletePass healthy (queueWith true None)))
                 ClassifierFinalizer = true) by (vm_compute; reflexivity).
  assert (H2 : ContainsFinalizer
                 (Pass.classifier
                    (reconcileDelete healthy
                       (deletePass healthy (queueWith true None))).2)
                 ClassifierFinalizer = false) by (vm_compute; reflexivity).
  split; [exact H1|]. split; [exact H2|].
  destruct (finalizer_removed_after_teardown healthy
              (deletePass healthy (queueWith true None)))
    as (new & Hcalls & _ & Hremoved & _).
  exists new. split; [exact Hcalls | exact (Hremoved H1 H2)].
Defined.


(** C9 at a fleet of three clusters, one of them being deleted, and a
    Classifier already recorded on cluster A. *)
Lemma updateClusterInfo_only_grows_witness :
  NoDup ((fun cl => (Cluster.Namespace cl, Cluster.Name cl)) <$> fleet) ∧
  Forall (fun cl => noSlash (Cluster.Namespace cl)) fleet ∧
  Forall (fun e => noSlash (ObjectReference.Namespace (ClusterInfo.Cluster e)))
    (statusClusterInfo (acme [entryA ClassifierStatusProvisioned] [])) ∧
  exists added,
    updateClusterInfo (Ok fleet) (acme [entryA ClassifierStatusProvisioned] [])
      = (SetClusterInfo (acme [entryA ClassifierStatusProvisioned] [])
           (statusClusterInfo (acme [entryA ClassifierStatusProvisioned] []) ++ added),
         None) ∧
    statusClusterInfo
      (updateClusterInfo (Ok fleet) (acme [entryA ClassifierStatusProvisioned] [])).1
      = statusClusterInfo (acme [entryA ClassifierStatusProvisioned] []) ++ added ∧
    (forall e, e ∈ added ↔
       exists cl, cl ∈ fleet ∧ Cluster.DeletionTimestamp cl = None ∧
         ((Cluster.Namespace cl, Cluster.Name cl)
            ∉ entryKey <$> statusClusterInfo (acme [entryA ClassifierStatusProvisioned] [])) ∧
         e = newEntry (clusterRef cl)) ∧
    NoDup (entryKey <$> added).
Proof.
  assert (H1 : NoDup ((fun cl => (Cluster.Namespace cl, Cluster.Name cl)) <$> fleet))
    by (refine (bool_decide_unpack _ _); vm_compute; exact I).
  assert (H2 : Forall (fun cl => noSlash (Cluster.Namespace cl)) fleet)
    by (repeat constructor).
  assert (H3 : Forall (fun e => noSlash (ObjectReference.Namespace (ClusterInfo.Cluster e)))
                 (statusClusterInfo (acme [entryA ClassifierStatusProvisioned] [])))
    by (repeat constructor).
  split; [exact H1|]. split; [exact H2|]. split; [exact H3|].
  destruct (updateClusterInfo_only_grows fleet
              (acme [entryA ClassifierStatusProvisioned] []) H1 H2 H3)
    as (_ & added & Hrun & Hstatus & _ & _ & Hmem & Hnd & _).
  exists added. split; [exact Hrun|]. split; [exact Hstatus|].
  split; [exact Hmem | exact Hnd].
Defined.

(** C10 at a pulled report without labels and an empty management
    cluster. *)
Lemma updateClassifierReport_malformed_witness :
  ClassifierReport.Labels unlabelledReport = None ∧
  exists e,
    updateClassifierReport emptyManagement (Cluster.mk "default" "cluster-a" None)
      unlabelledReport = (Some e, emptyManagement).
Proof.
  assert (H1 : ClassifierReport.Labels unlabelledReport = None) by reflexivity.
  split; [exact H1|].
  exact (updateClassifierReport_malformed emptyManagement
           (Cluster.mk "default" "cluster-a" None) unlabelledReport (or_introl H1)).
Defined.

(** * Further properties of the controller *)

(** ** What processClassifier and removeClassifier return *)

Section OutcomeProperties.
Context {D : Type} `{DeployerInterface D}.
Variable env : Environment.t.

(** X1: an entry returned by processClassifier is for the cluster asked
    about, carries the hash just computed and one of the statuses
    Provisioned, Provisioning, Failed or Removed; the gate was passed; an
    error comes with an entry only for Provisioning; and a Failed or
    Removed entry carries no failure message. *)
Theorem processClassifier_entry_shape
  (r : ClassifierReconciler.t) (classifier : Classifier.t) (cpEndpoint : string)
  (cluster : ObjectReference.t) (f : feature.t) (q : Queue.t D) (info : ClusterInfo.t) :
  (processClassifier env r classifier cpEndpoint cluster f q).1.1 = Some info ->
  ClusterInfo.Cluster info = cluster ∧
  getCurrentHash env r classifier cpEndpoint cluster f = Ok (ClusterInfo.Hash info) ∧
  canProceed env classifier cluster = Ok true ∧
  ClusterInfo.Status info
    ∈ [ClassifierStatusProvisioned; ClassifierStatusProvisioning;
       ClassifierStatusFailed; ClassifierStatusRemoved] ∧
  ((processClassifier env r classifier cpEndpoint cluster f q).1.2 ≠ None ->
   ClusterInfo.Status info = ClassifierStatusProvisioning) ∧
  (ClusterInfo.Status info = ClassifierStatusFailed ∨
   ClusterInfo.Status info = ClassifierStatusRemoved ->
   ClusterInfo.FailureMessage info = None).
Proof.
  unfold processClassifier.
  destruct (getCurrentHash env r classifier cpEndpoint cluster f) as [h|e]; [|done].
  destruct (canProceed env classifier cluster) as [[|]|e]; [|done|done].
  unfold callIsInProgress.
  destruct (IsInProgress _ _ _ _ _ _ _); [done|].
  destruct (getClassifierInClusterHashAndStatus classifier cluster)
    as [hash currentStatus].
  assert (Hshape : forall st fm (err : option error),
    st = ClassifierStatusProvisioned ∨ st = ClassifierStatusProvisioning ∨
    st = ClassifierStatusFailed ∨ st = ClassifierStatusRemoved ->
    (err ≠ None -> st = ClassifierStatusProvisioning) ->
    (st = ClassifierStatusFailed ∨ st = ClassifierStatusRemoved -> fm = None) ->
    Some (ClusterInfo.mk cluster h st fm) = Some info ->
    ClusterInfo.Cluster info = cluster ∧
    Ok h = Ok (ClusterInfo.Hash info) ∧
    @Ok bool true = Ok true ∧
    ClusterInfo.Status info
      ∈ [ClassifierStatusProvisioned; ClassifierStatusProvisioning;
         ClassifierStatusFailed; ClassifierStatusRemoved] ∧
    (err ≠ None -> ClusterInfo.Status info = ClassifierStatusProvisioning) ∧
    (ClusterInfo.Status info = ClassifierStatusFailed ∨
     ClusterInfo.Status info = ClassifierStatusRemoved ->
     ClusterInfo.FailureMessage info = None)).
  { intros st fm err Hst Herr Hfm [= <-]. cbn. rewrite !elem_of_cons. tauto. }
  destruct (DeepEqual hash h); cbn [andb].
  - unfold callGetResult. cbn [Queue.deployer Queue.calls].
    destruct (GetResult _ _ _ _ _ _ _) as [[st e] d1].
    destruct st; cbn [convertResultStatus Result.Status Result.Err];
      try (simpl; apply Hshape;
           first [tauto | congruence | intros [|]; congruence]).
    destruct (bool_decide (currentStatus = Some ClassifierStatusProvisioned)).
    + simpl; apply Hshape; first [tauto | congruence | intros [|]; congruence].
    + dispatchCases r; cbn [fst snd]; try done;
        apply Hshape; first [tauto | congruence | intros [|]; congruence].
  - dispatchCases r; cbn [fst snd]; try done;
      apply Hshape; first [tauto | congruence | intros [|]; congruence].
Qed.

(** X2: removeClassifier reports success exactly when the cluster is
    paused, or no deploy is in progress and the queue holds the result
    Removed for the undeploy. It dispatches at most once, what it
    dispatches is the undeploy of this Classifier on this cluster, and a
    call that dispatched never reports success. *)
Theorem removeClassifier_outcome
  (classifier : Classifier.t) (c : ObjectReference.t) (f : feature.t) (q : Queue.t D) :
  ((removeClassifier env classifier c f q).1 = None ↔
   isPaused env c classifier = Ok true ∨
   (isPaused env c classifier = Ok false ∧
    IsInProgress (Queue.deployer q)
      (ObjectReference.Namespace c) (ObjectReference.Name c)
      (Classifier.Name classifier) (feature.id f)
      (Environment.getClusterType env c) false = false ∧
    Result.Status
      (GetResult (Queue.deployer q)
         (ObjectReference.Namespace c) (ObjectReference.Name c)
         (Classifier.Name classifier) (feature.id f)
         (Environment.getClusterType env c) true).1 = Removed)) ∧
  exists new,
    Queue.calls (removeClassifier env classifier c f q).2 = Queue.calls q ++ new ∧
    (length (filter (fun call => isDispatch call = true) new) <= 1)%nat ∧
    forall call, call ∈ new -> isDispatch call = true ->
      (removeClassifier env classifier c f q).1 ≠ None ∧
      exists answer,
        call = CallDeploy (ObjectReference.Namespace c) (ObjectReference.Name c)
                 (Classifier.Name classifier) (feature.id f)
                 (Environment.getClusterType env c) true
                 undeployClassifierFromCluster (Options.mk None) answer.
Proof.
  unfold removeClassifier.
  destruct (isPaused env c classifier) as [[|]|e] eqn:Hp.
  - split; [naive_solver|]. exists []. rewrite app_nil_r.
    split; [done|]. split; [simpl; lia|]. by intros call Hc%elem_of_nil.
  - unfold callIsInProgress.
    destruct (IsInProgress _ _ _ _ _ _ _) eqn:Hin.
    + split; [naive_solver|]. eexists [_]. split; [reflexivity|].
      split; [simpl; lia|].
      intros call ->%list_elem_of_singleton. done.
    + unfold callGetResult. cbn [Queue.deployer Queue.calls].
      destruct (GetResult _ _ _ _ _ _ _) as [[st e] d1].
      unfold convertResultStatus. cbn [Result.Status fst].
      destruct st; unfold callDeploy; cbn [Queue.deployer Queue.calls];
        try (destruct (Deploy _ _ _ _ _ _ _ _ _ _) as [[?|] ?]);
        cbn [fst snd Queue.calls]; rewrite <- ?app_assoc; cbn [app];
        (split; [naive_solver|]);
        (eexists; split; [reflexivity|]);
        (split; [simpl; lia|]);
        intros call Hcall Hd;
        repeat (apply elem_of_cons in Hcall as [->|Hcall]; [try done|]);
        try (by apply elem_of_nil in Hcall);
        (split; [done | eexists; reflexivity]).
  - split; [naive_solver|]. exists []. rewrite app_nil_r.
    split; [done|]. split; [simpl; lia|]. by intros call Hc%elem_of_nil.
Qed.
End OutcomeProperties.

(** ** One pass of deployClassifier over Status.ClusterInfo *)

Section DeployPassProperties.
Context {D : Type} `{DeployerInterface D}.
Variable env : Environment.t.

Lemma processClassifier_trace
  (r : ClassifierReconciler.t) (classifier : Classifier.t) (cpEndpoint : string)
  (cluster : ObjectReference.t) (f : feature.t) (q : Queue.t D) :
  exists new,
    Queue.calls (processClassifier env r classifier cpEndpoint cluster f q).2
      = Queue.calls q ++ new ∧
    (forall info,
       (processClassifier env r classifier cpEndpoint cluster f q).1.1 = Some info ->
       ClusterInfo.Cluster info = cluster ∧
       getCurrentHash env r classifier cpEndpoint cluster f = Ok (ClusterInfo.Hash info) ∧
       canProceed env classifier cluster = Ok true) ∧
    (forall h,
       getCurrentHash env r classifier cpEndpoint cluster f = Ok h ->
       canProceed env classifier cluster = Ok true ->
       exists answer, cleanupProbe env classifier f cluster answer ∈ new) ∧
    ((processClassifier env r classifier cpEndpoint cluster f q).1.2 = None ->
     (canProceed env classifier cluster = Ok false ∧
      (processClassifier env r classifier cpEndpoint cluster f q).1.1 = None) ∨
     (canProceed env classifier cluster = Ok true ∧
      exists info,
        (processClassifier env r classifier cpEndpoint cluster f q).1.1 = Some info)).
Proof.
  unfold processClassifier, cleanupProbe.
  destruct (getCurrentHash env r classifier cpEndpoint cluster f) as [h|e].
  2:{ exists []. rewrite app_nil_r. cbn [fst snd]. split_and!; try done. }
  destruct (canProceed env classifier cluster) as [[|]|e].
  2,3: exists []; rewrite app_nil_r; cbn [fst snd]; split_and!; try done; by left.
  unfold callIsInProgress.
  assert (Hfin : forall (oi : option ClusterInfo.t) (oe : option error)
                        (calls' tail : list DeployerCall),
    calls'
      = (Queue.calls q ++
         [CallIsInProgress (ObjectReference.Namespace cluster)
            (ObjectReference.Name cluster) (Classifier.Name classifier) (feature.id f)
            (Environment.getClusterType env cluster) true false]) ++ tail ->
    (oe = None -> exists st fm, oi = Some (ClusterInfo.mk cluster h st fm)) ->
    (forall info, oi = Some info ->
       exists st fm, info = ClusterInfo.mk cluster h st fm) ->
    exists new,
      calls' = Queue.calls q ++ new ∧
      (forall info, oi = Some info ->
         ClusterInfo.Cluster info = cluster ∧ Ok h = Ok (ClusterInfo.Hash info) ∧
         @Ok bool true = Ok true) ∧
      (forall h0, @Ok bytes h = Ok h0 -> @Ok bool true = Ok true ->
         exists answer,
           CallIsInProgress (ObjectReference.Namespace cluster)
             (ObjectReference.Name cluster) (Classifier.Name classifier) (feature.id f)
             (Environment.getClusterType env cluster) true answer ∈ new) ∧
      (oe = None ->
       (@Ok bool true = Ok false ∧ oi = None) ∨
       (@Ok bool true = Ok true ∧ exists info, oi = Some info))).
  { intros oi oe calls' tail Hcalls Hnone Hsome. eexists. rewrite <- app_assoc in Hcalls.
    split; [exact Hcalls|]. split_and!.
    - intros info (st & fm & ->)%Hsome. done.
    - intros _ _ _. exists false. apply elem_of_cons. by left.
    - intros (st & fm & Heq)%Hnone. right. eauto. }
  destruct (IsInProgress _ _ _ _ _ _ _) eqn:Hin.
  { eexists [_]. cbn [fst snd Queue.calls]. split; [reflexivity|]. split_and!; try done.
    intros _ _ _. exists true. apply list_elem_of_singleton. done. }
  destruct (getClassifierInClusterHashAndStatus classifier cluster)
    as [hash currentStatus].
  destruct (DeepEqual hash h); cbn [andb].
  - unfold callGetResult. cbn [Queue.deployer Queue.calls].
    destruct (GetResult _ _ _ _ _ _ _) as [[st e] d1].
    destruct st; cbn [convertResultStatus Result.Status Result.Err].
    1-4: simpl; eapply Hfin;
         [reflexivity | intros; eauto; done | intros info [= <-]; eauto].
    destruct (bool_decide (currentStatus = Some ClassifierStatusProvisioned)).
    + simpl; eapply Hfin;
        [reflexivity | intros; eauto | intros info [= <-]; eauto].
    + dispatchCases r; simpl; (eapply Hfin;
        [rewrite <- app_assoc; reflexivity | intros; eauto; done
        | intros info [= <-]; eauto; done]).
  - dispatchCases r; simpl; (eapply Hfin;
      [reflexivity | intros; eauto; done | intros info [= <-]; eauto; done]).
Qed.

Lemma deployLoop_trace
  (r : ClassifierReconciler.t) (classifier : Classifier.t) (f : feature.t)
  (l : list ClusterInfo.t)
  (errorSeen : option error) (allDeployed : bool) (clusterInfo : list ClusterInfo.t)
  (q : Queue.t D) :
  exists errorSeen' allDeployed' added new q',
    foldl (deployStep env r classifier f) (errorSeen, allDeployed, clusterInfo, q) l
      = (errorSeen', allDeployed', clusterInfo ++ added, q') ∧
    Queue.calls q' = Queue.calls q ++ new ∧
    sublist (ClusterInfo.Cluster <$> added) (ClusterInfo.Cluster <$> l) ∧
    Forall (fun e' =>
              getCurrentHash env r classifier (ClassifierReconciler.ControlPlaneEndpoint r)
                (ClusterInfo.Cluster e') f = Ok (ClusterInfo.Hash e')) added ∧
    (forall e h, e ∈ l ->
       getCurrentHash env r classifier (ClassifierReconciler.ControlPlaneEndpoint r)
         (ClusterInfo.Cluster e) f = Ok h ->
       canProceed env classifier (ClusterInfo.Cluster e) = Ok true ->
       exists answer, cleanupProbe env classifier f (ClusterInfo.Cluster e) answer ∈ new) ∧
    (errorSeen' = None ->
     errorSeen = None ∧
     ClusterInfo.Cluster <$> added
       = filter (fun c => canProceed env classifier c = Ok true)
           (ClusterInfo.Cluster <$> l)) ∧
    (allDeployed' = true ->
     allDeployed = true ∧
     Forall (fun e' => ClusterInfo.Status e' = ClassifierStatusProvisioned) added).
Proof.
  revert errorSeen allDeployed clusterInfo q.
  induction l as [|c l IH]; intros errorSeen allDeployed clusterInfo q; cbn [foldl].
  - exists errorSeen, allDeployed, [], [], q. rewrite !app_nil_r.
    split_and!; try done. intros e h He. by apply elem_of_nil in He.
  - unfold deployStep at 2.
    destruct (processClassifier_trace r classifier
                (ClassifierReconciler.ControlPlaneEndpoint r)
                (ClusterInfo.Cluster c) f q) as (new1 & Hcalls1 & Hinfo & Hprobe & Hnone).
    destruct (processClassifier env r classifier
                (ClassifierReconciler.ControlPlaneEndpoint r)
                (ClusterInfo.Cluster c) f q) as [[cInfo err] q1].
    cbn [fst snd] in *.
    destruct cInfo as [info|].
    + destruct (Hinfo info eq_refl) as (Hcl & Hhash & Hgate).
      destruct (IH (match err with Some e => Some e | None => errorSeen end)
                   (if decide (ClusterInfo.Status info = ClassifierStatusProvisioned)
                    then allDeployed else false)
                   (clusterInfo ++ [info]) q1)
        as (es2 & ad2 & added2 & new2 & q2 & Hloop & Hcalls2 & Hsub & Hh & Hp & Hes & Had).
      rewrite Hloop, <- app_assoc.
      exists es2, ad2, ([info] ++ added2), (new1 ++ new2), q2.
      split; [done|]. split; [by rewrite Hcalls2, Hcalls1, app_assoc|].
      split_and!.
      * cbn [app]. rewrite !fmap_cons, Hcl. by apply sublist_skip.
      * cbn [app]. constructor; [by rewrite Hcl|done].
      * intros e h [->|He]%elem_of_cons Hhe Hge.
        -- destruct (Hprobe h Hhe Hge) as [answer Hin]. exists answer.
           apply elem_of_app. by left.
        -- destruct (Hp e h He Hhe Hge) as [answer Hin]. exists answer.
           apply elem_of_app. by right.
      * intros Hes2. destruct (Hes Hes2) as [Herr Hf]. destruct err; [done|].
        split; [done|]. cbn [app]. rewrite !fmap_cons, filter_cons_True by done.
        by rewrite Hcl, Hf.
      * intros Had2. destruct (Had Had2) as [Hd Hall].
        destruct (decide (ClusterInfo.Status info = ClassifierStatusProvisioned));
          [|done].
        split; [done|]. cbn [app]. by constructor.
    + destruct (IH (match err with Some e => Some e | None => errorSeen end)
                   allDeployed clusterInfo q1)
        as (es2 & ad2 & added2 & new2 & q2 & Hloop & Hcalls2 & Hsub & Hh & Hp & Hes & Had).
      rewrite Hloop.
      exists es2, ad2, added2, (new1 ++ new2), q2.
      split; [done|]. split; [by rewrite Hcalls2, Hcalls1, app_assoc|].
      split_and!.
      * rewrite fmap_cons. by apply sublist_cons.
      * done.
      * intros e h [->|He]%elem_of_cons Hhe Hge.
        -- destruct (Hprobe h Hhe Hge) as [answer Hin]. exists answer.
           apply elem_of_app. by left.
        -- destruct (Hp e h He Hhe Hge) as [answer Hin]. exists answer.
           apply elem_of_app. by right.
      * intros Hes2. destruct (Hes Hes2) as [Herr Hf]. destruct err; [done|].
        split; [done|]. destruct (Hnone eq_refl) as [[Hg _]|[_ [info Hi]]]; [|done].
        rewrite fmap_cons, filter_cons_False; [done|]. by rewrite Hg.
      * done.
Qed.

(** X3: when deployClassifier returns no error, the rebuilt
    Status.ClusterInfo holds, in the old order, exactly one entry for each
    old entry whose cluster passed the gate (not paused, ready), each one
    Provisioned and carrying the hash computed in this pass. *)
Theorem deployClassifier_success
  (r : ClassifierReconciler.t) (classifier : Classifier.t) (f : feature.t)
  (q : Queue.t D) :
  (deployClassifier env r classifier f q).1.2 = None ->
  ClusterInfo.Cluster <$> statusClusterInfo (deployClassifier env r classifier f q).1.1
    = filter (fun c => canProceed env classifier c = Ok true)
        (ClusterInfo.Cluster <$> statusClusterInfo classifier) ∧
  Forall (fun e' =>
            ClusterInfo.Status e' = ClassifierStatusProvisioned ∧
            getCurrentHash env r classifier (ClassifierReconciler.ControlPlaneEndpoint r)
              (ClusterInfo.Cluster e') f = Ok (ClusterInfo.Hash e'))
    (statusClusterInfo (deployClassifier env r classifier f q).1.1).
Proof.
  unfold deployClassifier.
  destruct (deployLoop_trace r classifier f (statusClusterInfo classifier)
              None true [] q)
    as (es & ad & added & new & q' & Hloop & Hcalls & Hsub & Hh & Hp & Hes & Had).
  rewrite Hloop. cbn [app].
  destruct es as [e|]; [done|]. destruct ad; [|done].
  cbn [fst snd]. intros _.
  destruct (Hes eq_refl) as [_ Hf]. destruct (Had eq_refl) as [_ Hall].
  split; [exact Hf|].
  rewrite Forall_forall in *. intros e' He'. split; [by apply Hall | by apply Hh].
Qed.

(** X4: deployClassifier never stops at a failing cluster and never
    invents one: the clusters of the rebuilt Status.ClusterInfo are a
    subsequence of the old ones, and every old entry whose hash can be
    computed and whose cluster passed the gate is asked about on the
    queue, whatever happened for the clusters before it. *)
Theorem deployClassifier_visits_every_cluster
  (r : ClassifierReconciler.t) (classifier : Classifier.t) (f : feature.t)
  (q : Queue.t D) :
  sublist
    (ClusterInfo.Cluster <$> statusClusterInfo (deployClassifier env r classifier f q).1.1)
    (ClusterInfo.Cluster <$> statusClusterInfo classifier) ∧
  exists new,
    Queue.calls (deployClassifier env r classifier f q).2 = Queue.calls q ++ new ∧
    forall e h, e ∈ statusClusterInfo classifier ->
      getCurrentHash env r classifier (ClassifierReconciler.ControlPlaneEndpoint r)
        (ClusterInfo.Cluster e) f = Ok h ->
      canProceed env classifier (ClusterInfo.Cluster e) = Ok true ->
      exists answer, cleanupProbe env classifier f (ClusterInfo.Cluster e) answer ∈ new.
Proof.
  unfold deployClassifier.
  destruct (deployLoop_trace r classifier f (statusClusterInfo classifier)
              None true [] q)
    as (es & ad & added & new & q' & Hloop & Hcalls & Hsub & Hh & Hp & Hes & Had).
  rewrite Hloop. cbn [app].
  assert (Hout :
    statusClusterInfo
      (match es with
       | Some e => (SetClusterInfo classifier added, Some e, q')
       | None =>
           if ad then (SetClusterInfo classifier added, None, q')
           else (SetClusterInfo classifier added,
                 Some (errorsNew
                   "request to deploy Classifier is still queued in one ore more clusters"),
                 q')
       end).1.1 = added ∧
    Queue.calls
      (match es with
       | Some e => (SetClusterInfo classifier added, Some e, q')
       | None =>
           if ad then (SetClusterInfo classifier added, None, q')
           else (SetClusterInfo classifier added,
                 Some (errorsNew
                   "request to deploy Classifier is still queued in one ore more clusters"),
                 q')
       end).2 = Queue.calls q').
  { destruct es; [done|]. by destruct ad. }
  destruct Hout as [-> ->]. split; [done|]. exists new. split; [done|]. exact Hp.
Qed.

Lemma deployLoop_converged
  (r : ClassifierReconciler.t) (classifier : Classifier.t) (f : feature.t)
  (Inv : D -> Prop) (l : list ClusterInfo.t) :
  (forall d e, Inv d -> e ∈ l ->
     IsInProgress d
       (ObjectReference.Namespace (ClusterInfo.Cluster e))
       (ObjectReference.Name (ClusterInfo.Cluster e))
       (Classifier.Name classifier) (feature.id f)
       (Environment.getClusterType env (ClusterInfo.Cluster e)) true = false ∧
     (Result.Status
        (GetResult d
           (ObjectReference.Namespace (ClusterInfo.Cluster e))
           (ObjectReference.Name (ClusterInfo.Cluster e))
           (Classifier.Name classifier) (feature.id f)
           (Environment.getClusterType env (ClusterInfo.Cluster e)) false).1 = Deployed ∨
      Result.Status
        (GetResult d
           (ObjectReference.Namespace (ClusterInfo.Cluster e))
           (ObjectReference.Name (ClusterInfo.Cluster e))
           (Classifier.Name classifier) (feature.id f)
           (Environment.getClusterType env (ClusterInfo.Cluster e)) false).1
        = Unavailable) ∧
     Inv (GetResult d
            (ObjectReference.Namespace (ClusterInfo.Cluster e))
            (ObjectReference.Name (ClusterInfo.Cluster e))
            (Classifier.Name classifier) (feature.id f)
            (Environment.getClusterType env (ClusterInfo.Cluster e)) false).2) ->
  (forall e, e ∈ l ->
     canProceed env classifier (ClusterInfo.Cluster e) = Ok true ∧
     exists h,
       getCurrentHash env r classifier (ClassifierReconciler.ControlPlaneEndpoint r)
         (ClusterInfo.Cluster e) f = Ok h ∧
       getClassifierInClusterHashAndStatus classifier (ClusterInfo.Cluster e)
         = (h, Some ClassifierStatusProvisioned)) ->
  forall (clusterInfo : list ClusterInfo.t) (q : Queue.t D),
    Inv (Queue.deployer q) ->
    exists added q',
      foldl (deployStep env r classifier f) (None, true, clusterInfo, q) l
        = (None, true, clusterInfo ++ added, q') ∧
      Inv (Queue.deployer q') ∧
      noDispatch (Queue.calls q) (Queue.calls q') ∧
      Forall2 (fun e e' =>
                 ClusterInfo.Cluster e' = ClusterInfo.Cluster e ∧
                 getCurrentHash env r classifier
                   (ClassifierReconciler.ControlPlaneEndpoint r)
                   (ClusterInfo.Cluster e) f = Ok (ClusterInfo.Hash e') ∧
                 ClusterInfo.Status e' = ClassifierStatusProvisioned)
        l added.
Proof.
  induction l as [|c l IH]; intros Hqueue Hrec clusterInfo q Hinv; cbn [foldl].
  - exists [], q. rewrite app_nil_r. split_and!; try done. apply noDispatch_refl.
  - destruct (Hrec c) as (Hgate & h & Hhash & Hlook); [left|].
    destruct (Hqueue (Queue.deployer q) c Hinv) as (Hin & Hres & Hinv1); [left|].
    assert (Hstep : exists info q1,
      deployStep env r classifier f (None, true, clusterInfo, q) c
        = (None, true, clusterInfo ++ [info], q1) ∧
      Inv (Queue.deployer q1) ∧
      noDispatch (Queue.calls q) (Queue.calls q1) ∧
      ClusterInfo.Cluster info = ClusterInfo.Cluster c ∧
      ClusterInfo.Hash info = h ∧
      ClusterInfo.Status info = ClassifierStatusProvisioned).
    { unfold deployStep, processClassifier. rewrite Hhash, Hgate.
      unfold callIsInProgress. rewrite Hin, Hlook.
      unfold DeepEqual. rewrite bool_decide_eq_true_2 by done.
      unfold callGetResult. cbn [Queue.deployer Queue.calls].
      destruct (GetResult _ _ _ _ _ _ _) as [[st e] d1].
      cbn [fst snd Result.Status] in Hres, Hinv1.
      destruct Hres as [-> | ->]; cbn [convertResultStatus Result.Status Result.Err].
      - simpl. eexists _, _. split; [reflexivity|]. split; [exact Hinv1|].
        split; [|done]. eexists. rewrite <- app_assoc. split; [reflexivity|].
        by repeat constructor.
      - rewrite bool_decide_eq_true_2 by done. simpl.
        eexists _, _. split; [reflexivity|]. split; [exact Hinv1|].
        split; [|done]. eexists. rewrite <- app_assoc. split; [reflexivity|].
        by repeat constructor. }
    destruct Hstep as (info & q1 & -> & Hinv' & (new1 & Hc1 & Hn1) & Hcl & Hh & Hst).
    destruct (IH (fun d e Hd He => Hqueue d e Hd (list_elem_of_further _ _ _ He))
                 (fun e He => Hrec e (list_elem_of_further _ _ _ He))
                 (clusterInfo ++ [info]) q1 Hinv')
      as (added & q' & Hloop & Hinv2 & (new2 & Hc2 & Hn2) & Hall).
    rewrite Hloop, <- app_assoc. exists (info :: added), q'.
    split; [done|]. split; [done|]. split.
    + exists (new1 ++ new2). rewrite Hc2, Hc1, app_assoc. split; [done|].
      by apply Forall_app.
    + constructor; [|done]. by rewrite Hh.
Qed.

(** X5: a reconciled Classifier is a fixed point of deployClassifier.
    When every recorded cluster passes the gate and is recorded as
    Provisioned with the hash computed now, and the queue holds no cleanup
    in progress and only Deployed results or none, deployClassifier
    returns no error, dispatches nothing, and rebuilds Status.ClusterInfo
    with the same clusters in the same order, each Provisioned with the
    current hash. *)
Theorem deployClassifier_converged
  (r : ClassifierReconciler.t) (classifier : Classifier.t) (f : feature.t)
  (q : Queue.t D) (Inv : D -> Prop) :
  Inv (Queue.deployer q) ->
  (forall d e, Inv d -> e ∈ statusClusterInfo classifier ->
     IsInProgress d
       (ObjectReference.Namespace (ClusterInfo.Cluster e))
       (ObjectReference.Name (ClusterInfo.Cluster e))
       (Classifier.Name classifier) (feature.id f)
       (Environment.getClusterType env (ClusterInfo.Cluster e)) true = false ∧
     (Result.Status
        (GetResult d
           (ObjectReference.Namespace (ClusterInfo.Cluster e))
           (ObjectReference.Name (ClusterInfo.Cluster e))
           (Classifier.Name classifier) (feature.id f)
           (Environment.getClusterType env (ClusterInfo.Cluster e)) false).1 = Deployed ∨
      Result.Status
        (GetResult d
           (ObjectReference.Namespace (ClusterInfo.Cluster e))
           (ObjectReference.Name (ClusterInfo.Cluster e))
           (Classifier.Name classifier) (feature.id f)
           (Environment.getClusterType env (ClusterInfo.Cluster e)) false).1
        = Unavailable) ∧
     Inv (GetResult d
            (ObjectReference.Namespace (ClusterInfo.Cluster e))
            (ObjectReference.Name (ClusterInfo.Cluster e))
            (Classifier.Name classifier) (feature.id f)
            (Environment.getClusterType env (ClusterInfo.Cluster e)) false).2) ->
  (forall e, e ∈ statusClusterInfo classifier ->
     canProceed env classifier (ClusterInfo.Cluster e) = Ok true ∧
     exists h,
       getCurrentHash env r classifier (ClassifierReconciler.ControlPlaneEndpoint r)
         (ClusterInfo.Cluster e) f = Ok h ∧
       getClassifierInClusterHashAndStatus classifier (ClusterInfo.Cluster e)
         = (h, Some ClassifierStatusProvisioned)) ->
  (deployClassifier env r classifier f q).1.2 = None ∧
  Inv (Queue.deployer (deployClassifier env r classifier f q).2) ∧
  noDispatch (Queue.calls q) (Queue.calls (deployClassifier env r classifier f q).2) ∧
  Forall2 (fun e e' =>
             ClusterInfo.Cluster e' = ClusterInfo.Cluster e ∧
             getCurrentHash env r classifier
               (ClassifierReconciler.ControlPlaneEndpoint r)
               (ClusterInfo.Cluster e) f = Ok (ClusterInfo.Hash e') ∧
             ClusterInfo.Status e' = ClassifierStatusProvisioned)
    (statusClusterInfo classifier)
    (statusClusterInfo (deployClassifier env r classifier f q).1.1).
Proof.
  intros Hinv Hqueue Hrec. unfold deployClassifier.
  destruct (deployLoop_converged r classifier f Inv (statusClusterInfo classifier)
              Hqueue Hrec [] q Hinv)
    as (added & q' & Hloop & Hinv' & Hnd & Hall).
  rewrite Hloop. cbn [app fst snd]. done.
Qed.
End DeployPassProperties.

(** ** What deletion does to the status, the index and the registrations *)

Section TeardownProperties.
Context {K : Type} `{KeyManager K} {D : Type} `{DeployerInterface D}.
Variable env : Environment.t.

Lemma clustersToClean_sublist (info : list ClusterInfo.t)
  (acc clusters : list ObjectReference.t) :
  clustersToClean env info acc = Ok clusters ->
  exists kept, clusters = acc ++ kept ∧ sublist kept (ClusterInfo.Cluster <$> info).
Proof.
  revert acc. induction info as [|e info IH]; intros acc; cbn [clustersToClean].
  - intros [= <-]. exists []. by rewrite app_nil_r.
  - destruct (Environment.getCluster env _ _ _) as [err|].
    + destruct (IsNotFound err); [|done].
      intros (kept & -> & Hsub)%IH. exists kept. split; [done|].
      rewrite fmap_cons. by apply sublist_cons.
    + intros (kept & -> & Hsub)%IH. exists (ClusterInfo.Cluster e :: kept).
      rewrite <- app_assoc. split; [done|]. rewrite fmap_cons. by apply sublist_skip.
Qed.

Lemma undeployLoop_pending (classifier : Classifier.t) (f : feature.t)
  (clusters : list ObjectReference.t) (clusterInfo : list ClusterInfo.t) (q : Queue.t D) :
  exists added q',
    foldl (undeployStep env classifier f) (clusterInfo, q) clusters
      = (clusterInfo ++ added, q') ∧
    sublist (ClusterInfo.Cluster <$> added) clusters ∧
    Forall (fun e => ClusterInfo.Status e = ClassifierStatusRemoving ∧
                     ClusterInfo.Hash e = None ∧
                     is_Some (ClusterInfo.FailureMessage e)) added.
Proof.
  revert clusterInfo q.
  induction clusters as [|c clusters IH]; intros clusterInfo q; cbn [foldl].
  - exists [], q. by rewrite app_nil_r.
  - unfold undeployStep at 2.
    destruct (removeClassifier env classifier c f q) as [[e|] q1].
    + destruct (IH (clusterInfo ++
                      [ClusterInfo.mk c None ClassifierStatusRemoving (Some (Error e))]) q1)
        as (added & q' & Hloop & Hsub & Hall).
      rewrite Hloop, <- app_assoc. eexists _, q'. split; [reflexivity|].
      cbn [app]. rewrite fmap_cons. split; [by apply sublist_skip|].
      constructor; [|done]. cbn. by eauto.
    + destruct (IH clusterInfo q1) as (added & q' & Hloop & Hsub & Hall).
      rewrite Hloop. exists added, q'. split; [done|]. split; [|done].
      by apply sublist_cons.
Qed.

(** X6: undeployClassifier empties Status.ClusterInfo only when it
    returns no error, and then leaves MachingClusterStatuses alone. When
    it returns an error, Status.ClusterInfo is exactly what it was; if the
    clusters could be looked up, MachingClusterStatuses is overwritten
    with the clusters still being cleaned, a non-empty subsequence of the
    recorded clusters, each without labels, and the error counts them. *)
Theorem undeployClassifier_status
  (classifier : Classifier.t) (f : feature.t) (q : Queue.t D) :
  ((undeployClassifier env classifier f q).1.2 = None ->
   (undeployClassifier env classifier f q).1.1 = SetClusterInfo classifier []) ∧
  ((undeployClassifier env classifier f q).1.2 ≠ None ->
   statusClusterInfo (undeployClassifier env classifier f q).1.1
     = statusClusterInfo classifier ∧
   (forall e, clustersToClean env (statusClusterInfo classifier) [] = Err e ->
      undeployClassifier env classifier f q = (classifier, Some e, q)) ∧
   (forall clusters,
      clustersToClean env (statusClusterInfo classifier) [] = Ok clusters ->
      exists pending,
        pending ≠ [] ∧
        sublist pending (ClusterInfo.Cluster <$> statusClusterInfo classifier) ∧
        (undeployClassifier env classifier f q).1.1
          = SetMachingClusterStatuses classifier
              ((fun c => MachingClusterStatus.mk c None None) <$> pending) ∧
        (undeployClassifier env classifier f q).1.2
          = Some (errorsNew ("still in the process of removing Classifier from " +:+
                             pretty (length pending) +:+ " clusters")))).
Proof.
  unfold undeployClassifier.
  destruct (clustersToClean env (statusClusterInfo classifier) []) as [clusters|e]
    eqn:Hclean.
  2:{ cbn [fst snd]. split; [done|]. intros _. split; [done|]. split; [|done].
      by intros e' [= ->]. }
  destruct (undeployLoop_pending classifier f clusters [] q)
    as (added & q' & Hloop & Hsub & Hall).
  rewrite Hloop. cbn [app].
  apply clustersToClean_sublist in Hclean as (kept & -> & Hkept). cbn [app] in Hsub.
  destruct added as [|a added]; cbn [length Nat.eqb negb fst snd].
  - split; [done|]. intros Hne. done.
  - split; [done|]. intros _. split; [done|]. split; [done|].
    intros clusters' [= <-]. exists (ClusterInfo.Cluster <$> (a :: added)).
    split; [done|]. split; [by etrans|].
    rewrite <- list_fmap_compose, length_fmap. done.
Qed.

Lemma removeAll_loop (classifier : Classifier.t) (l : list MachingClusterStatus.t)
  (w : Registry.t K) :
  Registry.calls
    (foldl (fun w status =>
              callRemoveAllRegistrations w classifier
                (ObjectReference.Namespace (MachingClusterStatus.ClusterRef status))
                (ObjectReference.Name (MachingClusterStatus.ClusterRef status)))
       w l)
  = Registry.calls w ++
    ((fun status => unregisterCall classifier (MachingClusterStatus.ClusterRef status))
       <$> l).
Proof.
  revert w. induction l as [|st l IH]; intros w; cbn [foldl].
  - by rewrite app_nil_r.
  - rewrite IH. cbn [callRemoveAllRegistrations Registry.calls].
    by rewrite <- app_assoc.
Qed.

(** X7: reconcileDelete returns an error only when the key manager is
    unavailable, and then changes nothing. Otherwise it asks the key
    manager to drop the registrations of every recorded matching cluster,
    in order, removes the Classifier from ClassifierSet and
    AllClassifierSet, never touches ClusterMap and ClassifierMap, and
    answers either with a requeue after twenty seconds or with the empty
    result; the empty result comes with an empty Status.ClusterInfo and
    without the finalizer. *)
Theorem reconcileDelete_outcome (s : Pass.t K D) :
  (forall e, Registry.instanceError (Pass.registry s) = Some e ->
     reconcileDelete env s = (ctrlResult.zero, Some e, s)) ∧
  (Registry.instanceError (Pass.registry s) = None ->
   (reconcileDelete env s).1.2 = None ∧
   ((reconcileDelete env s).1.1 = ctrlResult.zero ∨
    (reconcileDelete env s).1.1 = ctrlResult.mk true 20) ∧
   Registry.calls (Pass.registry (reconcileDelete env s).2)
     = Registry.calls (Pass.registry s) ++
       ((fun status =>
           unregisterCall (Pass.classifier s) (MachingClusterStatus.ClusterRef status))
          <$> statusMachingClusterStatuses (Pass.classifier s)) ∧
   ClassifierReconciler.ClassifierSet (Pass.reconciler (reconcileDelete env s).2)
     = ClassifierReconciler.ClassifierSet (Pass.reconciler s)
       ∖ {[classifierPolicyRef (Classifier.Name (Pass.classifier s))]} ∧
   ClassifierReconciler.AllClassifierSet (Pass.reconciler (reconcileDelete env s).2)
     = ClassifierReconciler.AllClassifierSet (Pass.reconciler s)
       ∖ {[classifierPolicyRef (Classifier.Name (Pass.classifier s))]} ∧
   ClassifierReconciler.ClusterMap (Pass.reconciler (reconcileDelete env s).2)
     = ClassifierReconciler.ClusterMap (Pass.reconciler s) ∧
   ClassifierReconciler.ClassifierMap (Pass.reconciler (reconcileDelete env s).2)
     = ClassifierReconciler.ClassifierMap (Pass.reconciler s) ∧
   ((reconcileDelete env s).1.1 = ctrlResult.zero ->
    statusClusterInfo (Pass.classifier (reconcileDelete env s).2) = [] ∧
    ContainsFinalizer (Pass.classifier (reconcileDelete env s).2) ClassifierFinalizer
      = false)).
Proof.
  destruct s as [r reg q classifier].
  cbn [Pass.queue Pass.classifier Pass.registry Pass.reconciler].
  unfold reconcileDelete, removeAllRegistrations, GetKeyManagerInstance.
  cbn [Pass.queue Pass.classifier Pass.registry Pass.reconciler].
  destruct (Registry.instanceError reg) as [e|] eqn:Hreg.
  { split; [by intros e' [= <-]|done]. }
  split; [done|]. intros _.
  pose proof (removeAll_loop classifier (statusMachingClusterStatuses classifier) reg)
    as Hcalls.
  set (reg' := foldl _ reg _) in *.
  destruct (undeployClassifier env classifier (Environment.getHandlersForFeature env) q)
    as [[classifier' err] q'] eqn:Hun.
  assert (Hnil : err = None -> classifier' = SetClusterInfo classifier []).
  { intros ->. unfold undeployClassifier in Hun.
    destruct (clustersToClean env (statusClusterInfo classifier) []) as [clusters|e];
      [|done].
    destruct (foldl _ _ clusters) as [clusterInfo q1].
    destruct clusterInfo; cbn [length Nat.eqb negb] in Hun; by simplify_eq. }
  destruct err as [e|].
  { cbn [fst snd Pass.registry Pass.reconciler Pass.classifier].
    split_and!; try done. by right. }
  rewrite (Hnil eq_refl).
  destruct (Environment.removeClassifierReports env (SetClusterInfo classifier [])).
  { cbn [fst snd Pass.registry Pass.reconciler Pass.classifier].
    split_and!; try done. by right. }
  destruct (if decide (ClassifierReconciler.ClassifierReportMode _
                       = CollectFromManagementCluster)
            then Environment.removeAccessRequest env else None).
  { cbn [fst snd Pass.registry Pass.reconciler Pass.classifier].
    split_and!; try done. by right. }
  cbn [fst snd Pass.registry Pass.reconciler Pass.classifier].
  split_and!; try done; [by left|]. intros _.
  destruct (ContainsFinalizer (SetClusterInfo classifier []) ClassifierFinalizer)
    eqn:Hfin.
  - split; [done|]. apply ContainsFinalizer_RemoveFinalizer.
  - done.
Qed.
End TeardownProperties.

(** ** Managed and unmanaged labels, and the conflict set *)

Section LabelProperties.
Context {K : Type} `{KeyManager K}.
Variable rangeOrder : RangeSite -> gset ObjectReference.t -> list ObjectReference.t.

Lemma classifyLabels_fold (k : K) (classifier : Classifier.t) (cluster : ObjectReference.t)
  (labels : list ClassifierLabel.t) (managed : list string)
  (unManaged : list UnManagedLabel.t) :
  foldl
    (fun '(managed, unManaged) label =>
       if CanManageLabel k classifier
            (ObjectReference.Namespace cluster)
            (ObjectReference.Name cluster) (ClassifierLabel.Key label)
       then (managed ++ [ClassifierLabel.Key label], unManaged)
       else
         let failureMessage :=
           match GetManagerForKey k
                   (ObjectReference.Namespace cluster)
                   (ObjectReference.Name cluster)
                   (ClassifierLabel.Key label) with
           | Ok currentManager =>
               Some ("classifier " +:+ currentManager +:+ " currently manage this")
           | Err _ => None
           end in
         (managed,
          unManaged ++ [UnManagedLabel.mk (ClassifierLabel.Key label) failureMessage]))
    (managed, unManaged) labels
  = (managed ++
       filter (fun key => CanManageLabel k classifier
                            (ObjectReference.Namespace cluster)
                            (ObjectReference.Name cluster) key = true)
         (ClassifierLabel.Key <$> labels),
     unManaged ++
       ((fun key =>
           UnManagedLabel.mk key
             match GetManagerForKey k
                     (ObjectReference.Namespace cluster)
                     (ObjectReference.Name cluster) key with
             | Ok currentManager =>
                 Some ("classifier " +:+ currentManager +:+ " currently manage this")
             | Err _ => None
             end)
          <$> filter (fun key => CanManageLabel k classifier
                                   (ObjectReference.Namespace cluster)
                                   (ObjectReference.Name cluster) key ≠ true)
                (ClassifierLabel.Key <$> labels))).
Proof.
  revert managed unManaged.
  induction labels as [|label labels IH]; intros managed unManaged; cbn [foldl].
  - by rewrite !app_nil_r.
  - rewrite fmap_cons.
    destruct (CanManageLabel k classifier _ _ (ClassifierLabel.Key label)) eqn:Hcan.
    + rewrite IH, filter_cons_True by done.
      rewrite filter_cons_False by (intros Hn; by apply Hn).
      by rewrite <- app_assoc.
    + rewrite IH, filter_cons_False by (rewrite Hcan; done).
      rewrite filter_cons_True by (rewrite Hcan; done).
      by rewrite fmap_cons, <- app_assoc.
Qed.

(** X8: classifyLabels fails only when the key manager is unavailable.
    Otherwise it splits the label keys of the Classifier, in their order,
    into those the key manager lets this Classifier manage on the cluster
    and the others; no key is lost or duplicated, and an unmanaged key
    carries the message naming the current manager exactly when the key
    manager knows one. *)
Theorem classifyLabels_partition
  (w : Registry.t K) (classifier : Classifier.t) (cluster : ObjectReference.t) :
  (forall e, Registry.instanceError w = Some e ->
     classifyLabels w classifier cluster = Err e) ∧
  (Registry.instanceError w = None ->
   exists managed unManaged,
     classifyLabels w classifier cluster = Ok (managed, unManaged) ∧
     managed
       = filter (fun key => CanManageLabel (Registry.manager w) classifier
                              (ObjectReference.Namespace cluster)
                              (ObjectReference.Name cluster) key = true)
           (ClassifierLabel.Key <$> Classifier.ClassifierLabels classifier) ∧
     UnManagedLabel.Key <$> unManaged
       = filter (fun key => CanManageLabel (Registry.manager w) classifier
                              (ObjectReference.Namespace cluster)
                              (ObjectReference.Name cluster) key ≠ true)
           (ClassifierLabel.Key <$> Classifier.ClassifierLabels classifier) ∧
     length managed + length unManaged
       = length (Classifier.ClassifierLabels classifier) ∧
     Forall (fun u =>
               UnManagedLabel.FailureMessage u
               = match GetManagerForKey (Registry.manager w)
                         (ObjectReference.Namespace cluster)
                         (ObjectReference.Name cluster) (UnManagedLabel.Key u) with
                 | Ok currentManager =>
                     Some ("classifier " +:+ currentManager +:+ " currently manage this")
                 | Err _ => None
                 end)
       unManaged).
Proof.
  unfold classifyLabels, GetKeyManagerInstance. split.
  - by intros e ->.
  - intros ->. rewrite classifyLabels_fold. cbn [app]. eexists _, _.
    split; [reflexivity|]. split; [done|]. split; [|split].
    + rewrite <- list_fmap_compose. by rewrite list_fmap_id.
    + rewrite length_fmap.
      rewrite <- (length_fmap ClassifierLabel.Key (Classifier.ClassifierLabels classifier)).
      generalize (ClassifierLabel.Key <$> Classifier.ClassifierLabels classifier) as keys.
      induction keys as [|key keys IH]; [done|].
      destruct (CanManageLabel (Registry.manager w) classifier
                  (ObjectReference.Namespace cluster)
                  (ObjectReference.Name cluster) key) eqn:Hcan.
      * rewrite filter_cons_True by done.
        rewrite (filter_cons_False (fun key => _ ≠ true))
          by (intros Hn; by apply Hn).
        cbn [length]. lia.
      * rewrite filter_cons_False by (rewrite Hcan; done).
        rewrite (filter_cons_True (fun key => _ ≠ true)) by (rewrite Hcan; done).
        cbn [length]. lia.
    + apply Forall_fmap, Forall_forall. intros key _. done.
Qed.

Lemma filter_nil_Forall {A : Type} (P : A -> Prop) `{!forall x, Decision (P x)}
  (l : list A) :
  filter P l = [] ↔ Forall (fun x => ¬ P x) l.
Proof.
  induction l as [|a l IH]; [by rewrite filter_nil|].
  destruct (decide (P a)) as [Hp|Hn].
  - rewrite filter_cons_True by done. split; [done|]. by inversion 1.
  - rewrite filter_cons_False, IH by done. split; [by constructor | by inversion 1].
Qed.

Lemma classifyClusters_count (w : Registry.t K) (classifier : Classifier.t)
  (clusters : list ObjectReference.t) (i u : nat) (st : list MachingClusterStatus.t) :
  Registry.instanceError w = None ->
  exists u' st',
    classifyClusters w classifier clusters i u st = Ok (u', st') ∧
    (u' ≠ 0 ↔
     u ≠ 0 ∨
     exists c label,
       c ∈ clusters ∧ label ∈ Classifier.ClassifierLabels classifier ∧
       CanManageLabel (Registry.manager w) classifier
         (ObjectReference.Namespace c) (ObjectReference.Name c)
         (ClassifierLabel.Key label) = false).
Proof.
  intros Hw. revert u st.
  induction clusters as [|c clusters IH]; intros u st; cbn [classifyClusters].
  - eexists _, _. split; [reflexivity|]. split; [by left|].
    intros [Hu|(c & label & Hc & _)]; [done|]. by apply elem_of_nil in Hc.
  - unfold classifyLabels, GetKeyManagerInstance. rewrite Hw, classifyLabels_fold.
    cbn [app].
    match goal with
    | |- context [<[i := MachingClusterStatus.mk c (Some ?m) (Some ?um)]> st] =>
        set (managed := m); set (unManaged := um)
    end.
    assert (Hkeys : UnManagedLabel.Key <$> unManaged
      = filter (fun key => CanManageLabel (Registry.manager w) classifier
                             (ObjectReference.Namespace c)
                             (ObjectReference.Name c) key ≠ true)
          (ClassifierLabel.Key <$> Classifier.ClassifierLabels classifier)).
    { unfold unManaged. rewrite <- list_fmap_compose. by rewrite list_fmap_id. }
    clearbody managed unManaged.
    destruct (IH (u + length unManaged)
                 (<[i := MachingClusterStatus.mk c (Some managed) (Some unManaged)]> st))
      as (u' & st' & -> & Hu).
    eexists _, _. split; [reflexivity|]. rewrite Hu.
    assert (Hlen : length unManaged ≠ 0 ↔
      exists label, label ∈ Classifier.ClassifierLabels classifier ∧
        CanManageLabel (Registry.manager w) classifier
          (ObjectReference.Namespace c) (ObjectReference.Name c)
          (ClassifierLabel.Key label) = false).
    { rewrite <- (length_fmap UnManagedLabel.Key), Hkeys. split.
      - destruct (filter _ _) as [|key keys] eqn:Hf; [done|]. intros _.
        assert (Hin : key ∈ filter
                  (fun key => CanManageLabel (Registry.manager w) classifier
                                (ObjectReference.Namespace c)
                                (ObjectReference.Name c) key ≠ true)
                  (ClassifierLabel.Key <$> Classifier.ClassifierLabels classifier))
          by (rewrite Hf; left).
        apply list_elem_of_filter in Hin as [Hcan Hin].
        apply list_elem_of_fmap in Hin as (label & -> & Hl).
        exists label. split; [done|]. by apply not_true_is_false.
      - intros (label & Hl & Hcan) Hz. apply length_zero_iff_nil in Hz.
        apply (filter_nil_not_elem_of _ _ (ClassifierLabel.Key label)) in Hz.
        + apply Hz. apply list_elem_of_fmap. eauto.
        + by rewrite Hcan. }
    split.
    + intros [Hne|(c' & label & Hc' & Hl & Hcan)].
      * destruct (decide (u = 0)) as [->|Hu0]; [|by left].
        right. destruct (proj1 Hlen) as (label & Hl & Hcan); [lia|].
        exists c, label. split; [left|done].
      * right. exists c', label. split; [by right|done].
    + intros [Hne|(c' & label & [->|Hc']%elem_of_cons & Hl & Hcan)].
      * left. lia.
      * left. assert (length unManaged ≠ 0) by (apply Hlen; eauto). lia.
      * right. eauto.
Qed.

(** X9: with the reports listed and the key manager available,
    updateMatchingClustersAndRegistrations cannot fail. It records the
    Classifier in AllClassifierSet, and in ClassifierSet exactly when, after
    the registrations of this pass, some matching cluster has a label of
    the Classifier that the key manager does not let it manage. Other
    Classifiers' membership and the two index maps are left alone. *)
Theorem conflict_set_tracks_unmanaged
  (r : ClassifierReconciler.t) (w : Registry.t K) (classifier : Classifier.t)
  (items : list ClassifierReport.t) :
  (forall site s, rangeOrder site s ≡ₚ elements s) ->
  Registry.instanceError w = None ->
  exists r' w' classifier',
    updateMatchingClustersAndRegistrations rangeOrder r w classifier (Ok items)
      = (r', w', classifier', None) ∧
    ClassifierReconciler.AllClassifierSet r'
      = {[classifierPolicyRef (Classifier.Name classifier)]}
        ∪ ClassifierReconciler.AllClassifierSet r ∧
    (classifierPolicyRef (Classifier.Name classifier)
       ∈ ClassifierReconciler.ClassifierSet r'
     ↔ exists c label,
         c ∈ currentMatching items ∧
         label ∈ Classifier.ClassifierLabels classifier ∧
         CanManageLabel (Registry.manager w') classifier
           (ObjectReference.Namespace c) (ObjectReference.Name c)
           (ClassifierLabel.Key label) = false) ∧
    (forall Q, Q ≠ classifierPolicyRef (Classifier.Name classifier) ->
       Q ∈ ClassifierReconciler.ClassifierSet r'
       ↔ Q ∈ ClassifierReconciler.ClassifierSet r) ∧
    ClassifierReconciler.ClusterMap r' = ClassifierReconciler.ClusterMap r ∧
    ClassifierReconciler.ClassifierMap r' = ClassifierReconciler.ClassifierMap r.
Proof.
  intros Hperm Hw.
  destruct (handleLabelRegistrations_calls rangeOrder w classifier
              (currentMatching items) (oldMatching classifier) Hw)
    as (w1 & Hh & Hw1 & _).
  destruct (classifyClusters_count w1 classifier
              (rangeOrder RangeClassify (currentMatching items)) 0 0
              (replicate (size (currentMatching items)) MachingClusterStatus.zero) Hw1)
    as (u & st & Hloop & Hu).
  unfold updateMatchingClustersAndRegistrations. rewrite Hh, Hloop.
  eexists _, w1, _. split; [reflexivity|].
  unfold updateClassifierSet, Insert, Erase.
  cbn [ClassifierReconciler.withSets ClassifierReconciler.AllClassifierSet
       ClassifierReconciler.ClassifierSet ClassifierReconciler.ClusterMap
       ClassifierReconciler.ClassifierMap].
  split; [done|]. split; [|split; [|done]].
  - assert (Hconf : u ≠ 0 ↔
      exists c label,
        c ∈ currentMatching items ∧
        label ∈ Classifier.ClassifierLabels classifier ∧
        CanManageLabel (Registry.manager w1) classifier
          (ObjectReference.Namespace c) (ObjectReference.Name c)
          (ClassifierLabel.Key label) = false).
    { rewrite Hu. setoid_rewrite Hperm. setoid_rewrite elem_of_elements.
      split; [by intros [?|?] | by right]. }
    rewrite <- Hconf. destruct u as [|u]; cbn [Nat.eqb negb].
    + set_solver.
    + split; [done|]. intros _. set_solver.
  - intros Q HQ. destruct (negb (Nat.eqb u 0)); set_solver.
Qed.
End LabelProperties.

(** ** updateMaps on an arbitrary index *)

Lemma updateMaps_classifiersOf r classifier Q C :
  Q ∈ classifiersOf (updateMaps r classifier) C
  ↔ (Q ∈ classifiersOf r C ∨
     (Q = classifierPolicyRef (Classifier.Name classifier) ∧
      exists e, e ∈ statusClusterInfo classifier ∧
                C = clusterPolicyRef (ClusterInfo.Cluster e))) ∧
    ¬ (Q = classifierPolicyRef (Classifier.Name classifier) ∧
       C ∈ clustersOf r (classifierPolicyRef (Classifier.Name classifier)) ∧
       ¬ exists e, e ∈ statusClusterInfo classifier ∧
                   C = clusterPolicyRef (ClusterInfo.Cluster e)).
Proof.
  unfold updateMaps.
  set (x := classifierPolicyRef (Classifier.Name classifier)).
  set (current := foldl (fun s ci => Insert s (clusterPolicyRef (ClusterInfo.Cluster ci)))
                    ∅ (statusClusterInfo classifier)).
  assert (Hcl : forall r' m C',
    classifiersOf (ClassifierReconciler.withClassifierMap r' m) C' = classifiersOf r' C')
    by done.
  rewrite Hcl, eraseConsumers_classifiersOf, insertConsumers_classifiersOf.
  rewrite <- currentClusters_elem. fold current.
  assert (Hrem : C ∈ match ClassifierReconciler.ClassifierMap r !! x with
                     | Some v => Difference v current
                     | None => []
                     end ↔ C ∈ clustersOf r x ∧ C ∉ current).
  { unfold clustersOf, Difference.
    destruct (ClassifierReconciler.ClassifierMap r !! x) as [v|]; simpl.
    - rewrite elem_of_elements. set_solver.
    - split; [by intros Hc%elem_of_nil | set_solver]. }
  rewrite Hrem. done.
Qed.

(** X10: whatever the index held before, updateMaps for a Classifier
    changes nothing that is recorded for any other Classifier and leaves
    the two Classifier sets alone; afterwards the Classifier is recorded
    under every cluster of its Status.ClusterInfo; and running it a second
    time with the same status changes nothing. *)
Theorem updateMaps_frame_idempotent
  (r : ClassifierReconciler.t) (classifier : Classifier.t) :
  (forall Q C, Q ≠ classifierPolicyRef (Classifier.Name classifier) ->
     (Q ∈ classifiersOf (updateMaps r classifier) C ↔ Q ∈ classifiersOf r C) ∧
     clustersOf (updateMaps r classifier) Q = clustersOf r Q) ∧
  ClassifierReconciler.ClassifierSet (updateMaps r classifier)
    = ClassifierReconciler.ClassifierSet r ∧
  ClassifierReconciler.AllClassifierSet (updateMaps r classifier)
    = ClassifierReconciler.AllClassifierSet r ∧
  (forall e, e ∈ statusClusterInfo classifier ->
     classifierPolicyRef (Classifier.Name classifier)
       ∈ classifiersOf (updateMaps r classifier)
           (clusterPolicyRef (ClusterInfo.Cluster e))) ∧
  (forall Q C,
     (Q ∈ classifiersOf (updateMaps (updateMaps r classifier) classifier) C
      ↔ Q ∈ classifiersOf (updateMaps r classifier) C) ∧
     clustersOf (updateMaps (updateMaps r classifier) classifier) Q
       = clustersOf (updateMaps r classifier) Q).
Proof.
  assert (Hsets : forall r0,
    ClassifierReconciler.ClassifierSet (updateMaps r0 classifier)
      = ClassifierReconciler.ClassifierSet r0 ∧
    ClassifierReconciler.AllClassifierSet (updateMaps r0 classifier)
      = ClassifierReconciler.AllClassifierSet r0).
  { intros r0. unfold updateMaps.
    cbn [ClassifierReconciler.withClassifierMap ClassifierReconciler.ClassifierSet
         ClassifierReconciler.AllClassifierSet].
    generalize (match ClassifierReconciler.ClassifierMap r0
                        !! classifierPolicyRef (Classifier.Name classifier) with
                | Some v =>
                    Difference v
                      (foldl (fun s ci =>
                                Insert s (clusterPolicyRef (ClusterInfo.Cluster ci)))
                         ∅ (statusClusterInfo classifier))
                | None => []
                end) as removed.
    intros removed.
    assert (Hstep : forall op r1 entry x,
      ClassifierReconciler.ClassifierSet (modifyClusterMapEntry op r1 entry x)
        = ClassifierReconciler.ClassifierSet r1 ∧
      ClassifierReconciler.AllClassifierSet (modifyClusterMapEntry op r1 entry x)
        = ClassifierReconciler.AllClassifierSet r1).
    { intros op r1 entry x. unfold modifyClusterMapEntry, getClusterMapForEntry.
      by destruct (ClassifierReconciler.ClusterMap r1 !! entry). }
    assert (Hins : forall l r1,
      ClassifierReconciler.ClassifierSet
        (foldl (fun r ci =>
                  modifyClusterMapEntry Insert r
                    (clusterPolicyRef (ClusterInfo.Cluster ci))
                    (classifierPolicyRef (Classifier.Name classifier))) r1 l)
        = ClassifierReconciler.ClassifierSet r1 ∧
      ClassifierReconciler.AllClassifierSet
        (foldl (fun r ci =>
                  modifyClusterMapEntry Insert r
                    (clusterPolicyRef (ClusterInfo.Cluster ci))
                    (classifierPolicyRef (Classifier.Name classifier))) r1 l)
        = ClassifierReconciler.AllClassifierSet r1).
    { induction l as [|e l IH]; intros r1; cbn [foldl]; [done|].
      destruct (IH (modifyClusterMapEntry Insert r1
                      (clusterPolicyRef (ClusterInfo.Cluster e))
                      (classifierPolicyRef (Classifier.Name classifier)))) as [-> ->].
      apply Hstep. }
    revert r0 Hins. induction removed as [|c removed IH]; intros r0 Hins; cbn [foldl].
    - apply Hins.
    - specialize (Hins (statusClusterInfo classifier) r0).
      revert Hins.
      generalize (foldl (fun r ci =>
                    modifyClusterMapEntry Insert r
                      (clusterPolicyRef (ClusterInfo.Cluster ci))
                      (classifierPolicyRef (Classifier.Name classifier))) r0
                    (statusClusterInfo classifier)) as r1.
      intros r1 [<- <-].
      clear IH. revert r1 c.
      induction removed as [|c' removed IH]; intros r1 c; cbn [foldl].
      + apply Hstep.
      + destruct (IH (modifyClusterMapEntry Erase r1 c
                        (classifierPolicyRef (Classifier.Name classifier))) c')
          as [-> ->].
        apply Hstep. }
  split; [|split; [apply Hsets | split; [apply Hsets|split]]].
  - intros Q C HQ. split.
    + rewrite updateMaps_classifiersOf. naive_solver.
    + rewrite updateMaps_clustersOf. by rewrite decide_False.
  - intros e He. apply updateMaps_classifiersOf. split.
    + right. eauto.
    + intros (_ & _ & Hn). apply Hn. eauto.
  - intros Q C. split.
    + rewrite (updateMaps_classifiersOf (updateMaps r classifier)).
      rewrite (updateMaps_clustersOf r classifier), decide_True by done.
      rewrite currentClusters_elem.
      rewrite (updateMaps_classifiersOf r). naive_solver.
    + rewrite !updateMaps_clustersOf. by destruct (decide _).
Qed.

(** ** Labels on the matching clusters *)

Section ClusterLabelProperties.
Context {K : Type} `{KeyManager K} {M : Type} `{ManagementClient M}.

Lemma setLabels_fold (k : K) (classifier : Classifier.t) (meta : Cluster.t)
  (labels : list ClassifierLabel.t) (cluster : ClusterObject.t) :
  ClusterObject.Meta cluster = meta ->
  ClusterObject.Meta
    (foldl (fun cluster label =>
              if CanManageLabel k classifier
                   (Cluster.Namespace (ClusterObject.Meta cluster))
                   (Cluster.Name (ClusterObject.Meta cluster))
                   (ClassifierLabel.Key label)
              then setLabel cluster (ClassifierLabel.Key label)
                     (ClassifierLabel.Value label)
              else cluster)
       cluster labels) = meta ∧
  (forall key,
     default ∅
       (ClusterObject.Labels
          (foldl (fun cluster label =>
                    if CanManageLabel k classifier
                         (Cluster.Namespace (ClusterObject.Meta cluster))
                         (Cluster.Name (ClusterObject.Meta cluster))
                         (ClassifierLabel.Key label)
                    then setLabel cluster (ClassifierLabel.Key label)
                           (ClassifierLabel.Value label)
                    else cluster)
             cluster labels)) !! key
     = match last (filter (fun label =>
                             ClassifierLabel.Key label = key ∧
                             CanManageLabel k classifier (Cluster.Namespace meta)
                               (Cluster.Name meta) (ClassifierLabel.Key label) = true)
                     labels) with
       | Some label => Some (ClassifierLabel.Value label)
       | None => default ∅ (ClusterObject.Labels cluster) !! key
       end) ∧
  (ClusterObject.Labels
     (foldl (fun cluster label =>
               if CanManageLabel k classifier
                    (Cluster.Namespace (ClusterObject.Meta cluster))
                    (Cluster.Name (ClusterObject.Meta cluster))
                    (ClassifierLabel.Key label)
               then setLabel cluster (ClassifierLabel.Key label)
                      (ClassifierLabel.Value label)
               else cluster)
        cluster labels) = None
   ↔ ClusterObject.Labels cluster = None ∧
     Forall (fun label =>
               CanManageLabel k classifier (Cluster.Namespace meta)
                 (Cluster.Name meta) (ClassifierLabel.Key label) = false) labels).
Proof.
  revert cluster. induction labels as [|label labels IH]; intros cluster Hmeta; cbn [foldl].
  - split; [done|]. split; [done|]. split; [done|by intros [? _]].
  - rewrite Hmeta.
    destruct (CanManageLabel k classifier (Cluster.Namespace meta) (Cluster.Name meta)
                (ClassifierLabel.Key label)) eqn:Hcan.
    + destruct (IH (setLabel cluster (ClassifierLabel.Key label)
                      (ClassifierLabel.Value label))) as (Hm & Hl & Hn); [done|].
      split; [done|]. split.
      * intros key. rewrite Hl. cbn [setLabel ClusterObject.Labels default from_option id].
        destruct (decide (ClassifierLabel.Key label = key)) as [Hk|Hk].
        -- rewrite filter_cons_True by done. rewrite last_cons.
           destruct (last (filter _ labels)); [done|].
           by rewrite Hk, lookup_insert_eq.
        -- rewrite filter_cons_False by (by intros [? _]).
           destruct (last (filter _ labels)); [done|].
           by rewrite lookup_insert_ne.
      * rewrite Hn. cbn [setLabel ClusterObject.Labels]. split; [by intros [? _]|].
        intros [_ Hall]. inversion Hall; simplify_eq. congruence.
    + destruct (IH cluster Hmeta) as (Hm & Hl & Hn).
      split; [done|]. split.
      * intros key. rewrite Hl.
        rewrite filter_cons_False; [done|]. intros [_ Hc]. congruence.
      * rewrite Hn. split.
        -- intros [? ?]. split; [done|]. by constructor.
        -- intros [? Hall]. split; [done|]. by inversion Hall.
Qed.

(** X11: updateLabelsOnCluster fails without touching the cluster when
    the key manager is unavailable. Otherwise it issues exactly one
    Update, for the cluster it was given with these labels: a key takes
    the value of the last label of the Classifier with that key that the
    key manager lets it manage, every other key keeps its value, so no
    label is ever removed; and its outcome is that of the Update. *)
Theorem updateLabelsOnCluster_labels
  (w : Registry.t K) (classifier : Classifier.t) (cluster : ClusterObject.t)
  (h : Hub.t M) :
  (forall e, Registry.instanceError w = Some e ->
     updateLabelsOnCluster w classifier cluster h = (Some e, h)) ∧
  (Registry.instanceError w = None ->
   exists updated,
     updateLabelsOnCluster w classifier cluster h
       = ((UpdateCluster (Hub.client h) updated).1,
          Hub.mk (UpdateCluster (Hub.client h) updated).2
            (Hub.calls h ++ [CallUpdateCluster updated])) ∧
     ClusterObject.Meta updated = ClusterObject.Meta cluster ∧
     (forall key,
        default ∅ (ClusterObject.Labels updated) !! key
        = match last (filter (fun label =>
                                ClassifierLabel.Key label = key ∧
                                CanManageLabel (Registry.manager w) classifier
                                  (Cluster.Namespace (ClusterObject.Meta cluster))
                                  (Cluster.Name (ClusterObject.Meta cluster))
                                  (ClassifierLabel.Key label) = true)
                        (Classifier.ClassifierLabels classifier)) with
          | Some label => Some (ClassifierLabel.Value label)
          | None => default ∅ (ClusterObject.Labels cluster) !! key
          end) ∧
     (forall key value,
        default ∅ (ClusterObject.Labels cluster) !! key = Some value ->
        is_Some (default ∅ (ClusterObject.Labels updated) !! key))).
Proof.
  unfold updateLabelsOnCluster, GetKeyManagerInstance. split.
  - by intros e ->.
  - intros ->.
    destruct (setLabels_fold (Registry.manager w) classifier (ClusterObject.Meta cluster)
                (Classifier.ClassifierLabels classifier) cluster eq_refl)
      as (Hm & Hl & _).
    eexists. split; [|split; [exact Hm|split; [exact Hl|]]].
    + by destruct (UpdateCluster _ _).
    + intros key value Hold. rewrite Hl, Hold. by destruct (last _).
Qed.

Lemma updateLabelsOnCluster_calls
  (w : Registry.t K) (classifier : Classifier.t) (cluster : ClusterObject.t)
  (h : Hub.t M) :
  ((updateLabelsOnCluster w classifier cluster h).1 ≠ None ∧
   Hub.calls (updateLabelsOnCluster w classifier cluster h).2 = Hub.calls h) ∨
  (exists updated,
     Hub.calls (updateLabelsOnCluster w classifier cluster h).2
       = Hub.calls h ++ [CallUpdateCluster updated]).
Proof.
  unfold updateLabelsOnCluster, GetKeyManagerInstance.
  destruct (Registry.instanceError w); [by left|].
  right. destruct (UpdateCluster _ _). eexists. reflexivity.
Qed.

Lemma updateLabelsLoop_trace
  (w : Registry.t K) (classifier : Classifier.t)
  (statuses : list MachingClusterStatus.t) (h : Hub.t M) :
  exists new k,
    Hub.calls (updateLabelsLoop w classifier statuses h).2 = Hub.calls h ++ new ∧
    k <= length statuses ∧
    clusterGets new
      = (fun status => refKey (MachingClusterStatus.ClusterRef status))
          <$> take k statuses ∧
    Forall (fun call => isClusterCall call = true) new ∧
    ((updateLabelsLoop w classifier statuses h).1 = None ->
     k = length statuses ∧
     length (filter (fun call => isClusterUpdate call = true) new) = k) ∧
    ((updateLabelsLoop w classifier statuses h).1 ≠ None ->
     0 < k ∧
     k - 1 <= length (filter (fun call => isClusterUpdate call = true) new) <= k).
Proof.
  revert h. induction statuses as [|status statuses IH]; intros h;
    cbn [updateLabelsLoop].
  - exists [], 0. rewrite app_nil_r. cbn. split_and!; done.
  - destruct (GetCluster _ _ _) as [cluster|e].
    2:{ exists [CallGetCluster
                  (ObjectReference.Namespace (MachingClusterStatus.ClusterRef status))
                  (ObjectReference.Name (MachingClusterStatus.ClusterRef status))], 1.
        cbn. split_and!; try done; try lia; try (by repeat constructor);
          try (intros _; rewrite decide_False by done; cbn; lia). }
    set (h1 := Hub.mk (Hub.client h) (Hub.calls h ++ [_])).
    pose proof (updateLabelsOnCluster_calls w classifier cluster h1) as Hstep.
    destruct (updateLabelsOnCluster w classifier cluster h1) as [[e|] h2];
      cbn [fst snd] in Hstep.
    + assert (Hnew : exists tail,
        Hub.calls h2 = Hub.calls h1 ++ tail ∧
        Forall (fun call => isClusterCall call = true) tail ∧
        clusterGets tail = [] ∧
        length (filter (fun call => isClusterUpdate call = true) tail) <= 1).
      { destruct Hstep as [[_ ->]|[updated ->]].
        - exists []. rewrite app_nil_r. cbn. split_and!; try done. lia.
        - exists [CallUpdateCluster updated]. cbn. split_and!; try done.
          by repeat constructor. }
      destruct Hnew as (tail & Hc & Hall & Hg & Hu).
      eexists (_ :: tail), 1. cbn [fst snd]. rewrite Hc. unfold h1.
      cbn [Hub.calls]. rewrite <- app_assoc. cbn [app].
      split; [reflexivity|]. split; [cbn; lia|]. split; [|split; [|split]].
      * unfold clusterGets in *. cbn [omap list_omap take fmap list_fmap]. by rewrite Hg.
      * by constructor.
      * done.
      * intros _. split; [lia|]. rewrite filter_cons_False by done. lia.
    + destruct Hstep as [[Hne _]|[updated Hc]]; [done|].
      destruct (IH h2) as (new & k & Hcalls & Hk & Hgets & Hall & Hok & Herr).
      eexists (_ :: CallUpdateCluster updated :: new), (S k).
      rewrite Hcalls, Hc. unfold h1. cbn [Hub.calls]. rewrite <- !app_assoc.
      cbn [app]. split; [reflexivity|]. split; [cbn; lia|]. split; [|split; [|split]].
      * unfold clusterGets in *. cbn [omap list_omap take fmap list_fmap]. by rewrite Hgets.
      * by repeat constructor.
      * intros Hnone. destruct (Hok Hnone) as [-> Hu]. split; [done|].
        rewrite filter_cons_False by done. rewrite filter_cons_True by done.
        cbn [length]. by rewrite Hu.
      * intros Hsome. destruct (Herr Hsome) as [Hpos Hu]. split; [lia|].
        rewrite filter_cons_False by done. rewrite filter_cons_True by done.
        cbn [length]. lia.
Qed.

(** X12: updateLabelsOnMatchingClusters walks Status.MachingClusterStatuses
    in order and stops at the first failure. The clusters it asks the
    management cluster for are those of a prefix of the list; it makes no
    calls other than Get and Update of clusters; when it succeeds it has
    asked for every entry and updated once per entry; when it fails the
    last entry asked for is the failing one and nothing after it is
    touched. *)
Theorem updateLabelsOnMatchingClusters_stops_at_first_error
  (w : Registry.t K) (classifier : Classifier.t) (h : Hub.t M) :
  exists new k,
    Hub.calls (updateLabelsOnMatchingClusters w classifier h).2 = Hub.calls h ++ new ∧
    k <= length (statusMachingClusterStatuses classifier) ∧
    clusterGets new
      = (fun status => refKey (MachingClusterStatus.ClusterRef status))
          <$> take k (statusMachingClusterStatuses classifier) ∧
    Forall (fun call => isClusterCall call = true) new ∧
    ((updateLabelsOnMatchingClusters w classifier h).1 = None ->
     k = length (statusMachingClusterStatuses classifier) ∧
     length (filter (fun call => isClusterUpdate call = true) new) = k) ∧
    ((updateLabelsOnMatchingClusters w classifier h).1 ≠ None ->
     0 < k ∧
     k - 1 <= length (filter (fun call => isClusterUpdate call = true) new) <= k).
Proof. apply updateLabelsLoop_trace. Qed.
End ClusterLabelProperties.

(** ** Reconcile and reconcileNormal *)

Section ReconcileProperties.
Context {K : Type} `{KeyManager K} {D : Type} `{DeployerInterface D}
        {M : Type} `{ManagementClient M}.
Variable rangeOrder : RangeSite -> gset ObjectReference.t -> list ObjectReference.t.
Variable env : Environment.t.

Lemma sameObject_refl (c : Classifier.t) : sameObject c c.
Proof. by repeat split. Qed.

Lemma sameObject_trans (c1 c2 c3 : Classifier.t) :
  sameObject c1 c2 -> sameObject c2 c3 -> sameObject c1 c3.
Proof. unfold sameObject. intros (?&?&?&?&?) (?&?&?&?&?). split_and!; congruence. Qed.

Lemma updateMatching_frame
  (r : ClassifierReconciler.t) (w : Registry.t K) (classifier : Classifier.t)
  (listed : GoResult (list ClassifierReport.t)) :
  sameObject classifier
    (updateMatchingClustersAndRegistrations rangeOrder r w classifier listed).1.2 ∧
  statusClusterInfo
    (updateMatchingClustersAndRegistrations rangeOrder r w classifier listed).1.2
    = statusClusterInfo classifier ∧
  ClassifierReconciler.ClusterMap
    (updateMatchingClustersAndRegistrations rangeOrder r w classifier listed).1.1.1
    = ClassifierReconciler.ClusterMap r ∧
  ClassifierReconciler.ClassifierMap
    (updateMatchingClustersAndRegistrations rangeOrder r w classifier listed).1.1.1
    = ClassifierReconciler.ClassifierMap r.
Proof.
  unfold updateMatchingClustersAndRegistrations.
  destruct listed as [items|e]; [|by repeat split].
  destruct (handleLabelRegistrations _ _ _ _ _) as [w1 [e|]]; [by repeat split|].
  destruct (classifyClusters _ _ _ _ _ _) as [[u st]|e]; by repeat split.
Qed.

Lemma updateClusterInfo_frame (listed : GoResult (list Cluster.t))
  (classifier : Classifier.t) :
  sameObject classifier (updateClusterInfo listed classifier).1 ∧
  ((updateClusterInfo listed classifier).2 ≠ None ->
   (updateClusterInfo listed classifier).1 = classifier).
Proof.
  unfold updateClusterInfo.
  destruct (getListOfClusters listed); by repeat split.
Qed.

Lemma deployClassifier_frame
  (r : ClassifierReconciler.t) (classifier : Classifier.t) (f : feature.t)
  (q : Queue.t D) :
  sameObject classifier (deployClassifier env r classifier f q).1.1 ∧
  sublist
    (ClusterInfo.Cluster <$> statusClusterInfo (deployClassifier env r classifier f q).1.1)
    (ClusterInfo.Cluster <$> statusClusterInfo classifier) ∧
  ((deployClassifier env r classifier f q).1.2 = None ->
   Forall (fun e => ClusterInfo.Status e = ClassifierStatusProvisioned)
     (statusClusterInfo (deployClassifier env r classifier f q).1.1)).
Proof.
  unfold deployClassifier.
  destruct (deployLoop_trace env r classifier f (statusClusterInfo classifier)
              None true [] q)
    as (es & ad & added & new & q' & Hloop & Hcalls & Hsub & Hh & Hp & Hes & Had).
  rewrite Hloop. cbn [app].
  destruct es as [e|]; [by repeat split|].
  destruct ad; [|by repeat split].
  split; [by repeat split|]. split; [done|]. intros _. by apply Had.
Qed.

Lemma AddFinalizer_spec (c : Classifier.t) (finalizer : string) :
  ContainsFinalizer (AddFinalizer c finalizer) finalizer = true ∧
  Classifier.Name (AddFinalizer c finalizer) = Classifier.Name c ∧
  Classifier.Status (AddFinalizer c finalizer) = Classifier.Status c ∧
  Classifier.DeletionTimestamp (AddFinalizer c finalizer) = Classifier.DeletionTimestamp c ∧
  (forall f, f ∈ Classifier.Finalizers c -> f ∈ Classifier.Finalizers (AddFinalizer c finalizer)).
Proof.
  unfold AddFinalizer, ContainsFinalizer.
  destruct (bool_decide (finalizer ∈ Classifier.Finalizers c)) eqn:Hin.
  - rewrite Hin. by repeat split.
  - cbn [Classifier.Finalizers Classifier.Name Classifier.Status
         Classifier.DeletionTimestamp].
    split_and!; try done.
    + apply bool_decide_eq_true. apply elem_of_app. right. by left.
    + intros f Hf. apply elem_of_app. by left.
Qed.

Lemma reconcileNormal_cases (s : Pass.t K D) (h : Hub.t M) :
  ContainsFinalizer (Pass.classifier (reconcileNormal rangeOrder env s h).1.2)
    ClassifierFinalizer = true ∧
  Classifier.Name (Pass.classifier (reconcileNormal rangeOrder env s h).1.2)
    = Classifier.Name (Pass.classifier s) ∧
  ((reconcileNormal rangeOrder env s h).1.1.2 ≠ None ->
   (reconcileNormal rangeOrder env s h).1.1.1 = ctrlResult.zero ∧
   Pass.queue (reconcileNormal rangeOrder env s h).1.2 = Pass.queue s ∧
   statusClusterInfo (Pass.classifier (reconcileNormal rangeOrder env s h).1.2)
     = statusClusterInfo (Pass.classifier s) ∧
   ClassifierReconciler.ClusterMap
     (Pass.reconciler (reconcileNormal rangeOrder env s h).1.2)
     = ClassifierReconciler.ClusterMap (Pass.reconciler s) ∧
   ClassifierReconciler.ClassifierMap
     (Pass.reconciler (reconcileNormal rangeOrder env s h).1.2)
     = ClassifierReconciler.ClassifierMap (Pass.reconciler s)) ∧
  ((reconcileNormal rangeOrder env s h).1.1.2 = None ->
   ((reconcileNormal rangeOrder env s h).1.1.1 = ctrlResult.zero ∨
    (reconcileNormal rangeOrder env s h).1.1.1 = ctrlResult.mk true 20) ∧
   (forall e,
      e ∈ statusClusterInfo (Pass.classifier (reconcileNormal rangeOrder env s h).1.2) ->
      clusterPolicyRef (ClusterInfo.Cluster e)
        ∈ clustersOf (Pass.reconciler (reconcileNormal rangeOrder env s h).1.2)
            (classifierPolicyRef (Classifier.Name (Pass.classifier s)))) ∧
   ((reconcileNormal rangeOrder env s h).1.1.1 = ctrlResult.zero ->
    Forall (fun e => ClusterInfo.Status e = ClassifierStatusProvisioned)
      (statusClusterInfo
         (Pass.classifier (reconcileNormal rangeOrder env s h).1.2)))).
Proof.
  destruct s as [r w q classifier].
  cbn [Pass.queue Pass.classifier Pass.registry Pass.reconciler].
  unfold reconcileNormal.
  cbn [Pass.queue Pass.classifier Pass.registry Pass.reconciler].
  assert (Hstart : exists c0 err0 h0,
    (if negb (ContainsFinalizer classifier ClassifierFinalizer)
     then addFinalizer h classifier else (classifier, None, h)) = (c0, err0, h0) ∧
    ContainsFinalizer c0 ClassifierFinalizer = true ∧
    Classifier.Name c0 = Classifier.Name classifier ∧
    Classifier.Status c0 = Classifier.Status classifier).
  { destruct (ContainsFinalizer classifier ClassifierFinalizer) eqn:Hfin; cbn [negb].
    - eexists _, _, _. split; [reflexivity|]. done.
    - unfold addFinalizer.
      destruct (AddFinalizer_spec classifier ClassifierFinalizer) as (Hc & Hn & Hs & _).
      destruct (PatchObject _ _) as [[e|] m]; eexists _, _, _;
        (split; [reflexivity|]); done. }
  destruct Hstart as (c0 & err0 & h0 & -> & Hfin0 & Hname0 & Hstatus0).
  assert (Hkeep : forall c', sameObject c0 c' ->
    ContainsFinalizer c' ClassifierFinalizer = true ∧
    Classifier.Name c' = Classifier.Name classifier).
  { intros c' (Hn & _ & Hf & _). unfold ContainsFinalizer in *.
    rewrite Hf, Hn. done. }
  assert (Hinfo0 : statusClusterInfo c0 = statusClusterInfo classifier)
    by (unfold statusClusterInfo; by rewrite Hstatus0).
  destruct err0 as [e0|].
  { cbn [fst snd Pass.queue Pass.classifier Pass.registry Pass.reconciler].
    split; [done|]. split; [done|]. split; [|done].
    intros _. split_and!; try done; congruence. }
  destruct (updateMatching_frame r w c0
              (ListClassifierReports (Hub.client h0) (Classifier.Name c0)))
    as (Hsame1 & Hinfo1 & Hcm1 & Hclm1).
  destruct (updateMatchingClustersAndRegistrations rangeOrder r w c0 _)
    as [[[r1 w1] c1] err1].
  cbn [fst snd] in Hsame1, Hinfo1, Hcm1, Hclm1.
  destruct (Hkeep c1 Hsame1) as [Hfin1 Hname1].
  destruct err1 as [e1|].
  { cbn [fst snd Pass.queue Pass.classifier Pass.registry Pass.reconciler].
    split; [done|]. split; [done|]. split; [|done].
    intros _. split_and!; try done; congruence. }
  destruct (updateLabelsOnMatchingClusters w1 c1 _) as [[e2|] h2].
  { cbn [fst snd Pass.queue Pass.classifier Pass.registry Pass.reconciler].
    split; [done|]. split; [done|]. split; [|done].
    intros _. split_and!; try done; congruence. }
  destruct (updateClusterInfo_frame (ListClusters (Hub.client h2)) c1)
    as (Hsame3 & Herr3).
  destruct (updateClusterInfo (ListClusters (Hub.client h2)) c1) as [c3 err3].
  cbn [fst snd] in Hsame3, Herr3.
  destruct (Hkeep c3 (sameObject_trans _ _ _ Hsame1 Hsame3)) as [Hfin3 Hname3].
  destruct err3 as [e3|].
  { cbn [fst snd Pass.queue Pass.classifier Pass.registry Pass.reconciler].
    rewrite (Herr3 ltac:(done)).
    split; [done|]. split; [done|]. split; [|done].
    intros _. split_and!; try done; congruence. }
  destruct (deployClassifier_frame (updateMaps r1 c3) c3
              (Environment.getHandlersForFeature env) q) as (Hsame4 & Hsub4 & Hok4).
  destruct (deployClassifier env (updateMaps r1 c3) c3 _ q) as [[c4 err4] q4].
  cbn [fst snd] in Hsame4, Hsub4, Hok4.
  destruct (Hkeep c4 (sameObject_trans _ _ _
                        (sameObject_trans _ _ _ Hsame1 Hsame3) Hsame4))
    as [Hfin4 Hname4].
  assert (Hindex : forall e, e ∈ statusClusterInfo c4 ->
    clusterPolicyRef (ClusterInfo.Cluster e)
      ∈ clustersOf (updateMaps r1 c3) (classifierPolicyRef (Classifier.Name classifier))).
  { intros e He. rewrite updateMaps_clustersOf, Hname3, decide_True by done.
    apply currentClusters_elem.
    assert (Hin : ClusterInfo.Cluster e ∈ ClusterInfo.Cluster <$> statusClusterInfo c3).
    { eapply elem_of_sublist; [|exact Hsub4]. apply list_elem_of_fmap. eauto. }
    apply list_elem_of_fmap in Hin as (e3 & Heq & He3). exists e3. by rewrite Heq. }
  destruct err4 as [e4|];
    cbn [fst snd Pass.queue Pass.classifier Pass.registry Pass.reconciler].
  - split; [done|]. split; [done|]. split; [done|].
    intros _. split; [by right|]. split; [done|]. done.
  - split; [done|]. split; [done|]. split; [done|].
    intros _. split; [by left|]. split; [done|]. intros _. by apply Hok4.
Qed.

(** X13: what a pass of reconcileNormal can end in. The Classifier it
    leaves in memory always carries the finalizer. When it returns an
    error, the result is empty and neither the deployer queue, nor
    Status.ClusterInfo, nor the two index maps have been touched. When it
    returns no error, the result is empty or a requeue after twenty
    seconds, every cluster left in Status.ClusterInfo is recorded for the
    Classifier in the index, and an empty result means that every entry
    is Provisioned. *)
Theorem reconcileNormal_outcome (s : Pass.t K D) (h : Hub.t M) :
  ContainsFinalizer (Pass.classifier (reconcileNormal rangeOrder env s h).1.2)
    ClassifierFinalizer = true ∧
  Classifier.Name (Pass.classifier (reconcileNormal rangeOrder env s h).1.2)
    = Classifier.Name (Pass.classifier s) ∧
  ((reconcileNormal rangeOrder env s h).1.1.2 ≠ None ->
   (reconcileNormal rangeOrder env s h).1.1.1 = ctrlResult.zero ∧
   Pass.queue (reconcileNormal rangeOrder env s h).1.2 = Pass.queue s ∧
   statusClusterInfo (Pass.classifier (reconcileNormal rangeOrder env s h).1.2)
     = statusClusterInfo (Pass.classifier s) ∧
   ClassifierReconciler.ClusterMap
     (Pass.reconciler (reconcileNormal rangeOrder env s h).1.2)
     = ClassifierReconciler.ClusterMap (Pass.reconciler s) ∧
   ClassifierReconciler.ClassifierMap
     (Pass.reconciler (reconcileNormal rangeOrder env s h).1.2)
     = ClassifierReconciler.ClassifierMap (Pass.reconciler s)) ∧
  ((reconcileNormal rangeOrder env s h).1.1.2 = None ->
   ((reconcileNormal rangeOrder env s h).1.1.1 = ctrlResult.zero ∨
    (reconcileNormal rangeOrder env s h).1.1.1 = ctrlResult.mk true 20) ∧
   (forall e,
      e ∈ statusClusterInfo (Pass.classifier (reconcileNormal rangeOrder env s h).1.2) ->
      clusterPolicyRef (ClusterInfo.Cluster e)
        ∈ clustersOf (Pass.reconciler (reconcileNormal rangeOrder env s h).1.2)
            (classifierPolicyRef (Classifier.Name (Pass.classifier s)))) ∧
   ((reconcileNormal rangeOrder env s h).1.1.1 = ctrlResult.zero ->
    Forall (fun e => ClusterInfo.Status e = ClassifierStatusProvisioned)
      (statusClusterInfo
         (Pass.classifier (reconcileNormal rangeOrder env s h).1.2)))).
Proof. apply reconcileNormal_cases. Qed.


(** *** Which requests a pass can dispatch *)

Lemma processClassifier_dispatch
  (r : ClassifierReconciler.t) (classifier : Classifier.t) (cpEndpoint : string)
  (cluster : ObjectReference.t) (f : feature.t) (q : Queue.t D) :
  exists new,
    Queue.calls (processClassifier env r classifier cpEndpoint cluster f q).2
      = Queue.calls q ++ new ∧
    Forall (fun call => isDispatch call = isDeployRequest call) new.
Proof.
  unfold processClassifier.
  destruct (getCurrentHash env r classifier cpEndpoint cluster f) as [h|e].
  2:{ exists []. by rewrite app_nil_r. }
  destruct (canProceed env classifier cluster) as [[|]|e].
  2,3: exists []; by rewrite app_nil_r.
  unfold callIsInProgress.
  destruct (IsInProgress _ _ _ _ _ _ _).
  { eexists [_]. split; [reflexivity|]. by repeat constructor. }
  destruct (getClassifierInClusterHashAndStatus classifier cluster)
    as [hash currentStatus].
  destruct (DeepEqual hash h); cbn [andb].
  - unfold callGetResult. cbn [Queue.deployer Queue.calls].
    destruct (GetResult _ _ _ _ _ _ _) as [[st e] d1].
    destruct st; cbn [convertResultStatus Result.Status Result.Err].
    1-4: simpl; rewrite <- app_assoc; eexists; split; [reflexivity|];
         by repeat constructor.
    destruct (bool_decide (currentStatus = Some ClassifierStatusProvisioned)).
    + simpl; rewrite <- app_assoc; eexists; split; [reflexivity|];
        by repeat constructor.
    + dispatchCases r; simpl; rewrite <- !app_assoc; (eexists; split; [reflexivity|]);
        repeat constructor.
  - dispatchCases r; simpl; rewrite <- !app_assoc; (eexists; split; [reflexivity|]);
      repeat constructor.
Qed.

Lemma deployClassifier_dispatch
  (r : ClassifierReconciler.t) (classifier : Classifier.t) (f : feature.t)
  (q : Queue.t D) :
  exists new,
    Queue.calls (deployClassifier env r classifier f q).2 = Queue.calls q ++ new ∧
    Forall (fun call => isDispatch call = isDeployRequest call) new.
Proof.
  unfold deployClassifier.
  assert (Hloop : forall l es ad ci q0,
    exists new,
      Queue.calls
        (foldl (deployStep env r classifier f) (es, ad, ci, q0) l).2
        = Queue.calls q0 ++ new ∧
      Forall (fun call => isDispatch call = isDeployRequest call) new).
  { induction l as [|c l IH]; intros es ad ci q0; cbn [foldl].
    - exists []. by rewrite app_nil_r.
    - unfold deployStep at 2.
      destruct (processClassifier_dispatch r classifier
                  (ClassifierReconciler.ControlPlaneEndpoint r)
                  (ClusterInfo.Cluster c) f q0) as (new1 & Hc1 & Hn1).
      destruct (processClassifier env r classifier _ _ f q0) as [[cInfo err] q1].
      cbn [snd] in Hc1.
      destruct cInfo as [info|];
        match goal with
        | |- context [foldl _ (?a, ?b, ?c0, q1) l] =>
            destruct (IH a b c0 q1) as (new2 & Hc2 & Hn2)
        end;
        exists (new1 ++ new2); rewrite Hc2, Hc1, app_assoc;
        (split; [done|]); by apply Forall_app. }
  destruct (Hloop (statusClusterInfo classifier) None true [] q) as (new & Hc & Hn).
  destruct (foldl _ _ _) as [[[es ad] ci] q'].
  exists new. split; [|done]. cbn [snd] in Hc.
  destruct es; [done|]. by destruct ad.
Qed.

Lemma removeClassifier_dispatch
  (classifier : Classifier.t) (c : ObjectReference.t) (f : feature.t) (q : Queue.t D) :
  exists new,
    Queue.calls (removeClassifier env classifier c f q).2 = Queue.calls q ++ new ∧
    Forall (fun call => isDispatch call = isUndeployRequest call) new.
Proof.
  unfold removeClassifier.
  destruct (isPaused env c classifier) as [[|]|e].
  1,3: exists []; by rewrite app_nil_r.
  unfold callIsInProgress.
  destruct (IsInProgress _ _ _ _ _ _ _).
  { eexists [_]. split; [reflexivity|]. by repeat constructor. }
  unfold callGetResult. cbn [Queue.deployer Queue.calls].
  destruct (GetResult _ _ _ _ _ _ _) as [[st e] d1].
  unfold convertResultStatus. cbn [Result.Status].
  destruct st; unfold callDeploy; cbn [Queue.deployer Queue.calls];
    try (destruct (Deploy _ _ _ _ _ _ _ _ _ _) as [[?|] ?]);
    cbn [fst snd Queue.calls]; rewrite <- ?app_assoc; cbn [app];
    (eexists; split; [reflexivity|]); by repeat constructor.
Qed.

Lemma undeployClassifier_dispatch
  (classifier : Classifier.t) (f : feature.t) (q : Queue.t D) :
  exists new,
    Queue.calls (undeployClassifier env classifier f q).2 = Queue.calls q ++ new ∧
    Forall (fun call => isDispatch call = isUndeployRequest call) new.
Proof.
  unfold undeployClassifier.
  destruct (clustersToClean env (statusClusterInfo classifier) []) as [clusters|e].
  2:{ exists []. by rewrite app_nil_r. }
  assert (Hloop : forall l ci q0,
    exists new,
      Queue.calls (foldl (undeployStep env classifier f) (ci, q0) l).2
        = Queue.calls q0 ++ new ∧
      Forall (fun call => isDispatch call = isUndeployRequest call) new).
  { induction l as [|c l IH]; intros ci q0; cbn [foldl].
    - exists []. by rewrite app_nil_r.
    - unfold undeployStep at 2.
      destruct (removeClassifier_dispatch classifier c f q0) as (new1 & Hc1 & Hn1).
      destruct (removeClassifier env classifier c f q0) as [err q1].
      cbn [snd] in Hc1.
      destruct err as [e|];
        match goal with
        | |- context [foldl _ (?c0, q1) l] =>
            destruct (IH c0 q1) as (new2 & Hc2 & Hn2)
        end;
        exists (new1 ++ new2); rewrite Hc2, Hc1, app_assoc;
        (split; [done|]); by apply Forall_app. }
  destruct (Hloop clusters [] q) as (new & Hc & Hn).
  destruct (foldl _ _ _) as [ci q'].
  exists new. split; [|done]. cbn [snd] in Hc.
  by destruct (negb (Nat.eqb (length ci) 0)).
Qed.

Lemma undeployClassifier_sameObject
  (classifier : Classifier.t) (f : feature.t) (q : Queue.t D) :
  sameObject classifier (undeployClassifier env classifier f q).1.1.
Proof.
  unfold undeployClassifier.
  destruct (clustersToClean env (statusClusterInfo classifier) []) as [clusters|e];
    [|apply sameObject_refl].
  destruct (foldl _ _ clusters) as [ci q'].
  destruct (negb (Nat.eqb (length ci) 0)); by repeat split.
Qed.

Lemma reconcileDelete_cases (s : Pass.t K D) :
  Classifier.Name (Pass.classifier (reconcileDelete env s).2)
    = Classifier.Name (Pass.classifier s) ∧
  ((reconcileDelete env s).1.1 = ctrlResult.zero ∨
   (reconcileDelete env s).1.1 = ctrlResult.mk true 20) ∧
  (forall f, f ∈ Classifier.Finalizers (Pass.classifier (reconcileDelete env s).2) ->
     f ∈ Classifier.Finalizers (Pass.classifier s)) ∧
  exists new,
    Queue.calls (Pass.queue (reconcileDelete env s).2)
      = Queue.calls (Pass.queue s) ++ new ∧
    Forall (fun call => isDispatch call = isUndeployRequest call) new.
Proof.
  destruct s as [r reg q classifier].
  cbn [Pass.queue Pass.classifier Pass.registry Pass.reconciler].
  unfold reconcileDelete.
  cbn [Pass.queue Pass.classifier Pass.registry Pass.reconciler].
  destruct (removeAllRegistrations reg classifier) as [reg' [e|]].
  { cbn [fst snd Pass.queue Pass.classifier]. split_and!; try done; [by left|].
    exists []. by rewrite app_nil_r. }
  destruct (undeployClassifier_sameObject classifier
              (Environment.getHandlersForFeature env) q) as (Hn & _ & Hf & _).
  destruct (undeployClassifier_dispatch classifier
              (Environment.getHandlersForFeature env) q) as (new & Hc & Hd).
  destruct (undeployClassifier env classifier _ q) as [[c1 err] q1].
  cbn [fst snd] in Hn, Hf, Hc.
  assert (Hrem : forall f,
    f ∈ Classifier.Finalizers
          (if ContainsFinalizer c1 ClassifierFinalizer
           then RemoveFinalizer c1 ClassifierFinalizer else c1) ->
    f ∈ Classifier.Finalizers classifier).
  { intros f. destruct (ContainsFinalizer c1 ClassifierFinalizer); rewrite <- Hf; [|done].
    unfold RemoveFinalizer. cbn [Classifier.Finalizers].
    by intros [_ ?]%list_elem_of_filter. }
  assert (Hrn : Classifier.Name
                  (if ContainsFinalizer c1 ClassifierFinalizer
                   then RemoveFinalizer c1 ClassifierFinalizer else c1)
                = Classifier.Name classifier).
  { by destruct (ContainsFinalizer c1 ClassifierFinalizer). }
  destruct err as [e|].
  { cbn [fst snd Pass.queue Pass.classifier]. split_and!; try done; [by right| |eauto].
    intros f. by rewrite Hf. }
  destruct (Environment.removeClassifierReports env c1).
  { cbn [fst snd Pass.queue Pass.classifier]. split_and!; try done; [by right| |eauto].
    intros f. by rewrite Hf. }
  destruct (if decide (ClassifierReconciler.ClassifierReportMode _
                       = CollectFromManagementCluster)
            then Environment.removeAccessRequest env else None).
  { cbn [fst snd Pass.queue Pass.classifier]. split_and!; try done; [by right| |eauto].
    intros f. by rewrite Hf. }
  cbn [fst snd Pass.queue Pass.classifier]. split_and!; try done; [by left|eauto].
Qed.

Lemma reconcileNormal_dispatch (s : Pass.t K D) (h : Hub.t M) :
  exists new,
    Queue.calls (Pass.queue (reconcileNormal rangeOrder env s h).1.2)
      = Queue.calls (Pass.queue s) ++ new ∧
    Forall (fun call => isDispatch call = isDeployRequest call) new.
Proof.
  destruct s as [r w q classifier].
  cbn [Pass.queue Pass.classifier Pass.registry Pass.reconciler].
  unfold reconcileNormal.
  cbn [Pass.queue Pass.classifier Pass.registry Pass.reconciler].
  assert (Hnil : exists new : list DeployerCall,
    Queue.calls q = Queue.calls q ++ new ∧
    Forall (fun call => isDispatch call = isDeployRequest call) new).
  { exists []. by rewrite app_nil_r. }
  destruct (if negb (ContainsFinalizer classifier ClassifierFinalizer)
            then addFinalizer h classifier else (classifier, None, h))
    as [[c0 [e0|]] h0]; [done|].
  destruct (updateMatchingClustersAndRegistrations rangeOrder r w c0 _)
    as [[[r1 w1] c1] [e1|]]; [done|].
  destruct (updateLabelsOnMatchingClusters w1 c1 _) as [[e2|] h2]; [done|].
  destruct (updateClusterInfo _ c1) as [c3 [e3|]]; [done|].
  destruct (deployClassifier_dispatch (updateMaps r1 c3) c3
              (Environment.getHandlersForFeature env) q) as (new & Hc & Hd).
  destruct (deployClassifier env (updateMaps r1 c3) c3 _ q) as [[c4 [e4|]] q4];
    cbn [fst snd Pass.queue] in *; eauto.
Qed.

(** X14: Reconcile. A Classifier that no longer exists ends the pass
    without error and without any effect. Any other failure to fetch it,
    or to set up its scope, is returned as an error, again without any
    effect. Otherwise the result is empty or a requeue after twenty
    seconds, the last call on the management cluster is the Close of the
    scope, made with the Classifier of that name, and the deployer is only
    ever asked to deploy when the Classifier has no deletion timestamp
    and only ever to undeploy when it has one. *)
Theorem Reconcile_outcome (namespace name : string)
  (r : ClassifierReconciler.t) (w : Registry.t K) (q : Queue.t D) (h : Hub.t M) :
  (forall e, GetClassifier (Hub.client h) namespace name = Err e ->
     Reconcile rangeOrder env namespace name r w q h
     = (ctrlResult.zero,
        (if IsNotFound e then None
         else Some (Wrapf e ("Failed to fetch Classifier " +:+
                             namespace +:+ "/" +:+ name))),
        (r, w, q),
        Hub.mk (Hub.client h) (Hub.calls h ++ [CallGetClassifier namespace name]))) ∧
  (forall classifier e,
     GetClassifier (Hub.client h) namespace name = Ok classifier ->
     NewClassifierScope (Hub.client h) classifier = Some e ->
     Reconcile rangeOrder env namespace name r w q h
     = (ctrlResult.zero,
        Some (Wrapf e ("unable to create classifier scope for " +:+
                       namespace +:+ "/" +:+ name)),
        (r, w, q),
        Hub.mk (Hub.client h) (Hub.calls h ++ [CallGetClassifier namespace name]))) ∧
  (forall classifier,
     GetClassifier (Hub.client h) namespace name = Ok classifier ->
     NewClassifierScope (Hub.client h) classifier = None ->
     ((Reconcile rangeOrder env namespace name r w q h).1.1.1 = ctrlResult.zero ∨
      (Reconcile rangeOrder env namespace name r w q h).1.1.1 = ctrlResult.mk true 20) ∧
     (exists before final,
        Hub.calls (Reconcile rangeOrder env namespace name r w q h).2
          = before ++ [CallClose final] ∧
        Classifier.Name final = Classifier.Name classifier) ∧
     (exists new,
        Queue.calls (Reconcile rangeOrder env namespace name r w q h).1.2.2
          = Queue.calls q ++ new ∧
        Forall (fun call =>
                  isDispatch call
                  = if IsZero (Classifier.DeletionTimestamp classifier)
                    then isDeployRequest call else isUndeployRequest call)
          new)).
Proof.
  unfold Reconcile. split; [|split].
  - intros e ->. by destruct (IsNotFound e).
  - intros classifier e -> Hscope. cbn [Hub.client]. rewrite Hscope. reflexivity.
  - intros classifier -> Hscope. cbn [Hub.client]. rewrite Hscope.
    destruct (IsZero (Classifier.DeletionTimestamp classifier)); cbn [negb].
    + destruct (reconcileNormal_cases
                  (Pass.mk r w q classifier)
                  (Hub.mk (Hub.client h)
                     (Hub.calls h ++ [CallGetClassifier namespace name])))
        as (_ & Hname & Herr & Hok).
      destruct (reconcileNormal_dispatch
                  (Pass.mk r w q classifier)
                  (Hub.mk (Hub.client h)
                     (Hub.calls h ++ [CallGetClassifier namespace name])))
        as (new & Hc & Hd).
      destruct (reconcileNormal rangeOrder env _ _) as [[[result reterr] s1] h1].
      cbn [fst snd Pass.classifier Pass.queue] in *.
      destruct (Close (Hub.client h1) (Pass.classifier s1)) as [cerr m].
      cbn [fst snd Hub.calls]. split; [|split; [eauto|eauto]].
      destruct reterr as [e|].
      * left. by apply Herr.
      * by apply Hok.
    + destruct (reconcileDelete_cases (Pass.mk r w q classifier))
        as (Hname & Hres & _ & new & Hc & Hd).
      destruct (reconcileDelete env (Pass.mk r w q classifier)) as [[result reterr] s1].
      cbn [fst snd Pass.classifier Pass.queue Hub.client] in *.
      destruct (Close (Hub.client h) (Pass.classifier s1)) as [cerr m].
      cbn [fst snd Hub.calls]. split; [done|]. split; [eauto|eauto].
Qed.

Lemma updateLabelsLoop_zero_entry
  (w : Registry.t K) (classifier : Classifier.t)
  (statuses : list MachingClusterStatus.t) (h : Hub.t M) :
  (forall m, exists e, GetCluster m "" "" = Err e) ->
  MachingClusterStatus.zero ∈ statuses ->
  (updateLabelsLoop w classifier statuses h).1 ≠ None.
Proof.
  intros Hempty. revert h.
  induction statuses as [|status statuses IH]; intros h Hin.
  { by apply elem_of_nil in Hin. }
  cbn [updateLabelsLoop].
  destruct (decide (status = MachingClusterStatus.zero)) as [->|Hne].
  - cbn [MachingClusterStatus.zero MachingClusterStatus.ClusterRef
         ObjectReference.zero ObjectReference.Namespace ObjectReference.Name].
    by destruct (Hempty (Hub.client h)) as [e ->].
  - apply elem_of_cons in Hin as [Heq|Hin]; [done|].
    destruct (GetCluster _ _ _) as [cluster|e]; [|done].
    destruct (updateLabelsOnCluster w classifier cluster _) as [[e|] h2]; [done|].
    by apply IH.
Qed.

(** X15: when the reports of two or more clusters match, the status list
    handed to updateLabelsOnMatchingClusters holds an entry without a
    cluster. If the management cluster refuses to look up a cluster with
    empty namespace and name, as an API server does, a pass of
    reconcileNormal on a Classifier that already carries the finalizer
    then ends with an error and an empty result, before any cluster is
    added to Status.ClusterInfo and before anything is asked of the
    deployer. *)
Theorem reconcileNormal_blocked_by_second_match
  (s : Pass.t K D) (h : Hub.t M) (items : list ClassifierReport.t) :
  ContainsFinalizer (Pass.classifier s) ClassifierFinalizer = true ->
  ListClassifierReports (Hub.client h) (Classifier.Name (Pass.classifier s)) = Ok items ->
  2 <= size (currentMatching items) ->
  (forall m, exists e, GetCluster m "" "" = Err e) ->
  (reconcileNormal rangeOrder env s h).1.1.2 ≠ None ∧
  (reconcileNormal rangeOrder env s h).1.1.1 = ctrlResult.zero ∧
  Pass.queue (reconcileNormal rangeOrder env s h).1.2 = Pass.queue s ∧
  statusClusterInfo (Pass.classifier (reconcileNormal rangeOrder env s h).1.2)
    = statusClusterInfo (Pass.classifier s).
Proof.
  intros Hfin Hlist Hsize Hempty.
  assert (Herr : (reconcileNormal rangeOrder env s h).1.1.2 ≠ None).
  { destruct s as [r w q classifier].
    cbn [Pass.queue Pass.classifier Pass.registry Pass.reconciler] in *.
    unfold reconcileNormal.
    cbn [Pass.queue Pass.classifier Pass.registry Pass.reconciler].
    rewrite Hfin. cbn [negb]. rewrite Hlist.
    destruct (updateMatchingClustersAndRegistrations rangeOrder r w classifier (Ok items))
      as [[[r1 w1] c1] [e1|]] eqn:Hrun; [done|].
    apply matching_statuses_only_first_filled in Hrun as [Hlen Hzero].
    assert (Hin : MachingClusterStatus.zero ∈ statusMachingClusterStatuses c1).
    { eapply list_elem_of_lookup_2. apply (Hzero 1); lia. }
    pose proof (updateLabelsLoop_zero_entry w1 c1 (statusMachingClusterStatuses c1)
                  (Hub.mk (Hub.client h)
                     (Hub.calls h ++ [CallListClassifierReports (Classifier.Name classifier)]))
                  Hempty Hin) as Hloop.
    unfold updateLabelsOnMatchingClusters.
    destruct (updateLabelsLoop w1 c1 _ _) as [[e2|] h2]; done. }
  split; [done|].
  destruct (reconcileNormal_cases s h) as (_ & _ & Hcase & _).
  destruct (Hcase Herr) as (Hres & Hq & Hinfo & _). done.
Qed.
End ReconcileProperties.

(** ** Pulling ClassifierReports into the management cluster *)

Section ReportPullProperties.
Context {C : Type} `{ReportClient C}.

Lemma updateClassifierReport_trace
  (m : Management.t C) (cluster : Cluster.t) (report : ClassifierReport.t) :
  exists new,
    Management.calls (updateClassifierReport m cluster report).2
      = Management.calls m ++ new ∧
    reportGets new
      = match ClassifierReport.Labels report ≫= (fun labels => labels !! ClassifierLabelName) with
        | Some classifierName =>
            [(Cluster.Namespace cluster,
              getClassifierReportName classifierName (Cluster.Name cluster))]
        | None => []
        end ∧
    length (reportWrites new) <= length (reportGets new) ∧
    (new = [] ∨ exists ns n tail, new = CallGet ns n :: tail ∧ reportGets tail = []) ∧
    Forall (fun written =>
              ClassifierReport.Spec written
                = withCluster (ClassifierReport.Spec report) cluster ∧
              hasLabel classifierReportClusterLabel
                (getClusterInfo (Cluster.Namespace cluster) (Cluster.Name cluster))
                written)
      (reportWrites new) ∧
    (forall written classifierName labels,
       CallCreate written ∈ new ->
       ClassifierReport.Labels report = Some labels ->
       labels !! ClassifierLabelName = Some classifierName ->
       ClassifierReport.Namespace written = Cluster.Namespace cluster ∧
       ClassifierReport.Name written
         = getClassifierReportName classifierName (Cluster.Name cluster) ∧
       hasLabel ClassifierLabelName classifierName written).
Proof.
  unfold updateClassifierReport.
  destruct (ClassifierReport.Labels report) as [labels|]; cbn [mbind option_bind].
  2:{ exists []. rewrite app_nil_r. cbn. split_and!; try done; try (by left);
        try (intros written ? ? Hc; by apply elem_of_nil in Hc). }
  destruct (labels !! ClassifierLabelName) as [classifierName|] eqn:Hname.
  2:{ exists []. rewrite app_nil_r. cbn. split_and!; try done; try (by left);
        try (intros written ? ? Hc; by apply elem_of_nil in Hc). }
  assert (Hlabel : forall base : gmap string string,
    hasLabel classifierReportClusterLabel
      (getClusterInfo (Cluster.Namespace cluster) (Cluster.Name cluster))
      (ClassifierReport.mk (Cluster.Namespace cluster)
         (getClassifierReportName classifierName (Cluster.Name cluster))
         (Some (<[classifierReportClusterLabel :=
                    getClusterInfo (Cluster.Namespace cluster) (Cluster.Name cluster)]>
                  base))
         (withCluster (ClassifierReport.Spec report) cluster))).
  { intros base. eexists. split; [reflexivity|]. apply lookup_insert_eq. }
  destruct (Get _ _ _) as [current|e].
  - destruct (Update _ _) as [err c]. cbn [snd Management.calls].
    rewrite <- app_assoc. eexists. split; [reflexivity|]. cbn.
    split_and!; try done.
    + right. by eexists _, _, _.
    + constructor; [|done]. split; [done|]. eexists. split; [reflexivity|].
      apply lookup_insert_eq.
    + intros written cn ls [Hc|[Hc|Hc]%elem_of_cons]%elem_of_cons; [done|done|].
      by apply elem_of_nil in Hc.
  - destruct (IsNotFound e).
    + destruct (Create _ _) as [err c]. cbn [snd Management.calls].
      rewrite <- app_assoc. eexists. split; [reflexivity|]. cbn.
      split_and!; try done.
      * right. by eexists _, _, _.
      * constructor; [|done]. split; [done|]. apply Hlabel.
      * intros written cn ls [Hc|[Hc|Hc]%elem_of_cons]%elem_of_cons;
          [done| |by apply elem_of_nil in Hc].
        intros Hls Hcn. simplify_eq. cbn. split_and!; try done.
        eexists. split; [reflexivity|]. rewrite lookup_insert_ne; [done|].
        by vm_compute.
    + cbn [snd Management.calls]. eexists. split; [reflexivity|]. cbn.
      split_and!; try done; try lia; [right; by eexists _, _, _|].
      intros written cn ls [Hc|Hc]%elem_of_cons; [done|by apply elem_of_nil in Hc].
Qed.

(** X16: updateClassifierReport on a pulled report. It asks the
    management cluster at most once, first, for the report named after
    the Classifier and the cluster in the cluster's namespace, and writes
    at most once after that. Whatever it writes carries the namespace and
    name of the cluster it was pulled from in its Spec, whatever the agent
    had put there, and the cluster label; a report it creates is named
    after the Classifier and the cluster and keeps the classifier-name
    label of the pulled report. *)
Theorem updateClassifierReport_writes
  (m : Management.t C) (cluster : Cluster.t) (report : ClassifierReport.t) :
  exists new,
    Management.calls (updateClassifierReport m cluster report).2
      = Management.calls m ++ new ∧
    reportGets new
      = match ClassifierReport.Labels report ≫= (fun labels => labels !! ClassifierLabelName) with
        | Some classifierName =>
            [(Cluster.Namespace cluster,
              getClassifierReportName classifierName (Cluster.Name cluster))]
        | None => []
        end ∧
    length (reportWrites new) <= length (reportGets new) ∧
    (new = [] ∨ exists ns n tail, new = CallGet ns n :: tail ∧ reportGets tail = []) ∧
    Forall (fun written =>
              ClassifierReport.Spec written
                = withCluster (ClassifierReport.Spec report) cluster ∧
              hasLabel classifierReportClusterLabel
                (getClusterInfo (Cluster.Namespace cluster) (Cluster.Name cluster))
                written)
      (reportWrites new) ∧
    (forall written classifierName labels,
       CallCreate written ∈ new ->
       ClassifierReport.Labels report = Some labels ->
       labels !! ClassifierLabelName = Some classifierName ->
       ClassifierReport.Namespace written = Cluster.Namespace cluster ∧
       ClassifierReport.Name written
         = getClassifierReportName classifierName (Cluster.Name cluster) ∧
       hasLabel ClassifierLabelName classifierName written).
Proof. apply updateClassifierReport_trace. Qed.

Section Collect.
Variable env : Environment.t.
Variable remote : RemoteAccess.t.

Lemma collectLoop_trace (cluster : Cluster.t) (items : list ClassifierReport.t)
  (m : Management.t C) :
  exists new,
    Management.calls
      (foldl (fun m cr => (updateClassifierReport m cluster cr).2) m items)
      = Management.calls m ++ new ∧
    reportGets new
      = omap (fun cr =>
                classifierName ← ClassifierReport.Labels cr
                                   ≫= (fun labels => labels !! ClassifierLabelName);
                Some (Cluster.Namespace cluster,
                      getClassifierReportName classifierName (Cluster.Name cluster)))
          items ∧
    length (reportWrites new) <= length (reportGets new) ∧
    Forall (fun written =>
              ClassifierReportSpec.ClusterNamespace (ClassifierReport.Spec written)
                = Cluster.Namespace cluster ∧
              ClassifierReportSpec.ClusterName (ClassifierReport.Spec written)
                = Cluster.Name cluster ∧
              hasLabel classifierReportClusterLabel
                (getClusterInfo (Cluster.Namespace cluster) (Cluster.Name cluster))
                written)
      (reportWrites new).
Proof.
  revert m. induction items as [|cr items IH]; intros m; cbn [foldl].
  - exists []. rewrite app_nil_r. by cbn.
  - destruct (updateClassifierReport_trace m cluster cr)
      as (new1 & Hc1 & Hg1 & Hl1 & _ & Hw1 & _).
    destruct (IH (updateClassifierReport m cluster cr).2) as (new2 & Hc2 & Hg2 & Hl2 & Hw2).
    exists (new1 ++ new2). rewrite Hc2, Hc1, app_assoc. split; [done|].
    unfold reportGets, reportWrites in *. rewrite !omap_app, !length_app.
    split; [|split; [lia|]].
    + rewrite Hg1, Hg2. cbn [omap list_omap].
      by destruct (ClassifierReport.Labels cr ≫= _).
    + apply Forall_app. split; [|done].
      eapply Forall_impl; [exact Hw1|]. intros written [-> Hlabel]. done.
Qed.

(** X17: collectClassifierReportsFromCluster. A cluster that is not
    ready is skipped without error and without any call. Once the reports
    of a ready cluster have been listed the function returns no error,
    whatever happens to the single reports: every listed report that
    carries the classifier-name label is looked up in the management
    cluster, in the order of the list, malformed ones are passed over, and
    everything written carries the cluster's namespace, name and
    label. *)
Theorem collectClassifierReportsFromCluster_isolates_failures
  (m : Management.t C) (cluster : Cluster.t) :
  (Environment.IsClusterReadyToBeConfigured env
     (ObjectReference.mk "" (Cluster.Namespace cluster) (Cluster.Name cluster) "")
     = Ok false ->
   collectClassifierReportsFromCluster env remote m cluster = (None, m)) ∧
  (forall items,
     Environment.IsClusterReadyToBeConfigured env
       (ObjectReference.mk "" (Cluster.Namespace cluster) (Cluster.Name cluster) "")
       = Ok true ->
     RemoteAccess.InitScheme remote = None ->
     RemoteAccess.GetKubernetesClient remote
       (Cluster.Namespace cluster) (Cluster.Name cluster) = None ->
     RemoteAccess.ListClassifierReports remote
       (Cluster.Namespace cluster) (Cluster.Name cluster) = Ok items ->
     (collectClassifierReportsFromCluster env remote m cluster).1 = None ∧
     exists new,
       Management.calls (collectClassifierReportsFromCluster env remote m cluster).2
         = Management.calls m ++ new ∧
       reportGets new
         = omap (fun cr =>
                   classifierName ← ClassifierReport.Labels cr
                                      ≫= (fun labels => labels !! ClassifierLabelName);
                   Some (Cluster.Namespace cluster,
                         getClassifierReportName classifierName (Cluster.Name cluster)))
             items ∧
       length (reportWrites new) <= length (reportGets new) ∧
       Forall (fun written =>
                 ClassifierReportSpec.ClusterNamespace (ClassifierReport.Spec written)
                   = Cluster.Namespace cluster ∧
                 ClassifierReportSpec.ClusterName (ClassifierReport.Spec written)
                   = Cluster.Name cluster ∧
                 hasLabel classifierReportClusterLabel
                   (getClusterInfo (Cluster.Namespace cluster) (Cluster.Name cluster))
                   written)
         (reportWrites new)).
Proof.
  unfold collectClassifierReportsFromCluster. split.
  - by intros ->.
  - intros items -> -> -> ->. cbn [fst snd]. split; [done|].
    apply collectLoop_trace.
Qed.
End Collect.
End ReportPullProperties.

(** ** Removing ClassifierReports *)

Section ReportRemovalProperties.
Context {C : Type} `{ReportRemover C}.

Lemma deleteReports_trace (s : Sweep.t C) (items : list ClassifierReport.t) :
  exists k,
    k <= length items ∧
    Sweep.calls (deleteReports s items).2
      = Sweep.calls s ++ (CallDeleteReport <$> take k items) ∧
    ((deleteReports s items).1 = None -> k = length items) ∧
    ((deleteReports s items).1 ≠ None -> 0 < k).
Proof.
  revert s. induction items as [|cr items IH]; intros s; cbn [deleteReports].
  - exists 0. rewrite app_nil_r. by cbn.
  - destruct (DeleteReport (Sweep.client s) cr) as [[e|] c].
    + exists 1. cbn. split_and!; try done; lia.
    + destruct (IH (Sweep.mk c (Sweep.calls s ++ [CallDeleteReport cr])))
        as (k & Hk & Hc & Hok & Herr).
      exists (S k). rewrite Hc. cbn [Sweep.calls take fmap list_fmap length].
      rewrite <- app_assoc. split_and!; try done; try lia.
      intros Hnone. by rewrite (Hok Hnone).
Qed.

(** X18: removeClassifierReports and removeClusterClassifierReports list
    the reports carrying the classifier-name label of the Classifier,
    respectively the cluster label of the cluster, and then delete what
    was listed, in order, one Delete per report, stopping at the first
    Delete that fails: a failed listing deletes nothing, success means
    every listed report was deleted, and after a failure no later report
    is touched. *)
Theorem removeClassifierReports_stops_at_first_error
  (s : Sweep.t C) (classifier : Classifier.t) (clusterNamespace clusterName : string) :
  (forall e,
     ListReports (Sweep.client s) ClassifierLabelName (Classifier.Name classifier)
       = Err e ->
     removeClassifierReports s classifier
     = (Some e,
        Sweep.mk (Sweep.client s)
          (Sweep.calls s ++
             [CallListReports ClassifierLabelName (Classifier.Name classifier)]))) ∧
  (forall items,
     ListReports (Sweep.client s) ClassifierLabelName (Classifier.Name classifier)
       = Ok items ->
     exists k,
       k <= length items ∧
       Sweep.calls (removeClassifierReports s classifier).2
         = Sweep.calls s ++
           CallListReports ClassifierLabelName (Classifier.Name classifier)
           :: (CallDeleteReport <$> take k items) ∧
       ((removeClassifierReports s classifier).1 = None -> k = length items) ∧
       ((removeClassifierReports s classifier).1 ≠ None -> 0 < k)) ∧
  (forall e,
     ListReports (Sweep.client s) classifierReportClusterLabel
       (getClusterInfo clusterNamespace clusterName) = Err e ->
     removeClusterClassifierReports s clusterNamespace clusterName
     = (Some e,
        Sweep.mk (Sweep.client s)
          (Sweep.calls s ++
             [CallListReports classifierReportClusterLabel
                (getClusterInfo clusterNamespace clusterName)]))) ∧
  (forall items,
     ListReports (Sweep.client s) classifierReportClusterLabel
       (getClusterInfo clusterNamespace clusterName) = Ok items ->
     exists k,
       k <= length items ∧
       Sweep.calls (removeClusterClassifierReports s clusterNamespace clusterName).2
         = Sweep.calls s ++
           CallListReports classifierReportClusterLabel
             (getClusterInfo clusterNamespace clusterName)
           :: (CallDeleteReport <$> take k items) ∧
       ((removeClusterClassifierReports s clusterNamespace clusterName).1 = None ->
        k = length items) ∧
       ((removeClusterClassifierReports s clusterNamespace clusterName).1 ≠ None ->
        0 < k)).
Proof.
  unfold removeClassifierReports, removeClusterClassifierReports. split_and!.
  - by intros e ->.
  - intros items ->.
    destruct (deleteReports_trace
                (Sweep.mk (Sweep.client s)
                   (Sweep.calls s ++
                      [CallListReports ClassifierLabelName (Classifier.Name classifier)]))
                items) as (k & Hk & Hc & Hok & Herr).
    exists k. rewrite Hc. cbn [Sweep.calls]. rewrite <- app_assoc. done.
  - by intros e ->.
  - intros items ->.
    destruct (deleteReports_trace
                (Sweep.mk (Sweep.client s)
                   (Sweep.calls s ++
                      [CallListReports classifierReportClusterLabel
                         (getClusterInfo clusterNamespace clusterName)]))
                items) as (k & Hk & Hc & Hok & Herr).
    exists k. rewrite Hc. cbn [Sweep.calls]. rewrite <- app_assoc. done.
Qed.

(** X19: the labels that updateClassifierReport puts on what it writes
    are the ones the removal functions select by: every report written
    for a cluster is among those removeClusterClassifierReports asks for
    with that cluster's namespace and name, and every report created for a
    Classifier is among those removeClassifierReports asks for with that
    Classifier. *)
Theorem written_reports_are_selected_for_removal
  {R : Type} `{ReportClient R}
  (m : Management.t R) (cluster : Cluster.t) (report : ClassifierReport.t)
  (s : Sweep.t C) (classifier : Classifier.t) :
  exists new label value label' value',
    Management.calls (updateClassifierReport m cluster report).2
      = Management.calls m ++ new ∧
    head (drop (length (Sweep.calls s))
            (Sweep.calls
               (removeClusterClassifierReports s (Cluster.Namespace cluster)
                  (Cluster.Name cluster)).2))
      = Some (CallListReports label value) ∧
    Forall (hasLabel label value) (reportWrites new) ∧
    head (drop (length (Sweep.calls s))
            (Sweep.calls (removeClassifierReports s classifier).2))
      = Some (CallListReports label' value') ∧
    (forall written labels,
       CallCreate written ∈ new ->
       ClassifierReport.Labels report = Some labels ->
       labels !! ClassifierLabelName = Some (Classifier.Name classifier) ->
       hasLabel label' value' written).
Proof.
  destruct (updateClassifierReport_trace m cluster report)
    as (new & Hc & _ & _ & _ & Hw & Hcreate).
  exists new, classifierReportClusterLabel,
    (getClusterInfo (Cluster.Namespace cluster) (Cluster.Name cluster)),
    ClassifierLabelName, (Classifier.Name classifier).
  split; [done|].
  assert (Hhead : forall label value,
    head (drop (length (Sweep.calls s))
            (Sweep.calls
               (match ListReports (Sweep.client s) label value with
                | Err e =>
                    (Some e,
                     Sweep.mk (Sweep.client s)
                       (Sweep.calls s ++ [CallListReports label value]))
                | Ok items =>
                    deleteReports
                      (Sweep.mk (Sweep.client s)
                         (Sweep.calls s ++ [CallListReports label value])) items
                end).2))
    = Some (CallListReports label value)).
  { intros label value. destruct (ListReports _ _ _) as [items|e].
    - destruct (deleteReports_trace
                  (Sweep.mk (Sweep.client s)
                     (Sweep.calls s ++ [CallListReports label value])) items)
        as (k & _ & -> & _). cbn [Sweep.calls].
      by rewrite <- app_assoc, drop_app_length.
    - cbn [snd Sweep.calls]. by rewrite drop_app_length. }
  split; [apply Hhead|]. split.
  - eapply Forall_impl; [exact Hw|]. by intros written [_ ?].
  - split; [apply Hhead|]. intros written labels Hin Hl Hn.
    by destruct (Hcreate written _ labels Hin Hl Hn) as (_ & _ & ?).
Qed.

(** X20: the cluster label and the report name are built by joining two
    names with two dashes, which does not tell where one name ends:
    removing the reports of cluster [b] in namespace [ns--a] issues
    exactly the calls of removing those of cluster [a--b] in namespace
    [ns], and the report of Classifier [x--y] for cluster [z] has the name
    of the report of Classifier [x] for cluster [y--z]. *)
Theorem report_names_do_not_separate
  (s : Sweep.t C) (ns a b x y z : string) :
  removeClusterClassifierReports s (ns +:+ "--" +:+ a) b
    = removeClusterClassifierReports s ns (a +:+ "--" +:+ b) ∧
  getClassifierReportName (x +:+ "--" +:+ y) z
    = getClassifierReportName x (y +:+ "--" +:+ z).
Proof.
  assert (Hassoc : forall s1 s2 s3 : string, (s1 +:+ s2) +:+ s3 = s1 +:+ (s2 +:+ s3)).
  { intros s1 s2 s3. induction s1 as [|c s1 IH]; [reflexivity|].
    exact (f_equal (String c) IH). }
  unfold removeClusterClassifierReports, getClusterInfo, getClassifierReportName.
  rewrite !Hassoc. done.
Qed.
End ReportRemovalProperties.

(** ** The control plane endpoint of an AccessRequest *)

Lemma splitColon_length (s : string) :
  length (splitColon s) = S (countColons s).
Proof.
  induction s as [|c s IH]; [done|]. cbn [splitColon countColons].
  destruct (decide (c = ":"%char)); cbn [length]; [by rewrite IH|].
  destruct (splitColon s); cbn [length] in *; [done|]. done.
Qed.

Lemma splitColon_no_colon (s : string) :
  countColons s = 0 -> splitColon s = [s].
Proof.
  induction s as [|c s IH]; [done|]. cbn [splitColon countColons].
  destruct (decide (c = ":"%char)); [done|]. intros Hs. by rewrite (IH Hs).
Qed.

Lemma splitColon_app (a b : string) :
  countColons a = 0 -> splitColon (a +:+ ":" +:+ b) = a :: splitColon b.
Proof.
  induction a as [|c a IH]; [done|]. cbn [countColons].
  destruct (decide (c = ":"%char)) as [|Hc]; [done|]. intros Ha.
  change (String c a +:+ ":" +:+ b) with (String c (a +:+ ":" +:+ b)).
  cbn [splitColon]. rewrite decide_False by done. by rewrite (IH Ha).
Qed.

Lemma digitValue_pretty_N_char (d : N) :
  (d < 10)%N -> digitValue (pretty_N_char d) = Some (Z.of_N d).
Proof.
  intros Hd.
  assert (d = 0 ∨ d = 1 ∨ d = 2 ∨ d = 3 ∨ d = 4 ∨ d = 5 ∨ d = 6 ∨ d = 7
          ∨ d = 8 ∨ d = 9)%N as Hcases by lia.
  destruct Hcases as [->|[->|[->|[->|[->|[->|[->|[->|[->| ->]]]]]]]]]; reflexivity.
Qed.

Lemma countColons_pretty_N_char (d : N) (s : string) :
  countColons (String (pretty_N_char d) s) = countColons s.
Proof.
  cbn [countColons]. rewrite decide_False; [done|].
  unfold pretty_N_char. by repeat case_match.
Qed.

Lemma pretty_N_go_digits (x : N) :
  exists k : Z, forall (acc : Z) (s : string),
    digitsValue acc (pretty_N_go x s) = digitsValue (acc * k + Z.of_N x) s ∧
    countColons (pretty_N_go x s) = countColons s.
Proof.
  induction (N.lt_wf_0 x) as [x _ IH].
  destruct (decide (x = 0%N)) as [->|Hx].
  - exists 1%Z. intros acc s. rewrite pretty_N_go_0. split; [f_equal; lia|done].
  - destruct (IH (x `div` 10)%N) as [k Hk]; [apply N.div_lt; lia|].
    exists (10 * k)%Z. intros acc s.
    rewrite pretty_N_go_step by lia.
    destruct (Hk acc (String (pretty_N_char (x `mod` 10)) s)) as [-> ->].
    rewrite countColons_pretty_N_char. split; [|done].
    cbn [digitsValue]. rewrite digitValue_pretty_N_char by (apply N.mod_lt; lia).
    f_equal. pose proof (N.div_mod x 10 ltac:(lia)) as Hdm. lia.
Qed.

Lemma pretty_N_digits (x : N) :
  digitsValue 0 (pretty x) = Some (Z.of_N x) ∧ countColons (pretty x) = 0.
Proof.
  unfold pretty, pretty_N. destruct (decide (x = 0%N)) as [->|Hx]; [done|].
  destruct (pretty_N_go_digits x) as [k Hk].
  destruct (Hk 0%Z "") as [-> ->]. split; [|done]. cbn [digitsValue]. f_equal; lia.
Qed.

Lemma ParseInt32_digits (s : string) (v : Z) :
  s ≠ "" -> digitsValue 0 s = Some v -> ParseInt32 s = Z.min v 2147483647.
Proof.
  destruct s as [|c rest]; [done|]. intros _ Hv. unfold ParseInt32.
  assert (Hd : is_Some (digitValue c)).
  { cbn [digitsValue] in Hv. destruct (digitValue c); [by eexists|done]. }
  assert (Hm : c ≠ "-"%char) by (intros ->; by destruct Hd).
  assert (Hp : c ≠ "+"%char) by (intros ->; by destruct Hd).
  rewrite !decide_False by done. by rewrite Hv.
Qed.

Lemma ParseInt32_pretty (port : N) :
  ParseInt32 (pretty port) = Z.min (Z.of_N port) 2147483647.
Proof.
  destruct (pretty_N_digits port) as [Hv _]. apply ParseInt32_digits; [|done].
  intros Hempty. rewrite Hempty in Hv. cbn in Hv.
  assert (port = 0%N) as -> by (simplify_eq; lia). done.
Qed.

Section AccessRequestProperties.
Context {A : Type} `{AccessClient A}.
Variable accessRequestClassifierLabel : string.
Variable ClassifierAgentRequest : string.
Variable lowerClusterType : ClusterType -> string.

(** X21: the guards of createAccessRequest. Without a control plane
    endpoint in the handler options it returns the "controlplane endpoint
    is missing" error; with an endpoint that has fewer than two colons it
    panics on the third piece; in both cases before anything is asked of
    the management cluster. Otherwise it asks once for the AccessRequest
    of the cluster; one that exists is left as it is, with a nil error,
    whatever endpoint it holds; an error other than not-found is returned;
    and only a missing one is created. *)
Theorem createAccessRequest_guards
  (d : Desk.t A) (clusterNamespace clusterName : string) (clusterType : ClusterType)
  (options : Options.t) :
  (Options.HandlerOptions options = None ∨
   (exists handlerOptions,
      Options.HandlerOptions options = Some handlerOptions ∧
      handlerOptions !! controlplaneendpoint = None) ->
   createAccessRequest accessRequestClassifierLabel ClassifierAgentRequest
     lowerClusterType d clusterNamespace clusterName clusterType options
   = (Returns (Some (errorsNew "controlplane endpoint is missing")), d)) ∧
  (forall handlerOptions cpEndpoint,
     Options.HandlerOptions options = Some handlerOptions ->
     handlerOptions !! controlplaneendpoint = Some cpEndpoint ->
     (countColons cpEndpoint < 2 ->
      createAccessRequest accessRequestClassifierLabel ClassifierAgentRequest
        lowerClusterType d clusterNamespace clusterName clusterType options
      = (Panics "index out of range", d)) ∧
     (2 <= countColons cpEndpoint ->
      exists tail,
        Desk.calls
          (createAccessRequest accessRequestClassifierLabel ClassifierAgentRequest
             lowerClusterType d clusterNamespace clusterName clusterType options).2
          = Desk.calls d ++
            CallGetAccessRequest clusterNamespace
              (lowerClusterType clusterType +:+ "-" +:+ clusterName) :: tail ∧
        match GetAccessRequest (Desk.client d) clusterNamespace
                (lowerClusterType clusterType +:+ "-" +:+ clusterName) with
        | Ok _ =>
            tail = [] ∧
            (createAccessRequest accessRequestClassifierLabel ClassifierAgentRequest
               lowerClusterType d clusterNamespace clusterName clusterType options).1
            = Returns None
        | Err e =>
            if IsNotFound e
            then exists request,
                   tail = [CallCreateAccessRequest request] ∧
                   AccessRequest.Namespace request = clusterNamespace ∧
                   AccessRequest.Name request
                     = lowerClusterType clusterType +:+ "-" +:+ clusterName ∧
                   AccessRequestSpec.Namespace (AccessRequest.Spec request)
                     = clusterNamespace ∧
                   AccessRequestSpec.Name (AccessRequest.Spec request) = clusterName ∧
                   (createAccessRequest accessRequestClassifierLabel
                      ClassifierAgentRequest lowerClusterType d clusterNamespace
                      clusterName clusterType options).1
                   = Returns (CreateAccessRequest (Desk.client d) request).1
            else tail = [] ∧
                 (createAccessRequest accessRequestClassifierLabel
                    ClassifierAgentRequest lowerClusterType d clusterNamespace
                    clusterName clusterType options).1
                 = Returns (Some e)
        end)).
Proof.
  unfold createAccessRequest, getAccessRequestName. split.
  - intros [-> | (handlerOptions & -> & ->)]; reflexivity.
  - intros handlerOptions cpEndpoint -> ->.
    pose proof (splitColon_length cpEndpoint) as Hlen. split.
    + intros Hlt. rewrite (proj2 (lookup_ge_None (splitColon cpEndpoint) 2)) by lia.
      reflexivity.
    + intros Hge.
      destruct (lookup_lt_is_Some_2 (splitColon cpEndpoint) 2 ltac:(lia)) as [info2 ->].
      cbn [Desk.client Desk.calls].
      destruct (GetAccessRequest _ _ _) as [found|e].
      * exists []. done.
      * destruct (IsNotFound e).
        -- destruct (CreateAccessRequest _ _) as [err c] eqn:Hcreate.
           eexists. cbn [fst snd Desk.calls]. rewrite <- app_assoc.
           split; [reflexivity|]. eexists. split; [reflexivity|].
           cbn. by rewrite Hcreate.
        -- exists []. done.
Qed.

(** X22: the endpoint an AccessRequest is created with. For a control
    plane endpoint of the form scheme:rest:port, with no colon inside the
    scheme and the rest and the port written in decimal, a missing
    AccessRequest is created with the host scheme:rest, so the scheme
    stays part of the host, and with that port; a port above the int32
    range is silently stored as 2147483647. *)
Theorem createAccessRequest_endpoint
  (d : Desk.t A) (clusterNamespace clusterName : string) (clusterType : ClusterType)
  (handlerOptions : gmap string string) (scheme rest : string) (port : N) (e : error) :
  countColons scheme = 0 ->
  countColons rest = 0 ->
  handlerOptions !! controlplaneendpoint
    = Some (scheme +:+ ":" +:+ rest +:+ ":" +:+ pretty port) ->
  GetAccessRequest (Desk.client d) clusterNamespace
    (lowerClusterType clusterType +:+ "-" +:+ clusterName) = Err e ->
  IsNotFound e = true ->
  exists request,
    Desk.calls
      (createAccessRequest accessRequestClassifierLabel ClassifierAgentRequest
         lowerClusterType d clusterNamespace clusterName clusterType
         (Options.mk (Some handlerOptions))).2
      = Desk.calls d ++
        [CallGetAccessRequest clusterNamespace
           (lowerClusterType clusterType +:+ "-" +:+ clusterName);
         CallCreateAccessRequest request] ∧
    APIEndpoint.Host (AccessRequestSpec.ControlPlaneEndpoint (AccessRequest.Spec request))
      = scheme +:+ ":" +:+ rest ∧
    APIEndpoint.Port (AccessRequestSpec.ControlPlaneEndpoint (AccessRequest.Spec request))
      = Z.min (Z.of_N port) 2147483647 ∧
    AccessRequest.Labels request = Some {[accessRequestClassifierLabel := "ok"]} ∧
    AccessRequest.SecretRef request = None.
Proof.
  intros Hscheme Hrest Hopt Hget Hnf.
  unfold createAccessRequest, getAccessRequestName.
  cbn [Options.HandlerOptions]. rewrite Hopt.
  rewrite (splitColon_app scheme _ Hscheme), (splitColon_app rest _ Hrest).
  rewrite (splitColon_no_colon (pretty port)) by apply pretty_N_digits.
  cbn [lookup list_lookup Desk.client Desk.calls default from_option id].
  rewrite Hget, Hnf.
  destruct (CreateAccessRequest _ _) as [err c].
  eexists. cbn [snd Desk.calls]. rewrite <- app_assoc. split; [reflexivity|].
  cbn. split; [done|]. split; [apply ParseInt32_pretty|done].
Qed.
End AccessRequestProperties.

(** ** The kubeconfig of an AccessRequest and its copy in the managed cluster *)

Section KubeconfigProperties.
Context {A : Type} `{AccessClient A} {R : Type} `{SecretClient R}.
Variable ClassifierSecretNamespace : string.
Variable ClassifierSecretName : string.
Variable lowerClusterType : ClusterType -> string.
Variable rangeFirst : gmap string bytes -> option (string * bytes).

(** X23: getKubeconfigFromAccessRequest reads the AccessRequest of the
    cluster and, only when it names a Secret, that Secret. A failed read
    is returned as the error. Without a Secret reference, or with a Secret
    that holds no data, the answer is a nil kubeconfig and a nil error.
    Otherwise the answer is the content of one entry of the Secret,
    whichever the iteration visits first, so with a single entry it is
    that entry. *)
Theorem getKubeconfigFromAccessRequest_reads
  (d : Desk.t A) (clusterNamespace clusterName : string) (clusterType : ClusterType) :
  (forall m, match rangeFirst m with
             | Some (key, contents) => m !! key = Some contents
             | None => m = ∅
             end) ->
  (forall e,
     GetAccessRequest (Desk.client d) clusterNamespace
       (lowerClusterType clusterType +:+ "-" +:+ clusterName) = Err e ->
     getKubeconfigFromAccessRequest lowerClusterType rangeFirst d clusterNamespace
       clusterName clusterType
     = (Err e,
        Desk.mk (Desk.client d)
          (Desk.calls d ++
             [CallGetAccessRequest clusterNamespace
                (lowerClusterType clusterType +:+ "-" +:+ clusterName)]))) ∧
  (forall request,
     GetAccessRequest (Desk.client d) clusterNamespace
       (lowerClusterType clusterType +:+ "-" +:+ clusterName) = Ok request ->
     AccessRequest.SecretRef request = None ->
     getKubeconfigFromAccessRequest lowerClusterType rangeFirst d clusterNamespace
       clusterName clusterType
     = (Ok None,
        Desk.mk (Desk.client d)
          (Desk.calls d ++
             [CallGetAccessRequest clusterNamespace
                (lowerClusterType clusterType +:+ "-" +:+ clusterName)]))) ∧
  (forall request ref,
     GetAccessRequest (Desk.client d) clusterNamespace
       (lowerClusterType clusterType +:+ "-" +:+ clusterName) = Ok request ->
     AccessRequest.SecretRef request = Some ref ->
     Desk.calls
       (getKubeconfigFromAccessRequest lowerClusterType rangeFirst d clusterNamespace
          clusterName clusterType).2
       = Desk.calls d ++
         [CallGetAccessRequest clusterNamespace
            (lowerClusterType clusterType +:+ "-" +:+ clusterName);
          CallGetSecret (ObjectReference.Namespace ref) (ObjectReference.Name ref)] ∧
     match GetSecret (Desk.client d) (ObjectReference.Namespace ref)
             (ObjectReference.Name ref) with
     | Err e =>
         (getKubeconfigFromAccessRequest lowerClusterType rangeFirst d clusterNamespace
            clusterName clusterType).1 = Err e
     | Ok secret =>
         exists kubeconfig,
           (getKubeconfigFromAccessRequest lowerClusterType rangeFirst d
              clusterNamespace clusterName clusterType).1 = Ok kubeconfig ∧
           (default ∅ (Secret.Data secret) = ∅ -> kubeconfig = None) ∧
           (default ∅ (Secret.Data secret) ≠ ∅ ->
            exists key, default ∅ (Secret.Data secret) !! key = Some kubeconfig) ∧
           (forall key contents,
              Secret.Data secret = Some {[key := contents]} -> kubeconfig = contents)
     end).
Proof.
  intros Hfirst. unfold getKubeconfigFromAccessRequest, getAccessRequestName.
  split_and!.
  - by intros e ->.
  - by intros request -> ->.
  - intros request ref -> ->. cbn [Desk.client Desk.calls].
    destruct (GetSecret _ _ _) as [secret|e].
    + specialize (Hfirst (default ∅ (Secret.Data secret))).
      destruct (rangeFirst (default ∅ (Secret.Data secret))) as [[key contents]|].
      * cbn [fst snd Desk.calls]. rewrite <- app_assoc. split; [done|].
        exists contents. split_and!; try done.
        -- intros Hempty. rewrite Hempty, lookup_empty in Hfirst. done.
        -- eauto.
        -- intros key' contents' Hdata. rewrite Hdata in Hfirst.
           cbn [default from_option id] in Hfirst.
           apply lookup_singleton_Some in Hfirst as [_ ?]. done.
      * cbn [fst snd Desk.calls]. rewrite <- app_assoc. split; [done|].
        exists None. split_and!; try done.
        intros key' contents' Hdata. rewrite Hdata in Hfirst.
        cbn [default from_option id] in Hfirst.
        exfalso. by apply (insert_non_empty (M:=gmap string) ∅ key' contents').
    + cbn [fst snd Desk.calls]. rewrite <- app_assoc. done.
Qed.

(** X24: updateSecretWithAccessManagementKubeconfig. When the Classifier
    or the cluster is marked for deletion it returns an error without
    reaching the managed cluster. It writes at most one Secret, and what
    it writes holds the kubeconfig under the key "kubeconfig". A Secret
    that already holds this kubeconfig is left alone, with a nil error, so
    repeating the call after a write that took effect writes nothing. A
    Secret that exists without any data makes it panic before the
    Update. *)
Theorem updateSecret_idempotent
  (access : ClusterAccess.t R) (clusterNamespace clusterName applicant : string)
  (clusterType : ClusterType) (kubeconfig : bytes) :
  (forall classifier,
     ClusterAccess.getClassifier access applicant = Ok classifier ->
     Classifier.DeletionTimestamp classifier ≠ None ∨
     (exists ts, ClusterAccess.getCluster access clusterNamespace clusterName
                   clusterType = Ok (Some ts)) ->
     exists e,
       updateSecretWithAccessManagementKubeconfig ClassifierSecretNamespace
         ClassifierSecretName access clusterNamespace clusterName applicant
         clusterType kubeconfig = (Returns (Some e), [])) ∧
  length (secretWrites
            (updateSecretWithAccessManagementKubeconfig ClassifierSecretNamespace
               ClassifierSecretName access clusterNamespace clusterName applicant
               clusterType kubeconfig).2) <= 1 ∧
  Forall (fun secret =>
            default ∅ (Secret.Data secret) !! "kubeconfig" = Some kubeconfig)
    (secretWrites
       (updateSecretWithAccessManagementKubeconfig ClassifierSecretNamespace
          ClassifierSecretName access clusterNamespace clusterName applicant
          clusterType kubeconfig).2) ∧
  (forall classifier remoteClient r secret,
     getClassifierAndClusterClient access clusterNamespace clusterName applicant
       clusterType = Ok (classifier, remoteClient) ->
     createSecretNamespace ClassifierSecretNamespace (Remote.mk remoteClient [])
       = (None, r) ->
     GetRemoteSecret (Remote.client r) ClassifierSecretNamespace ClassifierSecretName
       = Ok secret ->
     (default ∅ (Secret.Data secret) !! "kubeconfig" = Some kubeconfig ->
      (updateSecretWithAccessManagementKubeconfig ClassifierSecretNamespace
         ClassifierSecretName access clusterNamespace clusterName applicant
         clusterType kubeconfig).1 = Returns None ∧
      secretWrites
        (updateSecretWithAccessManagementKubeconfig ClassifierSecretNamespace
           ClassifierSecretName access clusterNamespace clusterName applicant
           clusterType kubeconfig).2 = []) ∧
     (Secret.Data secret = None ->
      (updateSecretWithAccessManagementKubeconfig ClassifierSecretNamespace
         ClassifierSecretName access clusterNamespace clusterName applicant
         clusterType kubeconfig).1 = Panics "assignment to entry in nil map" ∧
      secretWrites
        (updateSecretWithAccessManagementKubeconfig ClassifierSecretNamespace
           ClassifierSecretName access clusterNamespace clusterName applicant
           clusterType kubeconfig).2 = [])).
Proof.
  assert (Hns : forall r0 : Remote.t R,
    secretWrites (Remote.calls r0) = [] ->
    secretWrites
      (Remote.calls (createSecretNamespace ClassifierSecretNamespace r0).2) = []).
  { intros r0 Hr0. unfold createSecretNamespace.
    destruct (GetNamespace _ _) as [e|]; cbn [Remote.client Remote.calls snd].
    - destruct (IsNotFound e).
      + destruct (CreateNamespace _ _). cbn [snd Remote.calls].
        unfold secretWrites in *. by rewrite !omap_app, Hr0.
      + cbn [snd Remote.calls]. unfold secretWrites in *. by rewrite omap_app, Hr0.
    - unfold secretWrites in *. by rewrite omap_app, Hr0. }
  split_and!.
  - intros classifier Hc Hdel.
    unfold updateSecretWithAccessManagementKubeconfig, getClassifierAndClusterClient.
    rewrite Hc. destruct (Classifier.DeletionTimestamp classifier) as [ts|] eqn:Hts.
    + cbn [IsZero negb]. by eexists.
    + destruct Hdel as [Hd|[ts ->]]; [done|]. cbn [IsZero negb]. by eexists.
  - unfold updateSecretWithAccessManagementKubeconfig.
    destruct (getClassifierAndClusterClient _ _ _ _ _) as [[classifier remoteClient]|e];
      [|cbn; lia].
    pose proof (Hns (Remote.mk remoteClient []) eq_refl) as Hw.
    destruct (createSecretNamespace _ _) as [[e|] r]; cbn [snd] in Hw.
    { cbn [snd]. rewrite Hw. cbn. lia. }
    cbn [Remote.client Remote.calls].
    destruct (GetRemoteSecret _ _ _) as [secret|e].
    + destruct (default ∅ (Secret.Data secret) !! "kubeconfig") as [current|].
      * destruct (DeepEqual current kubeconfig).
        -- cbn [snd]. unfold secretWrites in *. rewrite omap_app, Hw. cbn. lia.
        -- destruct (Secret.Data secret) as [data|].
           ++ destruct (UpdateSecret _ _). cbn [snd]. unfold secretWrites in *.
              rewrite !omap_app, Hw. cbn. lia.
           ++ cbn [snd]. unfold secretWrites in *. rewrite omap_app, Hw. cbn. lia.
      * destruct (Secret.Data secret) as [data|].
        -- destruct (UpdateSecret _ _). cbn [snd]. unfold secretWrites in *.
           rewrite !omap_app, Hw. cbn. lia.
        -- cbn [snd]. unfold secretWrites in *. rewrite omap_app, Hw. cbn. lia.
    + destruct (CreateSecret _ _). cbn [snd]. unfold secretWrites in *.
      rewrite !omap_app, Hw. cbn. lia.
  - unfold updateSecretWithAccessManagementKubeconfig.
    destruct (getClassifierAndClusterClient _ _ _ _ _) as [[classifier remoteClient]|e];
      [|by cbn].
    pose proof (Hns (Remote.mk remoteClient []) eq_refl) as Hw.
    destruct (createSecretNamespace _ _) as [[e|] r]; cbn [snd] in Hw.
    { cbn [snd]. by rewrite Hw. }
    cbn [Remote.client Remote.calls].
    destruct (GetRemoteSecret _ _ _) as [secret|e].
    + destruct (default ∅ (Secret.Data secret) !! "kubeconfig") as [current|].
      * destruct (DeepEqual current kubeconfig).
        -- cbn [snd]. unfold secretWrites in *. rewrite omap_app, Hw. by cbn.
        -- destruct (Secret.Data secret) as [data|].
           ++ destruct (UpdateSecret _ _). cbn [snd]. unfold secretWrites in *.
              rewrite !omap_app, Hw. cbn. constructor; [|done].
              cbn. apply lookup_insert_eq.
           ++ cbn [snd]. unfold secretWrites in *. rewrite omap_app, Hw. by cbn.
      * destruct (Secret.Data secret) as [data|].
        -- destruct (UpdateSecret _ _). cbn [snd]. unfold secretWrites in *.
           rewrite !omap_app, Hw. cbn. constructor; [|done].
           cbn. apply lookup_insert_eq.
        -- cbn [snd]. unfold secretWrites in *. rewrite omap_app, Hw. by cbn.
    + destruct (CreateSecret _ _). cbn [snd]. unfold secretWrites in *.
      rewrite !omap_app, Hw. cbn. constructor; [|done].
      cbn. apply lookup_singleton_eq.
  - intros classifier remoteClient r secret Haccess Hcreate Hget.
    pose proof (Hns (Remote.mk remoteClient []) eq_refl) as Hw.
    rewrite Hcreate in Hw. cbn [snd] in Hw.
    unfold updateSecretWithAccessManagementKubeconfig.
    rewrite Haccess, Hcreate. cbn [Remote.client Remote.calls]. rewrite Hget.
    split.
    + intros ->. unfold DeepEqual. rewrite bool_decide_eq_true_2 by done.
      cbn [fst snd]. split; [done|]. unfold secretWrites in *.
      by rewrite omap_app, Hw.
    + intros Hnil. rewrite Hnil. cbn [default from_option id].
      rewrite lookup_empty. cbn [fst snd]. split; [done|].
      unfold secretWrites in *. by rewrite omap_app, Hw.
Qed.
End KubeconfigProperties.

(** ** The further properties at concrete inputs *)

(** X1 at a pair recorded as Provisioning whose deploy has completed. *)
Lemma processClassifier_entry_shape_witness :
  (processClassifier healthy exampleReconciler
     (acme [entryA ClassifierStatusProvisioning] []) "" clusterA featureClassifier
     (queueWith false None)).1.1
    = Some (ClusterInfo.mk clusterA (labelBytes (acme [] []))
              ClassifierStatusProvisioned (Some "")) ∧
  ClusterInfo.Status
    (ClusterInfo.mk clusterA (labelBytes (acme [] []))
       ClassifierStatusProvisioned (Some ""))
    ∈ [ClassifierStatusProvisioned; ClassifierStatusProvisioning;
       ClassifierStatusFailed; ClassifierStatusRemoved].
Proof.
  assert (H1 : (processClassifier healthy exampleReconciler
                  (acme [entryA ClassifierStatusProvisioning] []) "" clusterA
                  featureClassifier (queueWith false None)).1.1
               = Some (ClusterInfo.mk clusterA (labelBytes (acme [] []))
                         ClassifierStatusProvisioned (Some "")))
    by (vm_compute; reflexivity).
  split; [exact H1|].
  pose proof (processClassifier_entry_shape healthy exampleReconciler
                (acme [entryA ClassifierStatusProvisioning] []) "" clusterA
                featureClassifier (queueWith false None)
                (ClusterInfo.mk clusterA (labelBytes (acme [] []))
                   ClassifierStatusProvisioned (Some "")) H1) as T.
  exact (proj1 (proj2 (proj2 (proj2 T)))).
Defined.

(** X3 at a Classifier recorded as Provisioned on clusters A and B, of
    which B is paused: the pass succeeds and keeps the entry of A only. *)
Lemma deployClassifier_success_witness :
  (deployClassifier pausedB exampleReconciler
     (acme [entryA ClassifierStatusProvisioned; entryB ClassifierStatusProvisioned] [])
     featureClassifier idleQueue).1.2 = None ∧
  ClusterInfo.Cluster <$>
    statusClusterInfo
      (deployClassifier pausedB exampleReconciler
         (acme [entryA ClassifierStatusProvisioned; entryB ClassifierStatusProvisioned] [])
         featureClassifier idleQueue).1.1
  = filter (fun c =>
              canProceed pausedB
                (acme [entryA ClassifierStatusProvisioned;
                       entryB ClassifierStatusProvisioned] []) c = Ok true)
      [clusterA; clusterB].
Proof.
  assert (H1 : (deployClassifier pausedB exampleReconciler
                  (acme [entryA ClassifierStatusProvisioned;
                         entryB ClassifierStatusProvisioned] [])
                  featureClassifier idleQueue).1.2 = None)
    by (vm_compute; reflexivity).
  split; [exact H1|].
  pose proof (deployClassifier_success pausedB exampleReconciler
                (acme [entryA ClassifierStatusProvisioned;
                       entryB ClassifierStatusProvisioned] [])
                featureClassifier idleQueue H1) as T.
  exact (proj1 T).
Defined.

(** X5 at a Classifier recorded as Provisioned on cluster A, with an idle
    deployer: nothing is dispatched and the entry stays. *)
Lemma deployClassifier_converged_witness :
  Queue.deployer idleQueue = FakeDeployer.mk [] [] ∧
  (deployClassifier healthy exampleReconciler
     (acme [entryA ClassifierStatusProvisioned] []) featureClassifier idleQueue).1.2
    = None ∧
  noDispatch (Queue.calls idleQueue)
    (Queue.calls
       (deployClassifier healthy exampleReconciler
          (acme [entryA ClassifierStatusProvisioned] []) featureClassifier idleQueue).2).
Proof.
  assert (H1 : (fun d => d = FakeDeployer.mk [] []) (Queue.deployer idleQueue))
    by reflexivity.
  assert (H2 : forall d e,
    (fun d => d = FakeDeployer.mk [] []) d ->
    e ∈ statusClusterInfo (acme [entryA ClassifierStatusProvisioned] []) ->
    IsInProgress d
      (ObjectReference.Namespace (ClusterInfo.Cluster e))
      (ObjectReference.Name (ClusterInfo.Cluster e))
      (Classifier.Name (acme [entryA ClassifierStatusProvisioned] []))
      (feature.id featureClassifier)
      (Environment.getClusterType healthy (ClusterInfo.Cluster e)) true = false ∧
    (Result.Status
       (GetResult d
          (ObjectReference.Namespace (ClusterInfo.Cluster e))
          (ObjectReference.Name (ClusterInfo.Cluster e))
          (Classifier.Name (acme [entryA ClassifierStatusProvisioned] []))
          (feature.id featureClassifier)
          (Environment.getClusterType healthy (ClusterInfo.Cluster e)) false).1
       = Deployed ∨
     Result.Status
       (GetResult d
          (ObjectReference.Namespace (ClusterInfo.Cluster e))
          (ObjectReference.Name (ClusterInfo.Cluster e))
          (Classifier.Name (acme [entryA ClassifierStatusProvisioned] []))
          (feature.id featureClassifier)
          (Environment.getClusterType healthy (ClusterInfo.Cluster e)) false).1
       = Unavailable) ∧
    (fun d => d = FakeDeployer.mk [] [])
      (GetResult d
         (ObjectReference.Namespace (ClusterInfo.Cluster e))
         (ObjectReference.Name (ClusterInfo.Cluster e))
         (Classifier.Name (acme [entryA ClassifierStatusProvisioned] []))
         (feature.id featureClassifier)
         (Environment.getClusterType healthy (ClusterInfo.Cluster e)) false).2).
  { intros d e Hd He. rewrite Hd.
    apply list_elem_of_singleton in He. rewrite He.
    split; [reflexivity|]. split; [right; reflexivity | reflexivity]. }
  assert (H3 : forall e,
    e ∈ statusClusterInfo (acme [entryA ClassifierStatusProvisioned] []) ->
    canProceed healthy (acme [entryA ClassifierStatusProvisioned] [])
      (ClusterInfo.Cluster e) = Ok true ∧
    exists h,
      getCurrentHash healthy exampleReconciler
        (acme [entryA ClassifierStatusProvisioned] [])
        (ClassifierReconciler.ControlPlaneEndpoint exampleReconciler)
        (ClusterInfo.Cluster e) featureClassifier = Ok h ∧
      getClassifierInClusterHashAndStatus
        (acme [entryA ClassifierStatusProvisioned] []) (ClusterInfo.Cluster e)
        = (h, Some ClassifierStatusProvisioned)).
  { intros e He. apply list_elem_of_singleton in He. rewrite He.
    split; [reflexivity|]. exists (labelBytes (acme [] [])).
    split; [reflexivity | vm_compute; reflexivity]. }
  split; [exact H1|].
  pose proof (deployClassifier_converged healthy exampleReconciler
                (acme [entryA ClassifierStatusProvisioned] []) featureClassifier
                idleQueue (fun d => d = FakeDeployer.mk [] []) H1 H2 H3) as T.
  exact (conj (proj1 T) (proj1 (proj2 (proj2 T)))).
Defined.

(** X9 at a Classifier with matching reports from clusters A and B and a
    key manager without claims: both grant the label, so the Classifier
    is in AllClassifierSet and not in ClassifierSet. *)
Lemma conflict_set_tracks_unmanaged_witness :
  (forall site s, elementsOrder site s ≡ₚ elements s) ∧
  Registry.instanceError emptyRegistry = None ∧
  exists r' w' classifier',
    updateMatchingClustersAndRegistrations elementsOrder exampleReconciler
      emptyRegistry (acme [] []) (Ok [reportFor clusterA true; reportFor clusterB true])
      = (r', w', classifier', None) ∧
    ClassifierReconciler.AllClassifierSet r'
      = {[classifierPolicyRef (Classifier.Name (acme [] []))]}
        ∪ ClassifierReconciler.AllClassifierSet exampleReconciler.
Proof.
  assert (H1 : forall site s, elementsOrder site s ≡ₚ elements s)
    by (intros site s; reflexivity).
  assert (H2 : Registry.instanceError emptyRegistry = None) by reflexivity.
  split; [exact H1|]. split; [exact H2|].
  destruct (conflict_set_tracks_unmanaged elementsOrder exampleReconciler
              emptyRegistry (acme [] [])
              [reportFor clusterA true; reportFor clusterB true] H1 H2)
    as (r' & w' & classifier' & Hrun & Hall & _).
  exists r', w', classifier'. split; [exact Hrun | exact Hall].
Defined.

(** X15 at a Classifier whose reports match on clusters A and B: the
    pass ends with an error and the deployer queue is untouched. *)
Lemma reconcileNormal_blocked_by_second_match_witness :
  ContainsFinalizer (Pass.classifier livePass) ClassifierFinalizer = true ∧
  ListClassifierReports (Hub.client twoMatches)
    (Classifier.Name (Pass.classifier livePass))
    = Ok [reportFor clusterA true; reportFor clusterB true] ∧
  2 <= size (currentMatching [reportFor clusterA true; reportFor clusterB true]) ∧
  (forall m : FakeHub.t, exists e, GetCluster m "" "" = Err e) ∧
  (reconcileNormal elementsOrder healthy livePass twoMatches).1.1.2 ≠ None ∧
  Pass.queue (reconcileNormal elementsOrder healthy livePass twoMatches).1.2
    = Pass.queue livePass.
Proof.
  assert (H1 : ContainsFinalizer (Pass.classifier livePass) ClassifierFinalizer = true)
    by (vm_compute; reflexivity).
  assert (H2 : ListClassifierReports (Hub.client twoMatches)
                 (Classifier.Name (Pass.classifier livePass))
               = Ok [reportFor clusterA true; reportFor clusterB true])
    by (vm_compute; reflexivity).
  assert (H3 : 2 <= size (currentMatching
                            [reportFor clusterA true; reportFor clusterB true])).
  { assert (Hs : size (currentMatching
                         [reportFor clusterA true; reportFor clusterB true]) = 2)
      by (vm_compute; reflexivity).
    rewrite Hs. apply le_n. }
  assert (H4 : forall m : FakeHub.t, exists e, GetCluster m "" "" = Err e).
  { intros m. exists (OtherError "resource name may not be empty"). reflexivity. }
  split; [exact H1|]. split; [exact H2|]. split; [exact H3|]. split; [exact H4|].
  pose proof (reconcileNormal_blocked_by_second_match elementsOrder healthy
                livePass twoMatches
                [reportFor clusterA true; reportFor clusterB true] H1 H2 H3 H4) as T.
  exact (conj (proj1 T) (proj1 (proj2 (proj2 T)))).
Defined.

(** X22 at the endpoint of the tests, with the scheme https. *)
Lemma createAccessRequest_endpoint_witness :
  countColons "https" = 0 ∧
  countColons "//192.168.10.1" = 0 ∧
  ({[controlplaneendpoint := "https://192.168.10.1:443"]} : gmap string string)
    !! controlplaneendpoint
    = Some ("https" +:+ ":" +:+ "//192.168.10.1" +:+ ":" +:+ pretty 443%N) ∧
  GetAccessRequest (Desk.client emptyDesk) "default"
    (exampleLowerClusterType ClusterTypeCapi +:+ "-" +:+ "cluster-a")
    = Err (NotFoundError "accessrequest not found") ∧
  exists request,
    Desk.calls
      (createAccessRequest "projectsveltos.io/classifier" "ClassifierAgent"
         exampleLowerClusterType emptyDesk "default" "cluster-a" ClusterTypeCapi
         (Options.mk (Some {[controlplaneendpoint := "https://192.168.10.1:443"]}))).2
      = Desk.calls emptyDesk ++
        [CallGetAccessRequest "default"
           (exampleLowerClusterType ClusterTypeCapi +:+ "-" +:+ "cluster-a");
         CallCreateAccessRequest request] ∧
    APIEndpoint.Host (AccessRequestSpec.ControlPlaneEndpoint (AccessRequest.Spec request))
      = "https" +:+ ":" +:+ "//192.168.10.1" ∧
    APIEndpoint.Port (AccessRequestSpec.ControlPlaneEndpoint (AccessRequest.Spec request))
      = Z.min (Z.of_N 443) 2147483647.
Proof.
  assert (H1 : countColons "https" = 0) by reflexivity.
  assert (H2 : countColons "//192.168.10.1" = 0) by reflexivity.
  assert (H3 : ({[controlplaneendpoint := "https://192.168.10.1:443"]}
                  : gmap string string) !! controlplaneendpoint
               = Some ("https" +:+ ":" +:+ "//192.168.10.1" +:+ ":" +:+ pretty 443%N))
    by (vm_compute; reflexivity).
  assert (H4 : GetAccessRequest (Desk.client emptyDesk) "default"
                 (exampleLowerClusterType ClusterTypeCapi +:+ "-" +:+ "cluster-a")
               = Err (NotFoundError "accessrequest not found")) by reflexivity.
  assert (H5 : IsNotFound (NotFoundError "accessrequest not found") = true)
    by reflexivity.
  split; [exact H1|]. split; [exact H2|]. split; [exact H3|]. split; [exact H4|].
  destruct (createAccessRequest_endpoint "projectsveltos.io/classifier"
              "ClassifierAgent" exampleLowerClusterType emptyDesk "default"
              "cluster-a" ClusterTypeCapi
              {[controlplaneendpoint := "https://192.168.10.1:443"]}
              "https" "//192.168.10.1" 443%N
              (NotFoundError "accessrequest not found") H1 H2 H3 H4 H5)
    as (request & Hcalls & Hhost & Hport & _).
  exists request. split; [exact Hcalls|]. split; [exact Hhost | exact Hport].
Defined.

(** X23 at an AccessRequest that names a Secret with one entry: the
    kubeconfig returned is the content of that entry. *)
Lemma getKubeconfigFromAccessRequest_reads_witness :
  (forall m, match firstEntry m with
             | Some (key, contents) => m !! key = Some contents
             | None => m = ∅
             end) ∧
  (getKubeconfigFromAccessRequest exampleLowerClusterType firstEntry grantedDesk
     "default" "cluster-a" ClusterTypeCapi).1 = Ok kubeconfigBytes.
Proof.
  assert (H1 : forall m, match firstEntry m with
                         | Some (key, contents) => m !! key = Some contents
                         | None => m = ∅
                         end).
  { intros m. unfold firstEntry.
    destruct (map_to_list m) as [|[key contents] l] eqn:Hl; cbn [head].
    - by apply map_to_list_empty_iff.
    - apply elem_of_map_to_list. rewrite Hl. left. }
  split; [exact H1|].
  pose proof (getKubeconfigFromAccessRequest_reads exampleLowerClusterType
                firstEntry grantedDesk "default" "cluster-a" ClusterTypeCapi H1) as T.
  assert (Hget : GetAccessRequest (Desk.client grantedDesk) "default"
                   (exampleLowerClusterType ClusterTypeCapi +:+ "-" +:+ "cluster-a")
                 = Ok (AccessRequest.mk "default" "capi-cluster-a" None
                         (AccessRequestSpec.mk "default" "cluster-a" "ClassifierAgent"
                            (APIEndpoint.mk "https://192.168.10.1" 443))
                         (Some (ObjectReference.mk "Secret" "default"
                                  "capi-cluster-a-secret" "v1"))))
    by reflexivity.
  destruct (proj2 (proj2 T) _ _ Hget eq_refl) as [_ Hres].
  assert (Hsecret : GetSecret (Desk.client grantedDesk)
                      (ObjectReference.Namespace
                         (ObjectReference.mk "Secret" "default"
                            "capi-cluster-a-secret" "v1"))
                      (ObjectReference.Name
                         (ObjectReference.mk "Secret" "default"
                            "capi-cluster-a-secret" "v1"))
                    = Ok (Secret.mk "default" "capi-cluster-a-secret"
                            (Some {["data" := kubeconfigBytes]})))
    by reflexivity.
  rewrite Hsecret in Hres.
  destruct Hres as (kubeconfig & Hk & _ & _ & Hsingle).
  rewrite Hk. f_equal. exact (Hsingle "data" kubeconfigBytes eq_refl).
Defined.
